(** * Bill storage: a shallow embedding of [src/utils/billStorage.js] and
    [src/utils/billstorage2.js]

    The two modules keep an array of bill records, serialised as JSON, in
    one [localStorage] slot each.  Every exported function reads the whole
    slot, works on the parsed array and writes the whole array back.

    The embedding has four layers:
    - JavaScript values, exceptions and the few built-in operations the
      modules call (property access, [===], [toLowerCase], [padStart],
      [findIndex], [find], [some], [splice]);
    - [JSON.parse] and [JSON.stringify], as a printer and a parser of JSON
      text with the conversion between text trees and values;
    - [localStorage] as a finite map from keys to strings together with
      the sequence of writes, threaded through a state-and-exception monad;
    - the functions of the two modules, written in that monad.

    Modelling choices, all of them about the platform and none about the
    code of the repository:
    - strings are sequences of 8-bit code units (the Latin-1 range); a
      [\uXXXX] escape above [00FF] is outside the model;
    - numbers are integers; a JSON number with a fraction or an exponent is
      outside the model (bill records carry strings);
    - the members of an object are a finite map, so two objects are equal
      when they have the same properties with the same values;
      [JSON.stringify] prints the members in the map's own order;
    - the clock is an input: each function takes the [Date] values and the
      [Date.now()] reading it obtains while it runs. *)

From stdpp Require Import gmap strings list fin_maps pretty.
From Stdlib Require Import Ascii.

Set Warnings "-register-all".

(** ** JavaScript values *)

Inductive value :=
  | VUndefined
  | VNull
  | VBool (b : bool)
  | VNum (n : Z)
  | VStr (s : string)
  | VArr (l : list value)
  | VObj (m : gmap string value).

Global Instance value_inhabited : Inhabited value := populate VUndefined.

(** The exceptions the modules can raise: the two built-in error classes
    that the platform throws, and [Error(message)] thrown by the code. *)
Inductive exn :=
  | SyntaxError
  | TypeError
  | Error (message : string).

Inductive result (A : Type) :=
  | Ok (a : A)
  | Throw (e : exn).
Global Arguments Ok {A} a.
Global Arguments Throw {A} e.

Definition result_bind {A B} (r : result A) (f : A → result B) : result B :=
  match r with
  | Ok a => f a
  | Throw e => Throw e
  end.

Global Instance result_ret : MRet result := @Ok.
Global Instance result_mbind : MBind result := λ A B f r, result_bind r f.

(** [v.k], for the property names the modules read ([id], [customer],
    [address], [city], [invoice], [invoiceNumber], [createdAt]): none of
    them is a built-in property of a string, a number, a boolean or an
    array, so only the own properties of an object answer. *)
Definition prop (v : value) (k : string) : result value :=
  match v with
  | VUndefined | VNull => Throw TypeError
  | VObj m => Ok (default VUndefined (m !! k))
  | _ => Ok VUndefined
  end.

(** [a === b] where one side is a primitive or the other was freshly
    parsed: arrays and objects are compared by identity, and a freshly
    parsed one is identical to nothing else. *)
Definition strict_eq (a b : value) : bool :=
  match a, b with
  | VUndefined, VUndefined => true
  | VNull, VNull => true
  | VBool x, VBool y => bool_decide (x = y)
  | VNum x, VNum y => bool_decide (x = y)
  | VStr x, VStr y => bool_decide (x = y)
  | _, _ => false
  end.

(** [ToBoolean]. *)
Definition truthy (v : value) : bool :=
  match v with
  | VUndefined | VNull => false
  | VBool b => b
  | VNum n => negb (bool_decide (n = 0%Z))
  | VStr s => negb (bool_decide (s = EmptyString))
  | VArr _ | VObj _ => true
  end.

(** [String.prototype.toLowerCase] on the Latin-1 range: [A-Z] and
    [U+00C0-U+00DE] except the multiplication sign move up by 32. *)
Definition lower_char (c : ascii) : ascii :=
  let n := N_of_ascii c in
  if decide ((65 ≤ n ∧ n ≤ 90) ∨ (192 ≤ n ∧ n ≤ 222 ∧ n ≠ 215))%N
  then ascii_of_N (n + 32)
  else c.

Fixpoint toLowerCase (s : string) : string :=
  match s with
  | EmptyString => EmptyString
  | String c r => String (lower_char c) (toLowerCase r)
  end.

(** [v.toLowerCase()]: only a string has the method. *)
Definition call_toLowerCase (v : value) : result value :=
  match v with
  | VStr s => Ok (VStr (toLowerCase s))
  | _ => Throw TypeError
  end.

(** [n.toString()] and [`${n}`] for an integer [n]. *)
Definition Number_toString (n : Z) : string := pretty n.

(** [s.padStart(targetLength, padString)]. *)
Fixpoint pad_fill (n : nat) (padString cur : string) : string :=
  match n with
  | O => EmptyString
  | S n' =>
      match cur with
      | String c r => String c (pad_fill n' padString r)
      | EmptyString =>
          match padString with
          | String c r => String c (pad_fill n' padString r)
          | EmptyString => EmptyString
          end
      end
  end.

Definition padStart (targetLength : nat) (padString : string) (s : string) : string :=
  pad_fill (targetLength - String.length s) padString padString +:+ s.

(** A [Date] object, seen through the two methods the modules call. *)
Record Date := {
  getFullYear : Z;
  toISOString : string;
}.

(** *** Array methods *)

Fixpoint findIndex_from (p : value → result bool) (i : Z) (l : list value) : result Z :=
  match l with
  | [] => Ok (-1)%Z
  | x :: l' =>
      b ← p x;
      if b : bool then Ok i else findIndex_from p (i + 1)%Z l'
  end.

Definition findIndex (p : value → result bool) (l : list value) : result Z :=
  findIndex_from p 0%Z l.

Fixpoint find (p : value → result bool) (l : list value) : result value :=
  match l with
  | [] => Ok VUndefined
  | x :: l' =>
      b ← p x;
      if b : bool then Ok x else find p l'
  end.

Fixpoint some (p : value → result bool) (l : list value) : result bool :=
  match l with
  | [] => Ok false
  | x :: l' =>
      b ← p x;
      if b : bool then Ok true else some p l'
  end.

(** [l.splice(i, 1)] for an index inside the array. *)
Definition splice1 (i : Z) (l : list value) : list value :=
  delete (Z.to_nat i) l.

(** Every method the modules call on [bills] ([push], [findIndex], [find],
    [some], [splice]) exists on arrays only; on any other parsed value the
    call is a [TypeError]. *)
Definition as_array (v : value) : result (list value) :=
  match v with
  | VArr l => Ok l
  | _ => Throw TypeError
  end.

(** ** JSON text *)

Inductive json :=
  | JNull
  | JBool (b : bool)
  | JNum (n : Z)
  | JStr (s : string)
  | JArr (l : list json)
  | JObj (l : list (string * json)).

Definition dquote : ascii := "034"%char.
Definition backslash : ascii := "092"%char.

Definition is_ws (c : ascii) : bool :=
  match c with
  | " " | "009" | "010" | "013" => true
  | _ => false
  end%char.

Fixpoint skip_ws (s : string) : string :=
  match s with
  | String c r => if is_ws c then skip_ws r else s
  | EmptyString => s
  end.

Definition digit_of (c : ascii) : option N :=
  let n := N_of_ascii c in
  if decide (48 ≤ n ∧ n ≤ 57)%N then Some (n - 48)%N else None.

Definition hex_of (c : ascii) : option N :=
  let n := N_of_ascii c in
  if decide (48 ≤ n ∧ n ≤ 57)%N then Some (n - 48)%N
  else if decide (97 ≤ n ∧ n ≤ 102)%N then Some (n - 87)%N
  else if decide (65 ≤ n ∧ n ≤ 70)%N then Some (n - 55)%N
  else None.

Definition hex_char (n : N) : ascii :=
  if decide (n < 10)%N then ascii_of_N (48 + n) else ascii_of_N (87 + n).

Definition hex4 (h1 h2 h3 h4 : ascii) : option N :=
  a ← hex_of h1; b ← hex_of h2; c ← hex_of h3; d ← hex_of h4;
  Some (((a * 16 + b) * 16 + c) * 16 + d)%N.

(** The code unit denoted by a two-character escape. *)
Definition unescape (e : ascii) : option ascii :=
  if decide (e = dquote) then Some dquote
  else if decide (e = backslash) then Some backslash
  else match e with
       | "/" => Some "/"
       | "b" => Some "008"
       | "f" => Some "012"
       | "n" => Some "010"
       | "r" => Some "013"
       | "t" => Some "009"
       | _ => None
       end%char.

(** The body of a string literal, after its opening quote. *)
Fixpoint read_string (s : string) : option (string * string) :=
  match s with
  | EmptyString => None
  | String c r =>
      if decide (c = dquote) then Some (EmptyString, r)
      else if decide (c = backslash) then
        match r with
        | String "u" (String h1 (String h2 (String h3 (String h4 r')))) =>
            n ← hex4 h1 h2 h3 h4;
            if decide (n < 256)%N
            then prod_map (String (ascii_of_N n)) id <$> read_string r'
            else None
        | String e r' =>
            x ← unescape e; prod_map (String x) id <$> read_string r'
        | EmptyString => None
        end
      else if decide (N_of_ascii c < 32)%N then None
      else prod_map (String c) id <$> read_string r
  end.

Fixpoint read_digits (acc : N) (s : string) : N * string :=
  match s with
  | String c r =>
      match digit_of c with
      | Some d => read_digits (acc * 10 + d) r
      | None => (acc, s)
      end
  | EmptyString => (acc, s)
  end.

(** The integer part of a number: [0], or a non-zero digit and more digits. *)
Definition read_nat (s : string) : option (N * string) :=
  match s with
  | String c r =>
      match digit_of c with
      | Some 0%N =>
          match r with
          | String c' _ => if digit_of c' is Some _ then None else Some (0%N, r)
          | EmptyString => Some (0%N, r)
          end
      | Some d => Some (read_digits d r)
      | None => None
      end
  | EmptyString => None
  end.

Definition no_fraction (s : string) : bool :=
  match s with
  | String c _ => negb (bool_decide (c = "." ∨ c = "e" ∨ c = "E"))%char
  | EmptyString => true
  end.

Definition read_number (s : string) : option (Z * string) :=
  '(neg, s) ← match s with
              | String "-" r => Some (true, r)
              | _ => Some (false, s)
              end;
  '(n, r) ← read_nat s;
  if no_fraction r
  then Some (if neg : bool then (- Z.of_N n)%Z else Z.of_N n, r)
  else None.

Fixpoint expect (word : string) (s : string) : option string :=
  match word, s with
  | EmptyString, _ => Some s
  | String c w, String c' r => if decide (c = c') then expect w r else None
  | _, _ => None
  end.

(** Recursive descent over the text; every call spends one unit of fuel. *)
Fixpoint parse_value (fuel : nat) (s : string) : option (json * string) :=
  match fuel with
  | O => None
  | S fuel =>
      match skip_ws s with
      | String c r =>
          if decide (c = "[")%char then
            match skip_ws r with
            | String "]" r' => Some (JArr [], r')
            | _ => prod_map JArr id <$> parse_elements fuel r
            end
          else if decide (c = "{")%char then
            match skip_ws r with
            | String "}" r' => Some (JObj [], r')
            | _ => prod_map JObj id <$> parse_members fuel r
            end
          else if decide (c = dquote) then prod_map JStr id <$> read_string r
          else if decide (c = "t")%char then pair (JBool true) <$> expect "rue" r
          else if decide (c = "f")%char then pair (JBool false) <$> expect "alse" r
          else if decide (c = "n")%char then pair JNull <$> expect "ull" r
          else prod_map JNum id <$> read_number (String c r)
      | EmptyString => None
      end
  end
with parse_elements (fuel : nat) (s : string) : option (list json * string) :=
  match fuel with
  | O => None
  | S fuel =>
      '(v, r) ← parse_value fuel s;
      match skip_ws r with
      | String "," r' => prod_map (cons v) id <$> parse_elements fuel r'
      | String "]" r' => Some ([v], r')
      | _ => None
      end
  end
with parse_members (fuel : nat) (s : string) : option (list (string * json) * string) :=
  match fuel with
  | O => None
  | S fuel =>
      match skip_ws s with
      | String c r =>
          if decide (c = dquote) then
            '(k, r) ← read_string r;
            match skip_ws r with
            | String ":" r =>
                '(v, r) ← parse_value fuel r;
                match skip_ws r with
                | String "," r' => prod_map (cons (k, v)) id <$> parse_members fuel r'
                | String "}" r' => Some ([(k, v)], r')
                | _ => None
                end
            | _ => None
            end
          else None
      | EmptyString => None
      end
  end.

(** A whole text: one value, then white space only.  The length of the
    text bounds the number of calls. *)
Definition parse_text (s : string) : option json :=
  '(j, r) ← parse_value (S (String.length s)) s;
  match skip_ws r with
  | EmptyString => Some j
  | _ => None
  end.

(** The printer writes in front of a continuation [k]. *)
Definition escape_char (c : ascii) (k : string) : string :=
  if decide (c = dquote) then String backslash (String dquote k)
  else if decide (c = backslash) then String backslash (String backslash k)
  else match c with
       | "008" => String backslash (String "b" k)
       | "012" => String backslash (String "f" k)
       | "010" => String backslash (String "n" k)
       | "013" => String backslash (String "r" k)
       | "009" => String backslash (String "t" k)
       | _ =>
           if decide (N_of_ascii c < 32)%N then
             String backslash (String "u" (String "0" (String "0"
               (String (hex_char (N_of_ascii c / 16))
                  (String (hex_char (N_of_ascii c mod 16)) k)))))
           else String c k
       end%char.

Fixpoint quote_to (s : string) (k : string) : string :=
  match s with
  | EmptyString => String dquote k
  | String c r => escape_char c (quote_to r k)
  end.

Definition print_number (n : Z) (k : string) : string :=
  match n with
  | Z0 => String "0" k
  | Zpos p => pretty_N_go (Npos p) k
  | Zneg p => String "-" (pretty_N_go (Npos p) k)
  end.

Definition print_list {A} (item : A → string → string) (close : ascii) :
    list A → string → string :=
  fix go l k :=
    match l with
    | [] => String close k
    | [x] => item x (String close k)
    | x :: l' => item x (String "," (go l' k))
    end.

Fixpoint print_to (j : json) (k : string) : string :=
  match j with
  | JNull => "null" +:+ k
  | JBool true => "true" +:+ k
  | JBool false => "false" +:+ k
  | JNum n => print_number n k
  | JStr s => String dquote (quote_to s k)
  | JArr l => String "[" (print_list print_to "]" l k)
  | JObj l =>
      String "{"
        (print_list (λ '(key, x) k, String dquote (quote_to key (String ":" (print_to x k))))
           "}" l k)
  end.

Definition print (j : json) : string := print_to j EmptyString.

(** ** [JSON.stringify] and [JSON.parse] *)

(** [SerializeJSONProperty]: [undefined] has no text; inside an array it is
    written [null], inside an object its property is left out. *)
Fixpoint to_json (v : value) : option json :=
  match v with
  | VUndefined => None
  | VNull => Some JNull
  | VBool b => Some (JBool b)
  | VNum n => Some (JNum n)
  | VStr s => Some (JStr s)
  | VArr l => Some (JArr (map (λ x, default JNull (to_json x)) l))
  | VObj m =>
      Some (JObj (map_fold (λ k x acc,
                              match to_json x with
                              | Some j => (k, j) :: acc
                              | None => acc
                              end) [] m))
  end.

(** [InternalizeJSONProperty]: members are defined left to right, so a
    repeated name keeps its last value. *)
Fixpoint of_json (j : json) : value :=
  match j with
  | JNull => VNull
  | JBool b => VBool b
  | JNum n => VNum n
  | JStr s => VStr s
  | JArr l => VArr (map of_json l)
  | JObj l => VObj (foldl (λ m kv, <[kv.1 := of_json kv.2]> m) ∅ l)
  end.

Definition JSON_stringify (v : value) : option string := print <$> to_json v.

Definition JSON_parse (text : string) : result value :=
  match parse_text text with
  | Some j => Ok (of_json j)
  | None => Throw SyntaxError
  end.

(** The value that [JSON.parse(JSON.stringify(v))] builds. *)
Fixpoint jsonify (v : value) : value :=
  match v with
  | VArr l => VArr (map (λ x, match x with VUndefined => VNull | _ => jsonify x end) l)
  | VObj m => VObj (omap (λ x, match x with VUndefined => None | _ => Some (jsonify x) end) m)
  | _ => v
  end.

(** The members [JSON.stringify] writes for an object. *)
Definition json_members (m : gmap string value) : list (string * json) :=
  omap (λ kx, pair kx.1 <$> to_json kx.2) (map_to_list m).

(** Values that JSON text can denote: no [undefined] anywhere. *)
Fixpoint is_json (v : value) : bool :=
  match v with
  | VUndefined => false
  | VArr l => forallb is_json l
  | VObj m => map_fold (λ _ x acc, is_json x && acc) true m
  | _ => true
  end.

Fixpoint vsize (v : value) : nat :=
  match v with
  | VArr l => S (foldr (λ x n, vsize x + n) 0 l)
  | VObj m => S (map_fold (λ _ x n, vsize x + n) 0 m)
  | _ => 1
  end.

Fixpoint jsize (j : json) : nat :=
  match j with
  | JArr l => S (foldr (λ x n, S (jsize x + n)) 0 l)
  | JObj l => S (foldr (λ kv n, S (jsize kv.2 + n)) 0 l)
  | _ => 1
  end.

(** What follows a value inside a text: nothing, a separator or white space. *)
Definition delimited (k : string) : Prop :=
  match k with
  | EmptyString => True
  | String c _ => c = "," ∨ c = "]" ∨ c = "}" ∨ is_ws c = true
  end%char.

(** A text that begins with the first character of a value. *)
Definition starts_value (s : string) : Prop :=
  ∃ c r, s = String c r ∧ is_ws c = false ∧ c ≠ "]"%char ∧ c ≠ "}"%char.

(** ** [localStorage] and the monad of the modules *)

(** The storage area: a finite map from keys to strings, and the sequence
    of the writes made so far, which tells a run that wrote the same text
    again from a run that did not write. *)
Record storage := {
  slots : gmap string string;
  writes : list (string * string);
}.

(** A computation reads and writes the storage and either returns or
    throws; what it wrote before throwing stays written. *)
Definition js (A : Type) : Type := storage → result A * storage.

Global Instance js_ret : MRet js := λ A a ls, (Ok a, ls).
Global Instance js_bind : MBind js := λ A B f m ls,
  match m ls with
  | (Ok a, ls') => f a ls'
  | (Throw e, ls') => (Throw e, ls')
  end.

Definition throw {A} (e : exn) : js A := λ ls, (Throw e, ls).

(** A pure step that may throw. *)
Definition lift {A} (r : result A) : js A := λ ls, (r, ls).

(** [localStorage.getItem(key)]: [None] stands for [null]. *)
Definition getItem (key : string) : js (option string) :=
  λ ls, (Ok (slots ls !! key), ls).

(** The storage after [localStorage.setItem(key, text)]. *)
Definition written (key text : string) (ls : storage) : storage :=
  {| slots := <[key := text]> (slots ls); writes := writes ls ++ [(key, text)] |}.

(** [localStorage.setItem(key, text)]. *)
Definition setItem (key text : string) : js unit :=
  λ ls, (Ok (), written key text ls).

(** [String(JSON.stringify(v))], the conversion [setItem] applies to its
    second argument. *)
Definition stringified (v : value) : string :=
  default "undefined" (JSON_stringify v).

(** *** Object literals *)

(** [{...m, k1: v1, ..., kn: vn}]: the named properties are defined after
    the spread ones, left to right. *)
Definition with_props (m : gmap string value) (fields : list (string * value)) :
    gmap string value :=
  foldl (λ m kv, <[kv.1 := kv.2]> m) m fields.

(** [...v] inside an object literal, for an object or a value without own
    enumerable properties. *)
Definition spread (v : value) : gmap string value :=
  match v with
  | VObj m => m
  | _ => ∅
  end.

(** [v.k = x] in strict code (modules are strict): only an object takes
    the property. *)
Definition set_prop (v : value) (k : string) (x : value) : result value :=
  match v with
  | VObj m => Ok (VObj (<[k := x]> m))
  | _ => Throw TypeError
  end.

(** ** The functions of [billStorage.js] and [billstorage2.js]

    The two files differ in the storage key and in [saveBill2]; the other
    five functions of [billstorage2.js] are those of [billStorage.js] with
    a [2] appended to their names.  The section is parametric in the key.

    A function takes the clock readings it makes as arguments, in the
    order it makes them: [today] is the [new Date()] whose year goes into
    the invoice number, [now] the value of [Date.now()], and [created] or
    [updated] the [new Date()] of the time stamp.

    Right after reading them, [bills] are required to be an array
    ([as_array]): the first method call on [bills] would throw the same
    [TypeError] otherwise, and nothing is written before it. *)

Section Store.
Variable BILLS_STORAGE_KEY : string.

(** [bill => bill.id === id] *)
Definition has_id (id : string) (bill : value) : result bool :=
  bill_id ← prop bill "id";
  mret (strict_eq bill_id (VStr id)).

Definition getSavedBills : js value :=
  stored ← getItem BILLS_STORAGE_KEY;
  match stored with
  | Some text =>
      if bool_decide (text = EmptyString) then mret (VArr [])
      else lift (JSON_parse text)
  | None => mret (VArr [])
  end.

Definition saveBill (today : Date) (now : Z) (created : Date)
    (billData : gmap string value) : js value :=
  bills ← getSavedBills;
  bills ← lift (as_array bills);
  let invoiceNumber :=
    "INV-" +:+ Number_toString (getFullYear today) +:+ "-" +:+
    padStart 3 "0" (Number_toString (Z.of_nat (length bills) + 1)) in
  let newBill :=
    VObj (with_props billData
            [("id", VStr (Number_toString now));
             ("invoiceNumber", VStr invoiceNumber);
             ("status", VStr "Pending");
             ("createdAt", VStr (toISOString created))]) in
  let bills := bills ++ [newBill] in
  setItem BILLS_STORAGE_KEY (stringified (VArr bills));;
  mret newBill.

Definition updateBill (updated : Date) (id : string)
    (billData : gmap string value) : js value :=
  bills ← getSavedBills;
  bills ← lift (as_array bills);
  billIndex ← lift (findIndex (has_id id) bills);
  if bool_decide (billIndex = -1)%Z then throw (Error "Bill not found")
  else
    let existingBill := bills !!! Z.to_nat billIndex in
    existing_id ← lift (prop existingBill "id");
    existing_invoiceNumber ← lift (prop existingBill "invoiceNumber");
    existing_createdAt ← lift (prop existingBill "createdAt");
    let updatedBill :=
      VObj (with_props (billData ∪ spread existingBill)
              [("id", existing_id);
               ("invoiceNumber", existing_invoiceNumber);
               ("createdAt", existing_createdAt);
               ("updatedAt", VStr (toISOString updated))]) in
    let bills := <[Z.to_nat billIndex := updatedBill]> bills in
    setItem BILLS_STORAGE_KEY (stringified (VArr bills));;
    mret updatedBill.

Definition getBillById (id : string) : js value :=
  bills ← getSavedBills;
  bills ← lift (as_array bills);
  found ← lift (find (has_id id) bills);
  mret (if truthy found then found else VNull).

Definition updateBillStatus (updated : Date) (id : string) (status : value) : js unit :=
  bills ← getSavedBills;
  bills ← lift (as_array bills);
  billIndex ← lift (findIndex (has_id id) bills);
  if negb (bool_decide (billIndex = -1)%Z) then
    bill ← lift (set_prop (bills !!! Z.to_nat billIndex) "status" status);
    bill ← lift (set_prop bill "updatedAt" (VStr (toISOString updated)));
    let bills := <[Z.to_nat billIndex := bill]> bills in
    setItem BILLS_STORAGE_KEY (stringified (VArr bills))
  else mret ().

Definition deleteBill (id : string) : js bool :=
  bills ← getSavedBills;
  bills ← lift (as_array bills);
  billIndex ← lift (findIndex (has_id id) bills);
  if negb (bool_decide (billIndex = -1)%Z) then
    let bills := splice1 billIndex bills in
    setItem BILLS_STORAGE_KEY (stringified (VArr bills));;
    mret true
  else mret false.

(** The callback of the duplicate check of [saveBill2]; [&&] evaluates
    its right operand only when the left one is [true]. *)
Definition same_details (billData : gmap string value) (bill : value) : result bool :=
  let same_lower (k : string) : result bool :=
    x ← prop bill k; x ← call_toLowerCase x;
    y ← prop (VObj billData) k; y ← call_toLowerCase y;
    mret (strict_eq x y) in
  c ← same_lower "customer";
  if negb c then mret false else
  a ← same_lower "address";
  if negb a then mret false else
  t ← same_lower "city";
  if negb t then mret false else
  x ← prop bill "invoice";
  y ← prop (VObj billData) "invoice";
  mret (strict_eq x y).

Definition saveBill2 (today : Date) (now : Z) (created : Date)
    (billData : gmap string value) : js value :=
  bills ← getSavedBills;
  bills ← lift (as_array bills);
  isDuplicate ← lift (some (same_details billData) bills);
  if isDuplicate : bool then
    throw (Error "Bill with same customer details and invoice number already exists")
  else
    let invoiceNumber :=
      "INV-" +:+ Number_toString (getFullYear today) +:+ "-" +:+
      padStart 3 "0" (Number_toString (Z.of_nat (length bills) + 1)) in
    let newBill :=
      VObj (with_props billData
              [("id", VStr (Number_toString now));
               ("invoiceNumber", VStr invoiceNumber);
               ("status", VStr "Pending");
               ("createdAt", VStr (toISOString created))]) in
    let bills := bills ++ [newBill] in
    setItem BILLS_STORAGE_KEY (stringified (VArr bills));;
    mret newBill.
End Store.

(** The key of [billStorage.js]. *)
Definition saved_bills : string := "saved_bills".
(** The key of [billstorage2.js]. *)
Definition saved_bills02 : string := "saved_bills02".

Definition getSavedBills2 := getSavedBills saved_bills02.
Definition updateBill2 := updateBill saved_bills02.
Definition getBillById2 := getBillById saved_bills02.
Definition updateBillStatus2 := updateBillStatus saved_bills02.
Definition deleteBill2 := deleteBill saved_bills02.

(** ** Vocabulary of the properties *)

(** [getSavedBills] returns the array [bills]. *)
Definition stored (key : string) (ls : storage) (bills : list value) : Prop :=
  getSavedBills key ls = (Ok (VArr bills), ls).

Definition is_object (v : value) : bool :=
  match v with
  | VObj _ => true
  | _ => false
  end.

(** The record [bill] has the identifier [id]. *)
Definition bill_has_id (id : string) (bill : value) : bool :=
  match bill with
  | VObj m =>
      match m !! "id" with
      | Some (VStr s) => bool_decide (s = id)
      | _ => false
      end
  | _ => false
  end.

(** A stored record that does not have the identifier [id]. *)
Definition other_bill (id : string) (bill : value) : Prop :=
  is_object bill = true ∧ bill_has_id id bill = false.

(** The four fields the duplicate check of [saveBill2] compares, for a
    record that has them as strings (the [SavedBill2] shape). *)
Record details := {
  customer : string;
  address : string;
  city : string;
  invoice : string;
}.

Definition str_field (m : gmap string value) (k : string) : option string :=
  match m !! k with
  | Some (VStr s) => Some s
  | _ => None
  end.

Definition details_of (bill : value) : option details :=
  match bill with
  | VObj m =>
      c ← str_field m "customer";
      a ← str_field m "address";
      t ← str_field m "city";
      i ← str_field m "invoice";
      Some {| customer := c; address := a; city := t; invoice := i |}
  | _ => None
  end.

(** Customer, address and city equal up to case, invoice equal. *)
Definition same_bill (e d : details) : Prop :=
  toLowerCase (customer e) = toLowerCase (customer d)
  ∧ toLowerCase (address e) = toLowerCase (address d)
  ∧ toLowerCase (city e) = toLowerCase (city d)
  ∧ invoice e = invoice d.

Global Instance same_bill_dec e d : Decision (same_bill e d).
Proof. unfold same_bill. apply _. Defined.

(** At least one of the four compared fields differs. *)
Definition differs (e d : details) : Prop :=
  toLowerCase (customer e) ≠ toLowerCase (customer d)
  ∨ toLowerCase (address e) ≠ toLowerCase (address d)
  ∨ toLowerCase (city e) ≠ toLowerCase (city d)
  ∨ invoice e ≠ invoice d.

(** The stored record [bill] is a duplicate of the data [d]. *)
Definition duplicates (d : details) (bill : value) : bool :=
  match details_of bill with
  | Some e => bool_decide (same_bill e d)
  | None => false
  end.

Definition duplicate_message : string :=
  "Bill with same customer details and invoice number already exists".

(** The template literal that [saveBill] and [saveBill2] evaluate for a
    store of [count] records. *)
Definition invoice_number (today : Date) (count : nat) : string :=
  "INV-" +:+ Number_toString (getFullYear today) +:+ "-" +:+
  padStart 3 "0" (Number_toString (Z.of_nat count + 1)).

(** The record [r] is what a save makes of [billData]: the four generated
    fields, and the fields of [billData] under every other name. *)
Definition created_from (billData : gmap string value) (today : Date) (now : Z)
    (created : Date) (count : nat) (r : gmap string value) : Prop :=
  r !! "id" = Some (VStr (Number_toString now))
  ∧ r !! "invoiceNumber" = Some (VStr (invoice_number today count))
  ∧ r !! "status" = Some (VStr "Pending")
  ∧ r !! "createdAt" = Some (VStr (toISOString created))
  ∧ ∀ k, k ∉ ["id"; "invoiceNumber"; "status"; "createdAt"] → r !! k = billData !! k.

(** The record [r] is what an update makes of [existing] and [billData]:
    the three protected fields of [existing], the new time stamp, and under
    every other name the field of [billData] or else that of [existing]. *)
Definition updated_from (existing billData : gmap string value) (updated : Date)
    (r : gmap string value) : Prop :=
  prop (VObj r) "id" = prop (VObj existing) "id"
  ∧ prop (VObj r) "invoiceNumber" = prop (VObj existing) "invoiceNumber"
  ∧ prop (VObj r) "createdAt" = prop (VObj existing) "createdAt"
  ∧ prop (VObj r) "updatedAt" = Ok (VStr (toISOString updated))
  ∧ ∀ k, k ∉ ["id"; "invoiceNumber"; "createdAt"; "updatedAt"] →
         prop (VObj r) k = prop (VObj (billData ∪ existing)) k.

(** ** The invoice number pattern of the specification *)

Definition is_digit (c : ascii) : bool :=
  match digit_of c with
  | Some _ => true
  | None => false
  end.

(** [INV-<4-digit year>-<3-digit sequence>], as the specification words it. *)
Definition invoice_pattern (s : string) : bool :=
  match s with
  | String "I" (String "N" (String "V" (String "-"
      (String y1 (String y2 (String y3 (String y4 (String "-"
        (String s1 (String s2 (String s3 EmptyString))))))))))) =>
      is_digit y1 && is_digit y2 && is_digit y3 && is_digit y4
      && is_digit s1 && is_digit s2 && is_digit s3
  | _ => false
  end.

(** The year and the sequence that an invoice number [INV-<digits>-<digits>]
    denotes. *)
Definition invoice_parts (s : string) : option (N * N) :=
  match s with
  | String "I" (String "N" (String "V" (String "-" r))) =>
      let '(year, r) := read_digits 0 r in
      match r with
      | String "-" r =>
          let '(sequence, r) := read_digits 0 r in
          match r with
          | EmptyString => Some (year, sequence)
          | _ => None
          end
      | _ => None
      end
  | _ => None
  end.

(** The record [r] carries a well-formed invoice number for a store of
    [count] records: its year and sequence read back as the clock's year and
    [count + 1], it has the three-digit form below 999 records, and its
    sequence is [001] for an empty store. *)
Definition numbered (today : Date) (count : nat) (r : value) : Prop :=
  ∃ inv,
    prop r "invoiceNumber" = Ok (VStr inv)
    ∧ invoice_parts inv = Some (Z.to_N (getFullYear today), N.of_nat count + 1)%N
    ∧ (count < 999 → invoice_pattern inv = true)
    ∧ (count = 0 → inv = "INV-" +:+ Number_toString (getFullYear today) +:+ "-001").

(** ** Outcomes of a call, and the records a call builds *)

(** What a call may have done to the storage [ls]: nothing, or a single
    [setItem] of the text of an array under [key]. *)
Definition touched (key : string) (ls ls' : storage) : Prop :=
  ls' = ls ∨ ∃ bills, ls' = written key (stringified (VArr bills)) ls.

(** An outcome that respects the storage [ls]: a call that throws has
    written nothing, and a call that returns has read an array from the
    slot of [key] and written at most once, to that slot. *)
Definition orderly {A} (key : string) (ls : storage) (out : result A * storage) : Prop :=
  match out.1 with
  | Throw _ => out.2 = ls
  | Ok _ => (∃ bills, stored key ls bills) ∧ touched key ls out.2
  end.

(** The object literal of [saveBill] and [saveBill2] for a store of
    [count] records. *)
Definition new_record (today : Date) (now : Z) (created : Date) (count : nat)
    (billData : gmap string value) : value :=
  VObj (<["createdAt" := VStr (toISOString created)]>
       (<["status" := VStr "Pending"]>
       (<["invoiceNumber" := VStr (invoice_number today count)]>
       (<["id" := VStr (Number_toString now)]> billData)))).

(** The object literal of [updateBill] for the record [existing]. *)
Definition updated_record (updated : Date) (billData existing : gmap string value) :
    value :=
  VObj (<["updatedAt" := VStr (toISOString updated)]>
       (<["createdAt" := default VUndefined (existing !! "createdAt")]>
       (<["invoiceNumber" := default VUndefined (existing !! "invoiceNumber")]>
       (<["id" := default VUndefined (existing !! "id")]> (billData ∪ existing))))).

(** What [bill[k]] evaluates to on each record of the array, in order. *)
Definition column (k : string) (bills : list value) : list (result value) :=
  (λ bill, prop bill k) <$> bills.

(** No two records of the array have the same [id]. *)
Definition unique_ids (bills : list value) : Prop := NoDup (column "id" bills).

(** ** Sample data

    A clock reading, a customer and the store [billstorage2.js] holds after
    saving that customer into an empty storage. *)

Definition empty_storage : storage := {| slots := ∅; writes := [] |}.

Definition sample_date : Date :=
  {| getFullYear := 2024; toISOString := "2024-05-01T10:00:00.000Z" |}.

Definition sample_now : Z := 1714557600000.

Definition acme : gmap string value :=
  <["customer" := VStr "Acme Corp"]>
    (<["address" := VStr "1 Main St"]>
       (<["city" := VStr "Springfield"]>
          (<["invoice" := VStr "A-1"]> ∅))).

Definition acme_bill : gmap string value :=
  <["id" := VStr "1714557600000"]>
    (<["invoiceNumber" := VStr "INV-2024-001"]>
       (<["status" := VStr "Pending"]>
          (<["createdAt" := VStr "2024-05-01T10:00:00.000Z"]> acme))).

Definition acme_store : storage :=
  (saveBill2 saved_bills02 sample_date sample_now sample_date acme empty_storage).2.

(** The same customer in capitals, and with another invoice reference. *)
Definition acme_capitals : gmap string value :=
  <["customer" := VStr "ACME CORP"]> acme.

Definition acme_second_invoice : gmap string value :=
  <["invoice" := VStr "A-2"]> acme_capitals.

Definition acme_capitals_details : details :=
  {| customer := "ACME CORP"; address := "1 Main St"; city := "Springfield"; invoice := "A-1" |}.

Definition acme_second_invoice_details : details :=
  {| customer := "ACME CORP"; address := "1 Main St"; city := "Springfield"; invoice := "A-2" |}.

Definition acme_details : details :=
  {| customer := "Acme Corp"; address := "1 Main St"; city := "Springfield"; invoice := "A-1" |}.

(** A storage whose slot of [billStorage.js] holds 999 bills. *)
Definition crowded_storage : storage :=
  written saved_bills (stringified (VArr (replicate 999 (VObj acme_bill)))) empty_storage.

(** A storage whose slot holds text that is not JSON, and one whose slot
    holds the JSON text of an object. *)
Definition garbled_storage : storage :=
  written saved_bills "not json" empty_storage.

Definition object_storage : storage :=
  written saved_bills "{}" empty_storage.

(** A second customer, and the storage of [billStorage.js] after the first
    customer was saved. *)
Definition globex : gmap string value :=
  <["customer" := VStr "Globex"]>
    (<["address" := VStr "9 Side St"]>
       (<["city" := VStr "Shelbyville"]>
          (<["invoice" := VStr "G-7"]> ∅))).

Definition acme_saved : storage :=
  (saveBill saved_bills sample_date sample_now sample_date acme empty_storage).2.

(** An update payload that tries to overwrite the protected fields. *)
Definition hostile_update : gmap string value :=
  <["id" := VStr "1"]>
    (<["invoiceNumber" := VStr "INV-1999-999"]>
       (<["createdAt" := VStr "1999-01-01T00:00:00.000Z"]>
          (<["city" := VStr "Shelbyville"]> ∅))).

(** The clock one millisecond after [sample_now]. *)
Definition later_now : Z := 1714557600001.

(** ** Induction over JSON trees

    The induction principle that goes under the lists of elements and
    members. *)

Section json_ind.
Variable P : json → Prop.
Hypothesis Hnull : P JNull.
Hypothesis Hbool : ∀ b, P (JBool b).
Hypothesis Hnum : ∀ n, P (JNum n).
Hypothesis Hstr : ∀ s, P (JStr s).
Hypothesis Harr : ∀ l, Forall P l → P (JArr l).
Hypothesis Hobj : ∀ l, Forall (λ kv, P kv.2) l → P (JObj l).

Fixpoint json_nested_ind (j : json) : P j :=
  match j with
  | JNull => Hnull
  | JBool b => Hbool b
  | JNum n => Hnum n
  | JStr s => Hstr s
  | JArr l =>
      Harr l ((fix go l : Forall P l :=
                 match l with
                 | [] => Forall_nil_2 P
                 | x :: l' => Forall_cons_2 P x l' (json_nested_ind x) (go l')
                 end) l)
  | JObj l =>
      Hobj l ((fix go l : Forall (λ kv, P kv.2) l :=
                 match l with
                 | [] => Forall_nil_2 _
                 | kv :: l' => Forall_cons_2 _ kv l' (json_nested_ind kv.2) (go l')
                 end) l)
  end.
End json_ind.

(** * Properties *)

(** ** JSON text: parsing what was printed *)

Lemma read_string_escape c r k x :
  read_string (quote_to r k) = Some x →
  read_string (escape_char c (quote_to r k)) = Some (prod_map (String c) id x).
Proof.
  intros Hr. generalize dependent (quote_to r k). intros t Hr.
  destruct c as [[] [] [] [] [] [] [] []]; vm_compute escape_char; cbn -[read_string];
   try (unfold read_string at 1; fold read_string; cbn -[read_string]; rewrite Hr; reflexivity).
Qed.

Lemma read_string_quote s k : read_string (quote_to s k) = Some (s, k).
Proof.
  induction s as [| c r IH]; [reflexivity |].
  cbn [quote_to]. by rewrite (read_string_escape _ _ _ _ IH).
Qed.

Lemma digit_of_pretty x : (x < 10)%N → digit_of (pretty_N_char x) = Some x.
Proof.
  intros Hx.
  assert (x = 0 ∨ x = 1 ∨ x = 2 ∨ x = 3 ∨ x = 4 ∨ x = 5 ∨ x = 6 ∨ x = 7 ∨ x = 8 ∨ x = 9)%N
    as Hc by lia.
  repeat (destruct Hc as [-> | Hc]; [reflexivity |]). by subst x.
Qed.

Lemma pretty_N_char_head d :
  (0 < d < 10)%N →
  is_ws (pretty_N_char d) = false ∧ pretty_N_char d ≠ "]"%char ∧ pretty_N_char d ≠ "}"%char.
Proof.
  intros Hd.
  assert (d = 1 ∨ d = 2 ∨ d = 3 ∨ d = 4 ∨ d = 5 ∨ d = 6 ∨ d = 7 ∨ d = 8 ∨ d = 9)%N
    as Hc by lia.
  repeat (destruct Hc as [-> | Hc]; [done |]). by subst d.
Qed.

Lemma pretty_N_char_minus d : pretty_N_char d ≠ "-"%char.
Proof. unfold pretty_N_char. by repeat case_match. Qed.

Lemma read_digits_pretty_go x :
  ∃ m, ∀ acc s, read_digits acc (pretty_N_go x s) = read_digits (acc * m + x) s.
Proof.
  induction (N.lt_wf_0 x) as [x _ IH].
  destruct (decide (x = 0)%N) as [-> | Hx].
  - exists 1%N. intros acc s. rewrite pretty_N_go_0. f_equal. lia.
  - destruct (IH (x `div` 10)%N) as [m Hm]; [apply N.div_lt; lia |].
    exists (m * 10)%N. intros acc s.
    rewrite pretty_N_go_step by lia. rewrite Hm. simpl.
    rewrite digit_of_pretty by (apply N.mod_lt; lia).
    f_equal. pose proof (N.div_mod x 10). lia.
Qed.

Lemma pretty_N_go_head x k :
  (0 < x)%N → ∃ d r, pretty_N_go x k = String (pretty_N_char d) r ∧ (0 < d < 10)%N.
Proof.
  revert k. induction (N.lt_wf_0 x) as [x _ IH]. intros k Hx.
  rewrite pretty_N_go_step by done.
  destruct (decide (x < 10)%N) as [Hlt | Hge].
  - rewrite N.div_small, N.mod_small, pretty_N_go_0 by done. eauto.
  - apply IH; [apply N.div_lt; lia |]. apply N.div_str_pos. lia.
Qed.

Lemma digit_of_delimited c r : delimited (String c r) → digit_of c = None.
Proof.
  simpl. intros [-> | [-> | [-> | Hws]]]; try reflexivity.
  destruct c as [[] [] [] [] [] [] [] []]; try discriminate Hws; reflexivity.
Qed.

Lemma read_digits_delimited acc k : delimited k → read_digits acc k = (acc, k).
Proof.
  destruct k as [| c r]; [done |]. intros Hk. simpl.
  by rewrite (digit_of_delimited c r).
Qed.

Lemma no_fraction_delimited k : delimited k → no_fraction k = true.
Proof.
  destruct k as [| c r]; [done |]. simpl.
  intros [-> | [-> | [-> | Hws]]]; try reflexivity.
  destruct c as [[] [] [] [] [] [] [] []]; try discriminate Hws; reflexivity.
Qed.

Lemma read_nat_pretty_go p k :
  delimited k → read_nat (pretty_N_go (Npos p) k) = Some (Npos p, k).
Proof.
  intros Hk.
  destruct (read_digits_pretty_go (Npos p)) as [m Hm].
  specialize (Hm 0%N k). rewrite (read_digits_delimited _ k) in Hm by done.
  replace (0 * m + N.pos p)%N with (N.pos p) in Hm by lia.
  destruct (pretty_N_go_head (Npos p) k) as (d & r & Heq & Hd); [done |].
  rewrite Heq in Hm |- *. simpl in Hm |- *.
  rewrite digit_of_pretty in Hm |- * by lia.
  replace (0 * 10 + d)%N with d in Hm by lia.
  destruct d; [lia |]. by rewrite Hm.
Qed.

Lemma print_number_head n k : starts_value (print_number n k)
  ∧ ∃ c r, print_number n k = String c r ∧ (c = "-"%char ∨ is_Some (digit_of c)).
Proof.
  destruct n as [| p | p]; simpl.
  - split; [by exists "0"%char, k | exists "0"%char, k; split; [done | right; eauto]].
  - destruct (pretty_N_go_head (Npos p) k) as (d & r & -> & Hd); [done |].
    assert (digit_of (pretty_N_char d) = Some d) as Hdig by (apply digit_of_pretty; lia).
    split; [| by eauto 6].
    exists (pretty_N_char d), r. split; [done |]. by apply pretty_N_char_head.
  - split; [by exists "-"%char, (pretty_N_go (Npos p) k) |]. eauto 6.
Qed.

Lemma read_nat_zero k : delimited k → read_nat (String "0" k) = Some (0%N, k).
Proof.
  intros Hk. destruct k as [| c r]; [reflexivity |].
  cbn. by rewrite (digit_of_delimited c r Hk).
Qed.

Lemma read_number_print n k :
  delimited k → read_number (print_number n k) = Some (n, k).
Proof.
  intros Hk. pose proof (no_fraction_delimited k Hk) as Hf.
  destruct n as [| p | p]; unfold read_number, print_number.
  - cbn -[read_nat]. rewrite read_nat_zero by done. cbn. by rewrite Hf.
  - destruct (pretty_N_go_head (Npos p) k) as (d & r & Heq & Hd); [done |].
    pose proof (read_nat_pretty_go p k Hk) as Hn. rewrite Heq in Hn |- *.
    pose proof (pretty_N_char_minus d) as Hne.
    destruct (pretty_N_char d) as [[] [] [] [] [] [] [] []] eqn:Hc; try done;
      cbn -[read_nat]; rewrite Hn; cbn; by rewrite Hf.
  - cbn -[read_nat pretty_N_go]. rewrite read_nat_pretty_go by done. cbn. by rewrite Hf.
Qed.

Lemma number_head_dispatch c :
  c = "-"%char ∨ is_Some (digit_of c) →
  is_ws c = false ∧ c ≠ "["%char ∧ c ≠ "{"%char ∧ c ≠ dquote
  ∧ c ≠ "t"%char ∧ c ≠ "f"%char ∧ c ≠ "n"%char.
Proof.
  intros [-> | [d Hd]]; [by repeat split |].
  destruct c as [[] [] [] [] [] [] [] []]; try discriminate Hd; by repeat split.
Qed.

Lemma parse_value_number fuel n k :
  delimited k → parse_value (S fuel) (print_number n k) = Some (JNum n, k).
Proof.
  intros Hk. pose proof (read_number_print n k Hk) as Hn.
  destruct (print_number_head n k) as [_ (c & r & Heq & Hc)].
  rewrite Heq in Hn |- *.
  destruct (number_head_dispatch c Hc) as (Hws & ? & ? & ? & ? & ? & ?).
  cbn -[read_number]. rewrite Hws.
  rewrite !decide_False by done. by rewrite Hn.
Qed.

Lemma print_to_starts j k : starts_value (print_to j k).
Proof.
  destruct j as [| [] | n | s | l | l]; try (by eexists _, _).
  apply print_number_head.
Qed.

Lemma parse_elements_print (l : list json) :
  Forall (λ j, ∀ fuel k, jsize j ≤ fuel → delimited k →
               parse_value fuel (print_to j k) = Some (j, k)) l →
  l ≠ [] →
  ∀ fuel k, foldr (λ x n, S (jsize x + n)) 0 l ≤ fuel →
    parse_elements fuel (print_list print_to "]" l k) = Some (l, k).
Proof.
  induction 1 as [| x l Hx Hl IH]; [done |]. intros _ fuel k Hfuel.
  cbn [foldr] in Hfuel. destruct fuel as [| fuel]; [lia |].
  destruct l as [| y l'].
  - cbn [print_list parse_elements]. rewrite Hx by (simpl; auto; lia). reflexivity.
  - change (print_list print_to "]" (x :: y :: l') k)
      with (print_to x (String "," (print_list print_to "]" (y :: l') k))).
    cbn [parse_elements]. rewrite Hx by (simpl; auto; lia).
    cbn -[parse_elements print_list]. rewrite IH by (done || lia). reflexivity.
Qed.

Lemma parse_members_print (l : list (string * json)) :
  Forall (λ kv, ∀ fuel k, jsize kv.2 ≤ fuel → delimited k →
               parse_value fuel (print_to kv.2 k) = Some (kv.2, k)) l →
  l ≠ [] →
  ∀ fuel k, foldr (λ kv n, S (jsize kv.2 + n)) 0 l ≤ fuel →
    parse_members fuel
      (print_list (λ '(key, x) k, String dquote (quote_to key (String ":" (print_to x k))))
         "}" l k) = Some (l, k).
Proof.
  induction 1 as [| [key x] l Hx Hl IH]; [done |]. intros _ fuel k Hfuel.
  cbn [foldr snd] in Hfuel, Hx. destruct fuel as [| fuel]; [lia |].
  destruct l as [| y l'].
  - cbn [print_list parse_members]. cbn -[parse_value read_string].
    rewrite read_string_quote. cbn -[parse_value].
    rewrite Hx by (simpl; auto; lia). reflexivity.
  - set (item := λ '(key, x) k, String dquote (quote_to key (String ":" (print_to x k)))) in *.
    change (print_list item "}" ((key, x) :: y :: l') k)
      with (String dquote (quote_to key (String ":"
              (print_to x (String "," (print_list item "}" (y :: l') k)))))).
    cbn [parse_members]. cbn -[parse_value read_string parse_members print_list].
    rewrite read_string_quote. cbn -[parse_value parse_members print_list].
    rewrite Hx by (simpl; auto; lia).
    cbn -[parse_members print_list]. rewrite IH by (done || lia). reflexivity.
Qed.

Lemma parse_value_print j :
  ∀ fuel k, jsize j ≤ fuel → delimited k → parse_value fuel (print_to j k) = Some (j, k).
Proof.
  induction j as [| b | n | s | l IH | l IH] using json_nested_ind;
    intros [| fuel] k Hfuel Hk; try (simpl in Hfuel; lia).
  - reflexivity.
  - by destruct b.
  - by apply parse_value_number.
  - cbn -[read_string]. by rewrite read_string_quote.
  - destruct l as [| x l]; [reflexivity |].
    cbn [print_to]. cbn [jsize] in Hfuel.
    destruct (print_to_starts x (match l with [] => String "]" k | _ => String "," (print_list print_to "]" l k) end))
      as (c & r & Heq & Hws & Hc1 & Hc2).
    pose proof (parse_elements_print (x :: l) IH ltac:(done) fuel k ltac:(lia)) as Hp.
    assert (print_list print_to "]" (x :: l) k = String c r) as Hpl by (by destruct l).
    rewrite Hpl in Hp |- *. cbn -[parse_elements]. rewrite Hws.
    destruct c as [[] [] [] [] [] [] [] []]; try done; by rewrite Hp.
  - destruct l as [| [key x] l]; [reflexivity |].
    cbn [print_to]. cbn [jsize] in Hfuel.
    pose proof (parse_members_print ((key, x) :: l) IH ltac:(done) fuel k ltac:(lia)) as Hp.
    set (item := λ '(key, x) k, String dquote (quote_to key (String ":" (print_to x k)))) in *.
    assert (∃ r, print_list item "}" ((key, x) :: l) k = String dquote r) as [r Hpl]
      by (destruct l; by eexists).
    rewrite Hpl in Hp |- *. cbn -[parse_members]. by rewrite Hp.
Qed.

(** The length of the text bounds the fuel a value needs. *)

Lemma length_escape_char c k : String.length k < String.length (escape_char c k).
Proof.
  destruct c as [[] [] [] [] [] [] [] []]; vm_compute escape_char; simpl; lia.
Qed.

Lemma length_quote_to s k : String.length k < String.length (quote_to s k).
Proof.
  induction s as [| c r IH]; simpl; [lia |].
  pose proof (length_escape_char c (quote_to r k)). lia.
Qed.

Lemma length_pretty_N_go x k : String.length k ≤ String.length (pretty_N_go x k).
Proof.
  revert k. induction (N.lt_wf_0 x) as [x _ IH]. intros k.
  destruct (decide (x = 0)%N) as [-> | Hx]; [by rewrite pretty_N_go_0 |].
  rewrite pretty_N_go_step by lia.
  etrans; [| apply IH, N.div_lt; lia]. simpl. lia.
Qed.

Lemma length_print_number n k : String.length k < String.length (print_number n k).
Proof.
  destruct n as [| p | p]; simpl; [lia | |].
  - rewrite pretty_N_go_step by lia.
    pose proof (length_pretty_N_go (N.pos p `div` 10)
                  (String (pretty_N_char (N.pos p `mod` 10)) k)) as H.
    simpl in H. lia.
  - pose proof (length_pretty_N_go (N.pos p) k). lia.
Qed.

Lemma length_print_list {A} (item : A → string → string) (size : A → nat) close l k :
  Forall (λ x, ∀ k, size x + String.length k ≤ String.length (item x k)) l →
  foldr (λ x n, S (size x + n)) 0 l + String.length k
  ≤ String.length (print_list item close l k).
Proof.
  induction 1 as [| x l Hx Hl IH]; [simpl; lia |].
  destruct l as [| y l'].
  - cbn [print_list foldr]. specialize (Hx (String close k)). simpl in Hx. lia.
  - change (print_list item close (x :: y :: l') k)
      with (item x (String "," (print_list item close (y :: l') k))).
    cbn [foldr] in IH |- *.
    specialize (Hx (String "," (print_list item close (y :: l') k))).
    cbn [String.length] in Hx. lia.
Qed.

Lemma jsize_print_to j :
  ∀ k, jsize j + String.length k ≤ String.length (print_to j k).
Proof.
  induction j as [| b | n | s | l IH | l IH] using json_nested_ind; intros k.
  - cbv [print_to String.append]. cbn. lia.
  - destruct b; cbv [print_to String.append]; cbn; lia.
  - pose proof (length_print_number n k). cbn. lia.
  - pose proof (length_quote_to s k). cbn. lia.
  - pose proof (length_print_list print_to jsize "]" l k IH). cbn in *. lia.
  - cbn [print_to jsize String.length].
    pose proof (length_print_list
      (λ '(key, x) k, String dquote (quote_to key (String ":" (print_to x k))))
      (λ kv, jsize kv.2) "}" l k) as H.
    cbn beta in H. cut (∀ a b, a ≤ b → S a ≤ S b); [| lia].
    intros Hcut. apply Hcut, H.
    eapply Forall_impl; [exact IH |].
    intros [key x] Hx k'. cbn [snd] in *.
    pose proof (Hx k'). pose proof (length_quote_to key (String ":" (print_to x k'))).
    simpl in *. lia.
Qed.

(** Every text the printer writes parses back to the tree it was written
    from. *)
Lemma parse_text_print j : parse_text (print j) = Some j.
Proof.
  unfold parse_text, print.
  rewrite parse_value_print; [done | | done].
  pose proof (jsize_print_to j EmptyString). simpl in *. lia.
Qed.

(** ** The fuel of the parser

    A successful parse consumes at least one character for every unit of
    fuel it needs, so the fuel that [parse_text] gives, the length of the
    text and one more, is never what makes a text fail. *)

Lemma length_skip_ws s : String.length (skip_ws s) ≤ String.length s.
Proof. induction s as [| c r IH]; [done |]. cbn. destruct (is_ws c); cbn; lia. Qed.

Lemma skip_ws_cons s c r : skip_ws s = String c r → String.length r < String.length s.
Proof. intros H. pose proof (length_skip_ws s) as Hl. rewrite H in Hl. cbn in Hl. lia. Qed.

Lemma length_read_string s x r : read_string s = Some (x, r) → String.length r < String.length s.
Proof.
  remember (String.length s) as n eqn:Hn. revert s Hn x r.
  induction (lt_wf n) as [n _ IH']. intros s -> x r Hs.
  assert (∀ s' x r, String.length s' < String.length s → read_string s' = Some (x, r) →
                    String.length r < String.length s') as IH
    by (intros s' x' r' Hlt; by eapply IH').
  clear IH'. destruct s as [| c s]; [done |]. cbn in Hs.
  repeat case_decide; simplify_eq/=; try lia.
  - destruct s as [| e s]; [done |].
    assert (∀ x r, (y ← unescape e; prod_map (String y) id <$> read_string s) = Some (x, r) →
                   String.length r < S (S (String.length s))) as Hplain.
    { intros x' r' H'. destruct (unescape e); [| done]. cbn in H'.
      destruct (read_string s) as [[x0 r0] |] eqn:Hr; simplify_eq/=.
      apply IH in Hr; cbn in *; lia. }
    destruct e as [[] [] [] [] [] [] [] []]; try (by eapply Hplain).
    destruct s as [| h1 [| h2 [| h3 [| h4 s]]]]; try (by eapply (Hplain _ _ Hs)).
    cbn in Hs. destruct (hex4 h1 h2 h3 h4); [| done]. cbn in Hs.
    case_decide; [| done].
    destruct (read_string s) as [[x0 r0] |] eqn:Hr; simplify_eq/=.
    apply IH in Hr; cbn in *; lia.
  - destruct (read_string s) as [[x0 r0] |] eqn:Hr; simplify_eq/=.
    apply IH in Hr; cbn in *; lia.
Qed.

Lemma length_read_digits acc s : String.length (read_digits acc s).2 ≤ String.length s.
Proof.
  revert acc. induction s as [| c s IH]; intros acc; [done |]. cbn.
  destruct (digit_of c); cbn; [| lia]. specialize (IH (acc * 10 + n)%N). lia.
Qed.

Lemma length_read_nat s n r : read_nat s = Some (n, r) → String.length r < String.length s.
Proof.
  destruct s as [| c s]; [done |]. cbn.
  destruct (digit_of c) as [[| p] |]; [| | done].
  - destruct s as [| c' s]; [by intros [= <- <-]; cbn; lia |].
    destruct (digit_of c'); [done |]. intros [= <- <-]. cbn. lia.
  - intros [= Hr]. pose proof (length_read_digits (N.pos p) s) as Hl.
    rewrite Hr in Hl. cbn in Hl |- *. lia.
Qed.

Lemma length_read_number s n r :
  read_number s = Some (n, r) → String.length r < String.length s.
Proof.
  unfold read_number. intros Hs.
  assert (∀ neg s', (read_nat s' ≫= λ '(n, r), if no_fraction r
             then Some (if neg : bool then (- Z.of_N n)%Z else Z.of_N n, r) else None)
            = Some (n, r) → String.length r < String.length s') as Hnat.
  { intros neg s' H. destruct (read_nat s') as [[n' r'] |] eqn:Hn; [| done]. cbn in H.
    destruct (no_fraction r'); [| done]. injection H as _ <-. by eapply length_read_nat. }
  destruct s as [| c s]; [done |].
  destruct c as [[] [] [] [] [] [] [] []];
    try (by apply (Hnat false) in Hs).
  cbn in Hs. apply (Hnat true) in Hs. cbn. lia.
Qed.

Lemma length_expect w s r : expect w s = Some r → String.length r ≤ String.length s.
Proof.
  revert s. induction w as [| c w IH]; intros s; cbn.
  - by intros [= ->].
  - destruct s as [| c' s]; [done |]. case_decide; [| done].
    intros Hw%IH. cbn. lia.
Qed.

Lemma parse_value_skip fuel s c t :
  skip_ws s = String c t →
  parse_value (S fuel) s =
    if decide (c = "[")%char then
      match skip_ws t with
      | String "]" r' => Some (JArr [], r')
      | _ => prod_map JArr id <$> parse_elements fuel t
      end
    else if decide (c = "{")%char then
      match skip_ws t with
      | String "}" r' => Some (JObj [], r')
      | _ => prod_map JObj id <$> parse_members fuel t
      end
    else if decide (c = dquote) then prod_map JStr id <$> read_string t
    else if decide (c = "t")%char then pair (JBool true) <$> expect "rue" t
    else if decide (c = "f")%char then pair (JBool false) <$> expect "alse" t
    else if decide (c = "n")%char then pair JNull <$> expect "ull" t
    else prod_map JNum id <$> read_number (String c t).
Proof. intros Hws. cbn [parse_value]. by rewrite Hws. Qed.

(** Fuel beyond the number of characters a value takes changes nothing. *)
Ltac inv_parse :=
  try done;
  repeat match goal with
  | H : _ <$> Some _ = Some _ |- _ =>
      cbn -[expect read_string read_number parse_value parse_elements parse_members
            String.length skip_ws] in H
  | H : Some _ = Some _ |- _ => injection H as ?
  | H : None = Some _ |- _ => discriminate H
  | H : _ <$> None = Some _ |- _ => discriminate H
  end; subst.

Lemma parse_fuel n :
  (∀ s v r, parse_value n s = Some (v, r) →
     String.length r < String.length s
     ∧ ∀ m, String.length s - String.length r < m → parse_value m s = Some (v, r))
  ∧ (∀ s l r, parse_elements n s = Some (l, r) →
     String.length r < String.length s
     ∧ ∀ m, String.length s - String.length r < m → parse_elements m s = Some (l, r))
  ∧ (∀ s l r, parse_members n s = Some (l, r) →
     String.length r < String.length s
     ∧ ∀ m, String.length s - String.length r < m → parse_members m s = Some (l, r)).
Proof.
  induction n as [| n (IHv & IHe & IHm)]; [by split_and! |].
  split_and!.
  - intros s v r Hs.
    destruct (skip_ws s) as [| c t] eqn:Hws; [by cbn [parse_value] in Hs; rewrite Hws in Hs |].
    pose proof (skip_ws_cons _ _ _ Hws) as Hlen.
    rewrite (parse_value_skip n s c t Hws) in Hs.
    destruct (decide (c = "["%char)) as [Hc1 | Hc1];
      [| destruct (decide (c = "{"%char)) as [Hc2 | Hc2];
         [| destruct (decide (c = dquote)) as [Hc3 | Hc3];
            [| destruct (decide (c = "t"%char)) as [Hc4 | Hc4];
               [| destruct (decide (c = "f"%char)) as [Hc5 | Hc5];
                  [| destruct (decide (c = "n"%char)) as [Hc6 | Hc6]]]]]].
    + (* array *)
      destruct (skip_ws t) as [| c' t'] eqn:Hws'.
      * destruct (parse_elements n t) as [[l r'] |] eqn:He; inv_parse.
        destruct (IHe _ _ _ He) as [Hl Hm]. split; [lia |].
        intros [| m] Hfuel; [lia |]. rewrite (parse_value_skip m s _ t Hws).
        rewrite decide_True by done. rewrite Hws'. by rewrite Hm by lia.
      * pose proof (skip_ws_cons _ _ _ Hws') as Hlen'.
        destruct (decide (c' = "]"%char)) as [-> | Hc'].
        -- inv_parse. split; [lia |].
           intros [| m] Hfuel; [lia |]. rewrite (parse_value_skip m s _ t Hws).
           rewrite decide_True by done. by rewrite Hws'.
        -- assert (prod_map JArr id <$> parse_elements n t = Some (v, r)) as He'.
           { destruct c' as [[] [] [] [] [] [] [] []]; done. }
           clear Hs.
           destruct (parse_elements n t) as [[l r'] |] eqn:He; inv_parse.
           destruct (IHe _ _ _ He) as [Hl Hm]. split; [lia |].
           intros [| m] Hfuel; [lia |]. rewrite (parse_value_skip m s _ t Hws).
           rewrite decide_True by done. rewrite Hws'. rewrite Hm by lia.
           destruct c' as [[] [] [] [] [] [] [] []]; done.
    + (* object *)
      destruct (skip_ws t) as [| c' t'] eqn:Hws'.
      * destruct (parse_members n t) as [[l r'] |] eqn:He; inv_parse.
        destruct (IHm _ _ _ He) as [Hl Hm]. split; [lia |].
        intros [| m] Hfuel; [lia |]. rewrite (parse_value_skip m s _ t Hws).
        rewrite decide_False, decide_True by done. rewrite Hws'. by rewrite Hm by lia.
      * pose proof (skip_ws_cons _ _ _ Hws') as Hlen'.
        destruct (decide (c' = "}"%char)) as [-> | Hc'].
        -- inv_parse. split; [lia |].
           intros [| m] Hfuel; [lia |]. rewrite (parse_value_skip m s _ t Hws).
           rewrite decide_False, decide_True by done. by rewrite Hws'.
        -- assert (prod_map JObj id <$> parse_members n t = Some (v, r)) as He'.
           { destruct c' as [[] [] [] [] [] [] [] []]; done. }
           clear Hs.
           destruct (parse_members n t) as [[l r'] |] eqn:He; inv_parse.
           destruct (IHm _ _ _ He) as [Hl Hm]. split; [lia |].
           intros [| m] Hfuel; [lia |]. rewrite (parse_value_skip m s _ t Hws).
           rewrite decide_False, decide_True by done. rewrite Hws'. rewrite Hm by lia.
           destruct c' as [[] [] [] [] [] [] [] []]; done.
    + (* string *)
      destruct (read_string t) as [[x r'] |] eqn:Hr; inv_parse.
      pose proof (length_read_string _ _ _ Hr). split; [lia |].
      intros [| m] Hfuel; [lia |]. rewrite (parse_value_skip m s _ t Hws).
      rewrite !decide_False, decide_True by done. by rewrite Hr.
    + destruct (expect "rue" t) as [r' |] eqn:Hr; inv_parse.
      pose proof (length_expect _ _ _ Hr). split; [lia |].
      intros [| m] Hfuel; [lia |]. rewrite (parse_value_skip m s _ t Hws).
      rewrite !decide_False, decide_True by done. by rewrite Hr.
    + destruct (expect "alse" t) as [r' |] eqn:Hr; inv_parse.
      pose proof (length_expect _ _ _ Hr). split; [lia |].
      intros [| m] Hfuel; [lia |]. rewrite (parse_value_skip m s _ t Hws).
      rewrite !decide_False, decide_True by done. by rewrite Hr.
    + destruct (expect "ull" t) as [r' |] eqn:Hr; inv_parse.
      pose proof (length_expect _ _ _ Hr). split; [lia |].
      intros [| m] Hfuel; [lia |]. rewrite (parse_value_skip m s _ t Hws).
      rewrite !decide_False, decide_True by done. by rewrite Hr.
    + destruct (read_number (String c t)) as [[x r'] |] eqn:Hr; inv_parse.
      pose proof (length_read_number _ _ _ Hr) as Hl. cbn in Hl. split; [lia |].
      intros [| m] Hfuel; [lia |]. rewrite (parse_value_skip m s _ t Hws).
      rewrite !decide_False by done. by rewrite Hr.
  - intros s l r Hs. cbn [parse_elements] in Hs.
    destruct (parse_value n s) as [[v r1] |] eqn:Hv; [| done].
    destruct (IHv _ _ _ Hv) as [Hl1 Hm1].
    cbn -[parse_value parse_elements parse_members skip_ws String.length] in Hs.
    destruct (skip_ws r1) as [| c t] eqn:Hws; [done |].
    pose proof (skip_ws_cons _ _ _ Hws) as Hlen.
    destruct (decide (c = ","%char)) as [-> | Hc1];
      [| destruct (decide (c = "]"%char)) as [-> | Hc2]].
    + destruct (parse_elements n t) as [[l' r'] |] eqn:He; inv_parse.
      destruct (IHe _ _ _ He) as [Hl2 Hm2]. split; [lia |].
      intros [| m] Hfuel; [lia |]. cbn [parse_elements]. rewrite Hm1 by lia.
      cbn -[parse_value parse_elements parse_members skip_ws String.length].
      rewrite Hws. by rewrite Hm2 by lia.
    + inv_parse. split; [lia |].
      intros [| m] Hfuel; [lia |]. cbn [parse_elements]. rewrite Hm1 by lia.
      cbn -[parse_value parse_elements parse_members skip_ws String.length].
      by rewrite Hws.
    + destruct c as [[] [] [] [] [] [] [] []]; done.
  - intros s l r Hs. cbn [parse_members] in Hs.
    destruct (skip_ws s) as [| c t] eqn:Hws; [done |].
    pose proof (skip_ws_cons _ _ _ Hws) as Hlen.
    case_decide as Hq; [| done]. subst c.
    destruct (read_string t) as [[k r1] |] eqn:Hk; [| done].
    pose proof (length_read_string _ _ _ Hk) as Hlk.
    cbn -[parse_value parse_elements parse_members skip_ws String.length] in Hs.
    destruct (skip_ws r1) as [| c2 t2] eqn:Hws2; [done |].
    pose proof (skip_ws_cons _ _ _ Hws2) as Hlen2.
    destruct (decide (c2 = ":"%char)) as [-> | Hc2];
      [| destruct c2 as [[] [] [] [] [] [] [] []]; done].
    destruct (parse_value n t2) as [[v r3] |] eqn:Hv; [| done].
    destruct (IHv _ _ _ Hv) as [Hl3 Hm3].
    cbn -[parse_value parse_elements parse_members skip_ws String.length] in Hs.
    destruct (skip_ws r3) as [| c4 t4] eqn:Hws4; [done |].
    pose proof (skip_ws_cons _ _ _ Hws4) as Hlen4.
    assert (∀ m, String.length t2 - String.length r3 < m →
              parse_members (S m) s =
                match String c4 t4 with
                | String "," r' => prod_map (cons (k, v)) id <$> parse_members m r'
                | String "}" r' => Some ([(k, v)], r')
                | _ => None
                end) as Hstep.
    { intros m Hm. cbn [parse_members]. rewrite Hws, decide_True by done.
      rewrite Hk. cbn -[parse_value parse_elements parse_members skip_ws String.length].
      rewrite Hws2, Hm3 by done.
      cbn -[parse_value parse_elements parse_members skip_ws String.length].
      by rewrite Hws4. }
    destruct (decide (c4 = ","%char)) as [-> | Hc4];
      [| destruct (decide (c4 = "}"%char)) as [-> | Hc5]].
    + destruct (parse_members n t4) as [[l' r'] |] eqn:He; inv_parse.
      destruct (IHm _ _ _ He) as [Hl5 Hm5]. split; [lia |].
      intros [| m] Hfuel; [lia |]. rewrite Hstep by lia. by rewrite Hm5 by lia.
    + inv_parse. split; [lia |].
      intros [| m] Hfuel; [lia |]. by rewrite Hstep by lia.
    + destruct c4 as [[] [] [] [] [] [] [] []]; done.
Qed.

(** The fuel [parse_text] gives is all the fuel a text can use: a text that
    [parse_text] rejects is rejected with any fuel. *)
Lemma parse_text_fuel n s j r :
  parse_value n s = Some (j, r) → parse_value (S (String.length s)) s = Some (j, r).
Proof.
  intros Hs. destruct (parse_fuel n) as (Hv & _ & _).
  destruct (Hv _ _ _ Hs) as [_ Hm]. apply Hm. lia.
Qed.

(** ** Induction over values *)

Lemma vsize_elem (l : list value) x :
  x ∈ l → vsize x ≤ foldr (λ x n, vsize x + n) 0 l.
Proof.
  induction 1 as [x l | x y l _ IH]; simpl; lia.
Qed.

Lemma vsize_lookup (m : gmap string value) k x :
  m !! k = Some x → vsize x ≤ map_fold (λ _ x n, vsize x + n) 0 m.
Proof.
  rewrite map_fold_foldr. intros Hk%elem_of_map_to_list.
  induction (map_to_list m) as [| [k' x'] l IH]; [by apply elem_of_nil in Hk |].
  apply elem_of_cons in Hk as [[= <- <-] | Hk]; cbn; [lia |].
  specialize (IH Hk). lia.
Qed.

Lemma value_nested_ind (P : value → Prop) :
  P VUndefined → P VNull → (∀ b, P (VBool b)) → (∀ n, P (VNum n)) → (∀ s, P (VStr s)) →
  (∀ l, Forall P l → P (VArr l)) →
  (∀ m, map_Forall (λ _, P) m → P (VObj m)) →
  ∀ v, P v.
Proof.
  intros Hu Hn Hb Hz Hs Ha Ho v.
  remember (vsize v) as n eqn:Hsize. revert v Hsize.
  induction (lt_wf n) as [n _ IH]. intros v ->.
  assert (∀ x, vsize x < vsize v → P x) as IH' by (intros x Hx; by eapply IH).
  clear IH. destruct v as [| | b | z | s | l | m]; auto.
  - apply Ha, Forall_forall. intros x Hx. apply IH'.
    pose proof (vsize_elem l x Hx). simpl. lia.
  - apply Ho. intros k x Hk. apply IH'.
    pose proof (vsize_lookup m k x Hk). simpl. lia.
Qed.

(** ** [JSON.parse] after [JSON.stringify] *)

Lemma to_json_None v : to_json v = None ↔ v = VUndefined.
Proof. by destruct v. Qed.

Lemma to_json_obj m : to_json (VObj m) = Some (JObj (json_members m)).
Proof.
  cbn [to_json]. do 2 f_equal. rewrite map_fold_foldr. unfold json_members.
  induction (map_to_list m) as [| [k x] l IH]; [done |].
  cbn. rewrite IH. by destruct (to_json x).
Qed.

Lemma elem_of_json_members m k j :
  (k, j) ∈ json_members m ↔ ∃ x, m !! k = Some x ∧ to_json x = Some j.
Proof.
  unfold json_members. rewrite list_elem_of_omap. split.
  - intros ([k' x] & Hin%elem_of_map_to_list & Heq). cbn in Heq.
    destruct (to_json x) eqn:Hx; simplify_eq/=. eauto.
  - intros (x & Hk%elem_of_map_to_list & Hx). exists (k, x). split; [done |].
    cbn. by rewrite Hx.
Qed.

Lemma NoDup_json_members m : NoDup (json_members m).*1.
Proof.
  unfold json_members. pose proof (NoDup_fst_map_to_list m) as Hnd.
  induction (map_to_list m) as [| [k x] l IH]; [constructor |].
  cbn in Hnd |- *. apply NoDup_cons in Hnd as [Hk Hnd].
  destruct (to_json x) as [j |]; cbn; [| by apply IH].
  apply NoDup_cons. split; [| by apply IH].
  intros Hin. apply Hk. apply list_elem_of_fmap in Hin as ([k' j'] & -> & Hin).
  apply list_elem_of_omap in Hin as ([k'' x'] & Hin & Heq). cbn in Heq.
  destruct (to_json x'); simplify_eq/=.
  apply list_elem_of_fmap. by exists (k', x').
Qed.

Lemma foldl_insert_list_to_map {A B} (f : A → B) (l : list (string * A)) (m : gmap string B) :
  foldl (λ m kv, <[kv.1 := f kv.2]> m) m l
  = list_to_map (reverse (prod_map id f <$> l)) ∪ m.
Proof.
  revert m. induction l as [| [k x] l IH]; intros m.
  - cbn. by rewrite (left_id_L ∅ (∪)).
  - cbn [foldl fmap list_fmap]. rewrite IH, reverse_cons, list_to_map_app.
    cbn. rewrite <- (assoc_L (∪)). f_equal.
    by rewrite insert_empty, <- insert_union_singleton_l.
Qed.

Lemma of_json_obj_lookup l k :
  NoDup l.*1 →
  foldl (λ m kv, <[kv.1 := of_json kv.2]> m) (∅ : gmap string value) l !! k
  = of_json <$> (list_to_map l : gmap string json) !! k.
Proof.
  intros Hnd. rewrite foldl_insert_list_to_map, (right_id_L ∅ (∪)).
  rewrite <- fmap_reverse, list_to_map_fmap, lookup_fmap.
  assert ((list_to_map (reverse l) : gmap string json) = list_to_map l) as ->; [| done].
  apply list_to_map_proper; [| by rewrite reverse_Permutation].
  by rewrite reverse_Permutation.
Qed.

Lemma of_json_to_json v : ∀ j, to_json v = Some j → of_json j = jsonify v.
Proof.
  induction v as [| | b | n | s | l IH | m IH] using value_nested_ind;
    intros j Hj; try (by simplify_eq/=).
  - simplify_eq/=. f_equal. rewrite <- list_fmap_compose.
    apply Forall_fmap_ext_1. eapply Forall_impl; [exact IH |].
    intros x Hx. cbn.
    destruct (to_json x) as [jx |] eqn:Hjx.
    + cbn. rewrite (Hx jx Hjx). by destruct x.
    + by apply to_json_None in Hjx as ->.
  - rewrite to_json_obj in Hj. simplify_eq/=. f_equal.
    apply map_eq. intros k.
    rewrite of_json_obj_lookup by apply NoDup_json_members.
    rewrite lookup_omap. apply option_eq. intros y.
    rewrite fmap_Some. setoid_rewrite <- elem_of_list_to_map;
      [| apply NoDup_json_members].
    setoid_rewrite elem_of_json_members. split.
    + intros (j & (x & Hk & Hx) & ->). rewrite Hk. cbn.
      rewrite (IH k x Hk j Hx). by destruct x.
    + destruct (m !! k) as [x |] eqn:Hk; [| done]. cbn.
      destruct (to_json x) as [j |] eqn:Hx.
      * intros Hy. exists j. split; [by eauto |].
        rewrite (IH k x Hk j Hx). destruct x; by simplify_eq/=.
      * apply to_json_None in Hx as ->. done.
Qed.

Lemma is_json_arr l : is_json (VArr l) = true ↔ Forall (λ x, is_json x = true) l.
Proof.
  cbn [is_json]. rewrite forallb_forall. rewrite Forall_forall.
  by setoid_rewrite list_elem_of_In.
Qed.

Lemma is_json_obj m : is_json (VObj m) = true ↔ map_Forall (λ _ x, is_json x = true) m.
Proof.
  cbn [is_json]. rewrite map_fold_foldr, map_Forall_to_list.
  induction (map_to_list m) as [| [k x] l IH]; cbn.
  - split; [constructor | done].
  - rewrite Forall_cons, andb_true_iff, IH. done.
Qed.

Lemma is_json_of_json j : is_json (of_json j) = true.
Proof.
  induction j as [| b | n | s | l IH | l IH] using json_nested_ind; try done.
  - apply is_json_arr. by apply Forall_fmap.
  - cbn [of_json]. apply is_json_obj.
    cut (∀ m0 : gmap string value,
           map_Forall (λ _ x, is_json x = true) m0 →
           map_Forall (λ _ x, is_json x = true)
             (foldl (λ m kv, <[kv.1 := of_json kv.2]> m) m0 l)).
    { intros H. apply H, map_Forall_empty. }
    induction IH as [| [k x] l Hx Hl IHl]; intros m0 Hm0; [done |].
    cbn. apply IHl. by apply map_Forall_insert_2.
Qed.

Lemma jsonify_is_json v : is_json v = true → jsonify v = v.
Proof.
  induction v as [| | b | n | s | l IH | m IH] using value_nested_ind; try done.
  - rewrite is_json_arr. intros Hl. cbn. f_equal.
    rewrite <- (list_fmap_id l) at 2. apply Forall_fmap_ext_1.
    rewrite Forall_forall in IH, Hl |- *. intros x Hx.
    specialize (IH x Hx (Hl x Hx)). specialize (Hl x Hx). by destruct x.
  - rewrite is_json_obj. intros Hm. cbn. f_equal.
    apply map_eq. intros k. rewrite lookup_omap.
    destruct (m !! k) as [x |] eqn:Hk; [| done]. cbn.
    specialize (IH k x Hk (Hm k x Hk)). specialize (Hm k x Hk).
    destruct x; by simplify_eq/=; rewrite ?IH.
Qed.

(** What was written with [JSON.stringify] is read back by [JSON.parse],
    up to the properties and elements that have no JSON text. *)
Lemma JSON_parse_stringify v text :
  JSON_stringify v = Some text → JSON_parse text = Ok (jsonify v).
Proof.
  unfold JSON_stringify, JSON_parse. intros Hs.
  apply fmap_Some in Hs as (j & Hj & ->).
  by rewrite parse_text_print, (of_json_to_json v j Hj).
Qed.

Lemma JSON_parse_is_json text v : JSON_parse text = Ok v → is_json v = true.
Proof.
  unfold JSON_parse. destruct (parse_text text) as [j |]; [| done].
  intros [= <-]. apply is_json_of_json.
Qed.

(** ** The monad *)

Lemma js_bind_ok {A B} (m : js A) (f : A → js B) ls a ls' :
  m ls = (Ok a, ls') → (m ≫= f) ls = f a ls'.
Proof. intros H. unfold mbind, js_bind. by rewrite H. Qed.

Lemma js_bind_lift_ok {A B} (r : result A) (f : A → js B) ls a :
  r = Ok a → (lift r ≫= f) ls = f a ls.
Proof. by intros ->. Qed.

(** ** Reading the slot *)

(** [getSavedBills] never writes. *)
Lemma getSavedBills_state key ls : (getSavedBills key ls).2 = ls.
Proof.
  unfold getSavedBills, mbind, js_bind, getItem. cbn.
  destruct (slots ls !! key) as [text |]; [| done]. by case_bool_decide.
Qed.

Lemma getSavedBills_absent key ls :
  slots ls !! key = None ∨ slots ls !! key = Some EmptyString → stored key ls [].
Proof.
  unfold stored, getSavedBills, mbind, js_bind, getItem. cbn.
  by intros [-> | ->].
Qed.

Lemma getSavedBills_text key ls text :
  slots ls !! key = Some text → text ≠ EmptyString →
  getSavedBills key ls = (JSON_parse text, ls).
Proof.
  unfold getSavedBills, mbind, js_bind, getItem. cbn.
  intros -> Hne. by rewrite bool_decide_eq_false_2.
Qed.

(** What [getSavedBills] returns is JSON data. *)
Lemma stored_is_json key ls bills : stored key ls bills → is_json (VArr bills) = true.
Proof.
  unfold stored, getSavedBills, mbind, js_bind, getItem. cbn.
  destruct (slots ls !! key) as [text |]; [| by intros [= <-]].
  case_bool_decide; [by intros [= <-] |].
  unfold lift. intros [= Hparse]. exact (JSON_parse_is_json _ _ Hparse).
Qed.

Lemma stringified_arr_text l : ∃ r, stringified (VArr l) = String "[" r.
Proof. unfold stringified, JSON_stringify. cbn. by eexists. Qed.

(** After [setItem(key, JSON.stringify(bills))] the slot holds [bills], up
    to what has no JSON text. *)
Lemma stored_setItem key ls l :
  getSavedBills key (written key (stringified (VArr l)) ls)
  = (Ok (jsonify (VArr l)), written key (stringified (VArr l)) ls).
Proof.
  destruct (stringified_arr_text l) as [r Hr].
  rewrite (getSavedBills_text key _ (stringified (VArr l)));
    [| by cbn; rewrite lookup_insert_eq | by rewrite Hr].
  by rewrite (JSON_parse_stringify (VArr l)).
Qed.

Lemma stored_setItem_json key ls l :
  is_json (VArr l) = true → stored key (written key (stringified (VArr l)) ls) l.
Proof.
  intros Hl. unfold stored. by rewrite stored_setItem, jsonify_is_json.
Qed.

(** The other slots are not touched. *)
Lemma stored_setItem_ne key key' ls text :
  key ≠ key' → getSavedBills key' (written key text ls)
               = ((getSavedBills key' ls).1, written key text ls).
Proof.
  intros Hne. unfold getSavedBills, mbind, js_bind, getItem. cbn.
  rewrite lookup_insert_ne by done.
  destruct (slots ls !! key') as [t |]; [| done]. by case_bool_decide.
Qed.

(** ** Looking a bill up by its identifier *)

Lemma has_id_object id bill : is_object bill = true → has_id id bill = Ok (bill_has_id id bill).
Proof.
  destruct bill as [| | | | | | m]; try done. intros _.
  unfold has_id. cbn. destruct (m !! "id") as [[| | | | s | |] |]; try done.
Qed.

Lemma has_id_other id bill : other_bill id bill → has_id id bill = Ok false.
Proof. intros [Hobj Hid]. by rewrite has_id_object, Hid. Qed.

Lemma bill_has_id_lookup id bill :
  bill_has_id id bill = true ↔ ∃ m, bill = VObj m ∧ m !! "id" = Some (VStr id).
Proof.
  split.
  - destruct bill as [| | | | | | m]; try done. cbn.
    destruct (m !! "id") as [[| | | | s | |] |] eqn:Hid; try done.
    intros ->%bool_decide_eq_true. eauto.
  - intros (m & -> & Hid). cbn. rewrite Hid. by apply bool_decide_eq_true.
Qed.

Lemma findIndex_from_none p i l :
  Forall (λ x, p x = Ok false) l → findIndex_from p i l = Ok (-1)%Z.
Proof.
  intros Hl. revert i. induction Hl as [| x l Hx Hl IH]; intros i; [done |].
  cbn. rewrite Hx. cbn. apply IH.
Qed.

Lemma findIndex_from_found p i l1 x l2 :
  Forall (λ x, p x = Ok false) l1 → p x = Ok true →
  findIndex_from p i (l1 ++ x :: l2) = Ok (i + Z.of_nat (length l1))%Z.
Proof.
  intros Hl Hx. revert i. induction Hl as [| y l1 Hy Hl IH]; intros i; cbn.
  - rewrite Hx. cbn. f_equal. lia.
  - rewrite Hy. cbn. rewrite IH. f_equal. lia.
Qed.

Lemma find_none p l : Forall (λ x, p x = Ok false) l → find p l = Ok VUndefined.
Proof.
  induction 1 as [| x l Hx Hl IH]; [done |]. cbn. by rewrite Hx.
Qed.

Lemma find_found p l1 x l2 :
  Forall (λ x, p x = Ok false) l1 → p x = Ok true → find p (l1 ++ x :: l2) = Ok x.
Proof.
  intros Hl Hx. induction Hl as [| y l1 Hy Hl IH]; cbn.
  - by rewrite Hx.
  - by rewrite Hy.
Qed.

Lemma findIndex_missing id bills :
  Forall (other_bill id) bills → findIndex (has_id id) bills = Ok (-1)%Z.
Proof.
  intros H. apply findIndex_from_none.
  eapply Forall_impl; [exact H |]. apply has_id_other.
Qed.

Lemma findIndex_present id before bill after :
  Forall (other_bill id) before → bill_has_id id bill = true →
  findIndex (has_id id) (before ++ bill :: after) = Ok (Z.of_nat (length before)).
Proof.
  intros H Hid. unfold findIndex. rewrite findIndex_from_found.
  - f_equal.
  - eapply Forall_impl; [exact H |]. apply has_id_other.
  - apply bill_has_id_lookup in Hid as Hm. destruct Hm as (m & -> & _).
    by rewrite has_id_object, Hid.
Qed.

(** In a store of objects an identifier is either missing or carried by a
    first record. *)
Lemma bills_by_id id bills :
  Forall (λ bill, is_object bill = true) bills →
  Forall (other_bill id) bills
  ∨ ∃ before bill after,
      bills = before ++ bill :: after
      ∧ Forall (other_bill id) before ∧ bill_has_id id bill = true.
Proof.
  induction 1 as [| bill bills Hobj Hl IH]; [left; constructor |].
  destruct (bill_has_id id bill) eqn:Hid.
  - right. exists [], bill, bills. by split_and!.
  - destruct IH as [Hmiss | (before & bill' & after & -> & Hbefore & Hid')].
    + left. by constructor.
    + right. exists (bill :: before), bill', after. split_and!; [done | | done].
      by constructor.
Qed.

Lemma findIndex_from_inv p j l i :
  findIndex_from p j l = Ok i →
  (i = (-1)%Z ∧ Forall (λ x, p x = Ok false) l)
  ∨ ∃ l1 x l2, l = l1 ++ x :: l2 ∧ Forall (λ x, p x = Ok false) l1
               ∧ p x = Ok true ∧ i = (j + Z.of_nat (length l1))%Z.
Proof.
  revert j. induction l as [| y l IH]; intros j Hfind; cbn in Hfind.
  - left. by simplify_eq.
  - destruct (p y) as [[] |] eqn:Hy; cbn in Hfind; [| | done].
    + right. exists [], y, l. simplify_eq. split_and!; [done | constructor | done |].
      cbn. lia.
    + destruct (IH _ Hfind) as [[-> Hl] | (l1 & x & l2 & -> & Hl1 & Hx & ->)].
      * left. split; [done |]. by constructor.
      * right. exists (y :: l1), x, l2. split_and!; [done | by constructor | done |].
        cbn. lia.
Qed.

Lemma has_id_true id bill :
  has_id id bill = Ok true → ∃ m, bill = VObj m ∧ m !! "id" = Some (VStr id).
Proof.
  destruct bill as [| | | | | | m]; try done. unfold has_id. cbn.
  destruct (m !! "id") as [[| | | | s | |] |] eqn:Hid; try done. cbn.
  intros [= Hs%bool_decide_eq_true]. subst s. eauto.
Qed.

(** The record that [findIndex] finds is an object, which is what the
    spread and the assignments that follow it are applied to. *)
Lemma findIndex_finds_object id bills i :
  findIndex (has_id id) bills = Ok i → i ≠ (-1)%Z →
  ∃ m, bills !! Z.to_nat i = Some (VObj m) ∧ m !! "id" = Some (VStr id).
Proof.
  intros Hfind Hi.
  destruct (findIndex_from_inv _ _ _ _ Hfind)
    as [[-> _] | (l1 & x & l2 & -> & _ & Hx & ->)]; [done |].
  destruct (has_id_true id x Hx) as (m & -> & Hid).
  exists m. split; [| done].
  rewrite Z.add_0_l, Nat2Z.id. by apply list_lookup_middle.
Qed.

(** ** A missing identifier *)

Lemma updateBill_missing key updated id billData ls bills :
  stored key ls bills → Forall (other_bill id) bills →
  updateBill key updated id billData ls = (Throw (Error "Bill not found"), ls).
Proof.
  intros Hst Hid. unfold updateBill.
  erewrite js_bind_ok by exact Hst.
  erewrite js_bind_lift_ok by reflexivity.
  erewrite js_bind_lift_ok by (by apply findIndex_missing).
  done.
Qed.

Lemma updateBillStatus_missing key updated id status ls bills :
  stored key ls bills → Forall (other_bill id) bills →
  updateBillStatus key updated id status ls = (Ok (), ls).
Proof.
  intros Hst Hid. unfold updateBillStatus.
  erewrite js_bind_ok by exact Hst.
  erewrite js_bind_lift_ok by reflexivity.
  erewrite js_bind_lift_ok by (by apply findIndex_missing).
  done.
Qed.

Lemma deleteBill_missing key id ls bills :
  stored key ls bills → Forall (other_bill id) bills →
  deleteBill key id ls = (Ok false, ls).
Proof.
  intros Hst Hid. unfold deleteBill.
  erewrite js_bind_ok by exact Hst.
  erewrite js_bind_lift_ok by reflexivity.
  erewrite js_bind_lift_ok by (by apply findIndex_missing).
  done.
Qed.

(** ** JSON data is closed under the updates the modules make *)

Lemma is_json_insert m k v :
  is_json (VObj m) = true → is_json v = true → is_json (VObj (<[k := v]> m)) = true.
Proof.
  rewrite !is_json_obj. intros Hm Hv. by apply map_Forall_insert_2.
Qed.

Lemma is_json_union m1 m2 :
  is_json (VObj m1) = true → is_json (VObj m2) = true → is_json (VObj (m1 ∪ m2)) = true.
Proof.
  rewrite !is_json_obj. apply map_Forall_union_2.
Qed.

Lemma is_json_lookup m k v :
  is_json (VObj m) = true → m !! k = Some v → is_json v = true.
Proof. rewrite is_json_obj. intros Hm Hk. exact (Hm k v Hk). Qed.

Lemma is_json_middle before x after :
  is_json (VArr (before ++ x :: after)) = true ↔
  is_json (VArr before) = true ∧ is_json x = true ∧ is_json (VArr after) = true.
Proof. rewrite !is_json_arr, Forall_app, Forall_cons. done. Qed.

Lemma is_json_without before x after :
  is_json (VArr (before ++ x :: after)) = true → is_json (VArr (before ++ after)) = true.
Proof.
  rewrite is_json_middle, !is_json_arr, Forall_app. naive_solver.
Qed.

(** ** An identifier that is present *)

Lemma deleteBill_present key id ls before bill after :
  stored key ls (before ++ bill :: after) →
  Forall (other_bill id) before → bill_has_id id bill = true →
  ∃ ls', deleteBill key id ls = (Ok true, ls') ∧ stored key ls' (before ++ after).
Proof.
  intros Hst Hbefore Hid. eexists. split.
  - unfold deleteBill.
    erewrite js_bind_ok by exact Hst.
    erewrite js_bind_lift_ok by reflexivity.
    erewrite js_bind_lift_ok by (by apply findIndex_present).
    rewrite bool_decide_eq_false_2 by lia. cbn [negb].
    unfold splice1. rewrite Nat2Z.id, delete_middle. reflexivity.
  - apply stored_setItem_json. eapply is_json_without, stored_is_json, Hst.
Qed.

Lemma updateBillStatus_present key updated id status ls before m after :
  stored key ls (before ++ VObj m :: after) →
  Forall (other_bill id) before → bill_has_id id (VObj m) = true →
  is_json status = true →
  ∃ ls', updateBillStatus key updated id status ls = (Ok (), ls')
    ∧ stored key ls'
        (before
         ++ VObj (<["updatedAt" := VStr (toISOString updated)]> (<["status" := status]> m))
         :: after).
Proof.
  intros Hst Hbefore Hid Hstatus. eexists. split.
  - unfold updateBillStatus.
    erewrite js_bind_ok by exact Hst.
    erewrite js_bind_lift_ok by reflexivity.
    erewrite js_bind_lift_ok by (by apply findIndex_present).
    rewrite bool_decide_eq_false_2 by lia. cbn [negb].
    rewrite Nat2Z.id, list_lookup_total_middle by done.
    erewrite js_bind_lift_ok by reflexivity.
    erewrite js_bind_lift_ok by reflexivity.
    rewrite insert_app_r_alt, Nat.sub_diag by done.
    cbn [insert list_insert]. reflexivity.
  - apply stored_setItem_json.
    apply stored_is_json, is_json_middle in Hst as (Hb & Hm & Ha).
    apply is_json_middle. split_and!; try done.
    by repeat apply is_json_insert.
Qed.

Lemma jsonify_arr_middle before x after :
  is_json (VArr before) = true → is_json (VArr after) = true → x ≠ VUndefined →
  jsonify (VArr (before ++ x :: after)) = VArr (before ++ jsonify x :: after).
Proof.
  intros Hb Ha Hx. apply jsonify_is_json in Hb, Ha. cbn in Hb, Ha |- *.
  rewrite map_app. cbn. injection Hb as ->. injection Ha as ->. by destruct x.
Qed.

Lemma jsonify_arr_snoc l x :
  is_json (VArr l) = true → x ≠ VUndefined →
  jsonify (VArr (l ++ [x])) = VArr (l ++ [jsonify x]).
Proof. intros Hl Hx. by rewrite jsonify_arr_middle. Qed.

(** Reading a property of a stored copy: the property of the original,
    itself copied. *)
Lemma lookup_jsonify_obj m k :
  ∃ m', jsonify (VObj m) = VObj m'
    ∧ m' !! k = match m !! k with
                | Some VUndefined | None => None
                | Some x => Some (jsonify x)
                end.
Proof.
  eexists. split; [reflexivity |]. rewrite lookup_omap.
  destruct (m !! k) as [x |]; [| done]. by destruct x.
Qed.

Lemma prop_jsonify_obj m k x :
  prop (VObj m) k = Ok x → is_json x = true ∨ x = VUndefined →
  prop (jsonify (VObj m)) k = Ok x.
Proof.
  destruct (lookup_jsonify_obj m k) as (m' & -> & Hk). cbn. rewrite Hk.
  intros [= <-] Hx. destruct (m !! k) as [y |]; [| done]. cbn in *.
  destruct Hx as [Hx | ->]; [| done].
  rewrite (jsonify_is_json y Hx). by destruct y.
Qed.

Lemma updateBill_present key updated id billData ls before existing after :
  stored key ls (before ++ VObj existing :: after) →
  Forall (other_bill id) before → bill_has_id id (VObj existing) = true →
  let updatedBill :=
    VObj (<["updatedAt" := VStr (toISOString updated)]>
         (<["createdAt" := default VUndefined (existing !! "createdAt")]>
         (<["invoiceNumber" := default VUndefined (existing !! "invoiceNumber")]>
         (<["id" := default VUndefined (existing !! "id")]> (billData ∪ existing))))) in
  ∃ ls', updateBill key updated id billData ls = (Ok updatedBill, ls')
    ∧ stored key ls' (before ++ jsonify updatedBill :: after).
Proof.
  intros Hst Hbefore Hid updatedBill. eexists. split.
  - unfold updateBill.
    erewrite js_bind_ok by exact Hst.
    erewrite js_bind_lift_ok by reflexivity.
    erewrite js_bind_lift_ok by (by apply findIndex_present).
    rewrite bool_decide_eq_false_2 by lia.
    rewrite Nat2Z.id, list_lookup_total_middle by done.
    do 3 (erewrite js_bind_lift_ok by reflexivity).
    rewrite insert_app_r_alt, Nat.sub_diag by done.
    cbn [insert list_insert with_props foldl fst snd spread]. reflexivity.
  - unfold stored. rewrite stored_setItem.
    apply stored_is_json, is_json_middle in Hst as (Hb & Hm & Ha).
    by rewrite jsonify_arr_middle.
Qed.

(** ** Saving *)

Lemma saveBill_run key today now created billData ls bills :
  stored key ls bills →
  let newBill :=
    VObj (<["createdAt" := VStr (toISOString created)]>
         (<["status" := VStr "Pending"]>
         (<["invoiceNumber" :=
              VStr ("INV-" +:+ Number_toString (getFullYear today) +:+ "-" +:+
                    padStart 3 "0" (Number_toString (Z.of_nat (length bills) + 1)))]>
         (<["id" := VStr (Number_toString now)]> billData)))) in
  ∃ ls', saveBill key today now created billData ls = (Ok newBill, ls')
    ∧ stored key ls' (bills ++ [jsonify newBill]).
Proof.
  intros Hst newBill. eexists. split.
  - unfold saveBill.
    erewrite js_bind_ok by exact Hst.
    erewrite js_bind_lift_ok by reflexivity.
    cbn [with_props foldl fst snd]. reflexivity.
  - unfold stored. rewrite stored_setItem.
    apply stored_is_json in Hst. by rewrite jsonify_arr_snoc.
Qed.

Lemma saveBill2_run key today now created billData ls bills :
  stored key ls bills → some (same_details billData) bills = Ok false →
  let newBill :=
    VObj (<["createdAt" := VStr (toISOString created)]>
         (<["status" := VStr "Pending"]>
         (<["invoiceNumber" :=
              VStr ("INV-" +:+ Number_toString (getFullYear today) +:+ "-" +:+
                    padStart 3 "0" (Number_toString (Z.of_nat (length bills) + 1)))]>
         (<["id" := VStr (Number_toString now)]> billData)))) in
  ∃ ls', saveBill2 key today now created billData ls = (Ok newBill, ls')
    ∧ stored key ls' (bills ++ [jsonify newBill]).
Proof.
  intros Hst Hdup newBill. eexists. split.
  - unfold saveBill2.
    erewrite js_bind_ok by exact Hst.
    erewrite js_bind_lift_ok by reflexivity.
    erewrite js_bind_lift_ok by exact Hdup.
    cbn [with_props foldl fst snd]. reflexivity.
  - unfold stored. rewrite stored_setItem.
    apply stored_is_json in Hst. by rewrite jsonify_arr_snoc.
Qed.

Lemma saveBill2_duplicate key today now created billData ls bills :
  stored key ls bills → some (same_details billData) bills = Ok true →
  saveBill2 key today now created billData ls = (Throw (Error duplicate_message), ls).
Proof.
  intros Hst Hdup. unfold saveBill2.
  erewrite js_bind_ok by exact Hst.
  erewrite js_bind_lift_ok by reflexivity.
  erewrite js_bind_lift_ok by exact Hdup.
  reflexivity.
Qed.

(** The callback of the duplicate check, on records of the expected shape. *)
Lemma str_field_prop m k s : str_field m k = Some s → prop (VObj m) k = Ok (VStr s).
Proof.
  unfold str_field. cbn. destruct (m !! k) as [[| | | | s' | |] |]; try done.
  by intros [= ->].
Qed.

Lemma same_details_typed billData bill d e :
  details_of (VObj billData) = Some d → details_of bill = Some e →
  same_details billData bill = Ok (bool_decide (same_bill e d)).
Proof.
  destruct bill as [| | | | | | m]; try done. cbn [details_of].
  intros Hd He.
  destruct (str_field billData "customer") as [c |] eqn:Hc; [| done].
  destruct (str_field billData "address") as [a |] eqn:Ha; [| done].
  destruct (str_field billData "city") as [t |] eqn:Ht; [| done].
  destruct (str_field billData "invoice") as [i |] eqn:Hi; [| done].
  destruct (str_field m "customer") as [c' |] eqn:Hc'; [| done].
  destruct (str_field m "address") as [a' |] eqn:Ha'; [| done].
  destruct (str_field m "city") as [t' |] eqn:Ht'; [| done].
  destruct (str_field m "invoice") as [i' |] eqn:Hi'; [| done].
  cbn in Hd, He. simplify_eq. unfold same_details, same_bill. cbn [customer address city invoice].
  rewrite !(str_field_prop _ _ _ Hc), !(str_field_prop _ _ _ Ha),
    !(str_field_prop _ _ _ Ht), !(str_field_prop _ _ _ Hi),
    !(str_field_prop _ _ _ Hc'), !(str_field_prop _ _ _ Ha'),
    !(str_field_prop _ _ _ Ht'), !(str_field_prop _ _ _ Hi').
  cbn.
  repeat case_bool_decide; cbn; try done; naive_solver.
Qed.

Lemma some_same_details billData d bills :
  details_of (VObj billData) = Some d →
  Forall (λ bill, is_Some (details_of bill)) bills →
  some (same_details billData) bills = Ok (existsb (duplicates d) bills).
Proof.
  intros Hd. induction 1 as [| bill bills [e He] Hl IH]; [done |].
  cbn [some existsb]. rewrite (same_details_typed _ _ _ _ Hd He).
  unfold duplicates at 1. rewrite He. cbn.
  by case_bool_decide.
Qed.

(** ** The records that save and update build *)

Lemma prop_is_json_or_undefined m k :
  is_json (VObj m) = true →
  ∃ x, prop (VObj m) k = Ok x ∧ (is_json x = true ∨ x = VUndefined).
Proof.
  intros Hm. cbn. destruct (m !! k) as [x |] eqn:Hk; eexists; (split; [done |]).
  - left. by eapply is_json_lookup.
  - by right.
Qed.

Lemma updated_from_returned existing billData updated :
  updated_from existing billData updated
    (<["updatedAt" := VStr (toISOString updated)]>
    (<["createdAt" := default VUndefined (existing !! "createdAt")]>
    (<["invoiceNumber" := default VUndefined (existing !! "invoiceNumber")]>
    (<["id" := default VUndefined (existing !! "id")]> (billData ∪ existing))))).
Proof.
  unfold updated_from, prop. split_and!.
  - by simplify_map_eq.
  - by simplify_map_eq.
  - by simplify_map_eq.
  - by simplify_map_eq.
  - intros k Hk. rewrite !not_elem_of_cons in Hk. destruct Hk as (? & ? & ? & ? & _).
    by rewrite !lookup_insert_ne.
Qed.

(** The stored copy of an updated record has the same fields, when the
    existing record and the payload are JSON data. *)
Lemma updated_from_persisted existing billData updated r :
  is_json (VObj existing) = true → is_json (VObj billData) = true →
  r = <["updatedAt" := VStr (toISOString updated)]>
      (<["createdAt" := default VUndefined (existing !! "createdAt")]>
      (<["invoiceNumber" := default VUndefined (existing !! "invoiceNumber")]>
      (<["id" := default VUndefined (existing !! "id")]> (billData ∪ existing)))) →
  ∃ persisted, jsonify (VObj r) = VObj persisted
    ∧ updated_from existing billData updated persisted.
Proof.
  intros He Hd ->. eexists. split; [reflexivity |].
  pose proof (updated_from_returned existing billData updated) as (Hid & Hinv & Hcr & Hup & Hrest).
  pose proof (is_json_union _ _ Hd He) as Hu.
  unfold updated_from.
  change (VObj (omap ?f ?m)) with (jsonify (VObj m)).
  split_and!.
  - destruct (prop_is_json_or_undefined existing "id" He) as (x & Hx & Hj).
    rewrite Hx in Hid |- *. by apply prop_jsonify_obj.
  - destruct (prop_is_json_or_undefined existing "invoiceNumber" He) as (x & Hx & Hj).
    rewrite Hx in Hinv |- *. by apply prop_jsonify_obj.
  - destruct (prop_is_json_or_undefined existing "createdAt" He) as (x & Hx & Hj).
    rewrite Hx in Hcr |- *. by apply prop_jsonify_obj.
  - apply prop_jsonify_obj; [done | by left].
  - intros k Hk.
    destruct (prop_is_json_or_undefined (billData ∪ existing) k Hu) as (x & Hx & Hj).
    specialize (Hrest k Hk). rewrite Hx in Hrest |- *. by apply prop_jsonify_obj.
Qed.

Lemma created_from_new billData today now created count :
  created_from billData today now created count
    (<["createdAt" := VStr (toISOString created)]>
    (<["status" := VStr "Pending"]>
    (<["invoiceNumber" := VStr (invoice_number today count)]>
    (<["id" := VStr (Number_toString now)]> billData)))).
Proof.
  unfold created_from. split_and!.
  - by simplify_map_eq.
  - by simplify_map_eq.
  - by simplify_map_eq.
  - by simplify_map_eq.
  - intros k Hk. rewrite !not_elem_of_cons in Hk. destruct Hk as (? & ? & ? & ? & _).
    by rewrite !lookup_insert_ne.
Qed.

Lemma is_json_new billData today now created count :
  is_json (VObj billData) = true →
  is_json (VObj (<["createdAt" := VStr (toISOString created)]>
                (<["status" := VStr "Pending"]>
                (<["invoiceNumber" := VStr (invoice_number today count)]>
                (<["id" := VStr (Number_toString now)]> billData))))) = true.
Proof. intros Hd. by repeat apply is_json_insert. Qed.

(** ** The invoice number *)

Lemma pretty_N_go_app x s k : pretty_N_go x s +:+ k = pretty_N_go x (s +:+ k).
Proof.
  revert s. induction (N.lt_wf_0 x) as [x _ IH]. intros s.
  destruct (decide (x = 0)%N) as [-> | Hx]; [by rewrite !pretty_N_go_0 |].
  rewrite (pretty_N_go_step x s), (pretty_N_go_step x (s +:+ k)) by lia.
  rewrite IH by (apply N.div_lt; lia). reflexivity.
Qed.

Lemma append_empty_r s : s +:+ EmptyString = s.
Proof.
  induction s as [| c s IH]; [reflexivity |].
  change (String c s +:+ EmptyString) with (String c (s +:+ EmptyString)).
  by rewrite IH.
Qed.

Lemma Number_toString_pos z k :
  (0 < z)%Z → Number_toString z +:+ k = pretty_N_go (Z.to_N z) k.
Proof.
  destruct z as [| p | p]; try lia. intros _.
  unfold Number_toString, pretty, pretty_Z, pretty, pretty_positive, pretty, pretty_N.
  rewrite decide_False by done. by rewrite pretty_N_go_app.
Qed.

Lemma is_digit_pretty d : is_digit (pretty_N_char d) = true.
Proof. unfold pretty_N_char. by repeat case_match. Qed.

Lemma pretty_N_go_digits4 x k :
  (1000 ≤ x ≤ 9999)%N →
  ∃ a b c d, pretty_N_go x k
    = String (pretty_N_char a) (String (pretty_N_char b)
        (String (pretty_N_char c) (String (pretty_N_char d) k))).
Proof.
  intros Hx.
  rewrite pretty_N_go_step by lia.
  rewrite pretty_N_go_step by (apply N.div_str_pos; lia).
  rewrite !N.Div0.div_div by lia.
  rewrite pretty_N_go_step by (apply N.div_str_pos; lia).
  rewrite !N.Div0.div_div by lia.
  rewrite pretty_N_go_step by (apply N.div_str_pos; lia).
  rewrite !N.Div0.div_div by lia.
  rewrite (N.div_small x) by lia. rewrite pretty_N_go_0. eauto.
Qed.

Lemma pretty_N_go_digits3 x k :
  (100 ≤ x ≤ 999)%N →
  ∃ a b c, pretty_N_go x k
    = String (pretty_N_char a) (String (pretty_N_char b) (String (pretty_N_char c) k)).
Proof.
  intros Hx.
  rewrite pretty_N_go_step by lia.
  rewrite pretty_N_go_step by (apply N.div_str_pos; lia).
  rewrite !N.Div0.div_div by lia.
  rewrite pretty_N_go_step by (apply N.div_str_pos; lia).
  rewrite !N.Div0.div_div by lia.
  rewrite (N.div_small x) by lia. rewrite pretty_N_go_0. eauto.
Qed.

Lemma pretty_N_go_digits2 x k :
  (10 ≤ x ≤ 99)%N →
  ∃ a b, pretty_N_go x k = String (pretty_N_char a) (String (pretty_N_char b) k).
Proof.
  intros Hx.
  rewrite pretty_N_go_step by lia.
  rewrite pretty_N_go_step by (apply N.div_str_pos; lia).
  rewrite !N.Div0.div_div by lia.
  rewrite (N.div_small x) by lia. rewrite pretty_N_go_0. eauto.
Qed.

Lemma pretty_N_go_digits1 x k :
  (1 ≤ x ≤ 9)%N → ∃ a, pretty_N_go x k = String (pretty_N_char a) k.
Proof.
  intros Hx.
  rewrite pretty_N_go_step by lia.
  rewrite (N.div_small x) by lia. rewrite pretty_N_go_0. eauto.
Qed.

(** The sequence part has exactly three digits up to 999. *)
Lemma padStart_sequence (n : Z) :
  (1 ≤ n ≤ 999)%Z →
  ∃ a b c, padStart 3 "0" (Number_toString n)
           = String a (String b (String c EmptyString))
           ∧ is_digit a = true ∧ is_digit b = true ∧ is_digit c = true.
Proof.
  intros Hn.
  assert (Number_toString n = pretty_N_go (Z.to_N n) EmptyString) as ->.
  { rewrite <- (Number_toString_pos n EmptyString) by lia. by rewrite append_empty_r. }
  assert (1 ≤ Z.to_N n ≤ 9 ∨ 10 ≤ Z.to_N n ≤ 99 ∨ 100 ≤ Z.to_N n ≤ 999)%N
    as [H | [H | H]] by lia.
  - destruct (pretty_N_go_digits1 _ EmptyString H) as (a & ->).
    exists "0"%char, "0"%char, (pretty_N_char a). by rewrite is_digit_pretty.
  - destruct (pretty_N_go_digits2 _ EmptyString H) as (a & b & ->).
    exists "0"%char, (pretty_N_char a), (pretty_N_char b). by rewrite !is_digit_pretty.
  - destruct (pretty_N_go_digits3 _ EmptyString H) as (a & b & c & ->).
    exists (pretty_N_char a), (pretty_N_char b), (pretty_N_char c).
    by rewrite !is_digit_pretty.
Qed.

Lemma read_digits_pretty x k :
  (∀ c r, k = String c r → digit_of c = None) →
  read_digits 0 (pretty_N_go x k) = (x, k).
Proof.
  intros Hk. destruct (read_digits_pretty_go x) as [m Hm]. rewrite Hm.
  replace (0 * m + x)%N with x by lia.
  destruct k as [| c r]; [done |]. cbn. by rewrite (Hk c r).
Qed.

Lemma read_digits_pad n cur r :
  cur = "0" ∨ cur = EmptyString →
  read_digits 0 (pad_fill n "0" cur +:+ r) = read_digits 0 r.
Proof.
  revert cur. induction n as [| n IH]; intros cur Hcur; [done |].
  destruct Hcur as [-> | ->]; cbn [pad_fill]; apply (IH EmptyString); by right.
Qed.

Lemma invoice_parts_number today count :
  (0 < getFullYear today)%Z →
  invoice_parts (invoice_number today count)
  = Some (Z.to_N (getFullYear today), N.of_nat count + 1)%N.
Proof.
  intros Hy. unfold invoice_number.
  rewrite Number_toString_pos by done.
  unfold padStart.
  assert (Number_toString (Z.of_nat count + 1)
          = pretty_N_go (N.of_nat count + 1) EmptyString) as ->.
  { replace (N.of_nat count + 1)%N with (Z.to_N (Z.of_nat count + 1)) by lia.
    rewrite <- (Number_toString_pos _ EmptyString) by lia.
    by rewrite append_empty_r. }
  cbn [invoice_parts String.append].
  change ("INV-" +:+ ?t) with (String "I" (String "N" (String "V" (String "-" t)))).
  cbn [invoice_parts].
  rewrite read_digits_pretty by (intros c r [= <- _]; done).
  change ("-" +:+ ?t) with (String "-"%char t). cbv beta iota.
  rewrite read_digits_pad by (by left).
  rewrite read_digits_pretty by done. done.
Qed.

Lemma invoice_pattern_number today count :
  (1000 ≤ getFullYear today ≤ 9999)%Z → count < 999 →
  invoice_pattern (invoice_number today count) = true.
Proof.
  intros Hy Hc. unfold invoice_number.
  rewrite Number_toString_pos by lia.
  destruct (padStart_sequence (Z.of_nat count + 1)) as (a & b & c & -> & Ha & Hb & Hc');
    [lia |].
  destruct (pretty_N_go_digits4 (Z.to_N (getFullYear today))
              ("-" +:+ String a (String b (String c EmptyString))))
    as (y1 & y2 & y3 & y4 & ->); [lia |].
  change ("-" +:+ ?t) with (String "-"%char t).
  change ("INV-" +:+ ?t) with (String "I" (String "N" (String "V" (String "-" t)))).
  cbn [invoice_pattern]. by rewrite !is_digit_pretty, Ha, Hb, Hc'.
Qed.

Lemma numbered_new billData today now created count :
  (1000 ≤ getFullYear today ≤ 9999)%Z →
  numbered today count
    (VObj (<["createdAt" := VStr (toISOString created)]>
          (<["status" := VStr "Pending"]>
          (<["invoiceNumber" := VStr (invoice_number today count)]>
          (<["id" := VStr (Number_toString now)]> billData))))).
Proof.
  intros Hy. exists (invoice_number today count). split_and!.
  - cbn [prop]. by simplify_map_eq.
  - apply invoice_parts_number. lia.
  - intros Hc. by apply invoice_pattern_number.
  - by intros ->.
Qed.

(** ** The duplicate check of [saveBill2] *)

Lemma differs_not_same e d : differs e d ↔ ¬ same_bill e d.
Proof.
  unfold differs, same_bill. split; [naive_solver |]. intros Hn.
  destruct (decide (toLowerCase (customer e) = toLowerCase (customer d))); [| by auto].
  destruct (decide (toLowerCase (address e) = toLowerCase (address d))); [| by auto].
  destruct (decide (toLowerCase (city e) = toLowerCase (city d))); [| by auto].
  destruct (decide (invoice e = invoice d)); [| by auto].
  by destruct Hn.
Qed.

Lemma existsb_duplicates d bills :
  existsb (duplicates d) bills = true
  ↔ ∃ bill e, bill ∈ bills ∧ details_of bill = Some e ∧ same_bill e d.
Proof.
  rewrite existsb_exists. split.
  - intros (bill & Hin%list_elem_of_In & Hdup). unfold duplicates in Hdup.
    destruct (details_of bill) as [e |] eqn:He; [| done].
    apply bool_decide_eq_true in Hdup. eauto.
  - intros (bill & e & Hin%list_elem_of_In & He & Hsame). exists bill. split; [done |].
    unfold duplicates. rewrite He. by apply bool_decide_eq_true.
Qed.

Lemma acme_same : same_bill acme_details acme_capitals_details.
Proof. repeat split; vm_compute; reflexivity. Qed.

Lemma acme_differs : differs acme_details acme_second_invoice_details.
Proof. right; right; right. vm_compute. discriminate. Qed.

(** ** Reading a bill back *)

Lemma getBillById_present key id ls before bill after :
  stored key ls (before ++ bill :: after) →
  Forall (other_bill id) before → bill_has_id id bill = true →
  getBillById key id ls = (Ok bill, ls).
Proof.
  intros Hst Hbefore Hid. unfold getBillById.
  erewrite js_bind_ok by exact Hst.
  erewrite js_bind_lift_ok by reflexivity.
  apply bill_has_id_lookup in Hid as Hm. destruct Hm as (m & -> & _).
  erewrite (js_bind_lift_ok _ _ _ (VObj m)); [reflexivity |].
  apply find_found.
  - eapply Forall_impl; [exact Hbefore |]. apply has_id_other.
  - by rewrite has_id_object, Hid.
Qed.

Lemma getBillById_missing key id ls bills :
  stored key ls bills → Forall (other_bill id) bills →
  getBillById key id ls = (Ok VNull, ls).
Proof.
  intros Hst Hid. unfold getBillById.
  erewrite js_bind_ok by exact Hst.
  erewrite js_bind_lift_ok by reflexivity.
  erewrite (js_bind_lift_ok _ _ _ VUndefined); [reflexivity |].
  apply find_none. eapply Forall_impl; [exact Hid |]. apply has_id_other.
Qed.

(** When no stored record has the identifier that the clock yields, the
    saved bill is the one [getBillById] finds. *)
Lemma save_then_getById_fresh key today now created billData ls bills :
  stored key ls bills →
  Forall (other_bill (Number_toString now)) bills →
  is_json (VObj billData) = true →
  ∃ newBill ls',
    saveBill key today now created billData ls = (Ok newBill, ls')
    ∧ getBillById key (Number_toString now) ls' = (Ok newBill, ls').
Proof.
  intros Hst Hfresh Hjson.
  destruct (saveBill_run key today now created billData ls bills Hst) as (ls' & Hrun & Hst').
  eexists _, ls'. split; [exact Hrun |].
  rewrite jsonify_is_json in Hst'
    by (by apply (is_json_new billData today now created (length bills))).
  apply (getBillById_present key _ ls' bills _ []); [exact Hst' | exact Hfresh |].
  apply bill_has_id_lookup. eexists. split; [reflexivity |]. by simplify_map_eq.
Qed.

(** * The claims

    A theorem about [updateBill], [updateBillStatus], [deleteBill],
    [getSavedBills], [getBillById] or [saveBill] is stated for every storage
    key: at ["saved_bills"] it speaks of the function of [billStorage.js],
    at ["saved_bills02"] of its twin in [billstorage2.js]. *)

(** C1. On a store of records that carry the four compared fields as
    strings, [saveBill2] throws its duplicate error exactly when a stored
    record has customer, address and city equal to the new data's up to
    case and the same invoice reference.  The failing call leaves the
    storage as it was, the check coming first; and data that differs from
    every stored record in at least one of the four fields is saved. *)
Theorem saveBill2_duplicate_check key today now created billData d ls bills :
  stored key ls bills →
  Forall (λ bill, is_Some (details_of bill)) bills →
  details_of (VObj billData) = Some d →
  is_json (VObj billData) = true →
  let outcome := saveBill2 key today now created billData ls in
  (outcome.1 = Throw (Error duplicate_message)
   ↔ ∃ bill e, bill ∈ bills ∧ details_of bill = Some e ∧ same_bill e d)
  ∧ (outcome.1 = Throw (Error duplicate_message) → outcome.2 = ls)
  ∧ ((∀ bill e, bill ∈ bills → details_of bill = Some e → differs e d) →
     ∃ newBill ls',
       outcome = (Ok (VObj newBill), ls') ∧ stored key ls' (bills ++ [VObj newBill])).
Proof.
  intros Hst Htyped Hd Hjson outcome.
  pose proof (some_same_details billData d bills Hd Htyped) as Hsome.
  pose proof (existsb_duplicates d bills) as Hex.
  destruct (existsb (duplicates d) bills) eqn:Hdup.
  - pose proof (saveBill2_duplicate key today now created billData ls bills Hst Hsome) as Hrun.
    fold outcome in Hrun. rewrite Hrun. cbn. split_and!.
    + split; [intros _; by apply Hex | done].
    + done.
    + intros Hdiff. destruct (proj1 Hex eq_refl) as (bill & e & Hin & He & Hsame).
      by destruct (proj1 (differs_not_same e d) (Hdiff bill e Hin He)).
  - destruct (saveBill2_run key today now created billData ls bills Hst Hsome)
      as (ls' & Hrun & Hst').
    fold outcome in Hrun. rewrite Hrun. cbn. split_and!.
    + split; [done |]. intros H. apply Hex in H. done.
    + done.
    + intros _. eexists _, ls'. split; [reflexivity |].
      rewrite jsonify_is_json in Hst'; [done |].
      by apply (is_json_new billData today now created (length bills)).
Qed.

(** The scenario of the specification: after "Acme Corp" was saved, the
    same data with the customer in capitals is refused and the storage
    stays as it was; with another invoice reference it is saved. *)
Lemma saveBill2_duplicate_check_witness :
  stored saved_bills02 acme_store [VObj acme_bill]
  ∧ Forall (λ bill, is_Some (details_of bill)) [VObj acme_bill]
  ∧ details_of (VObj acme_capitals) = Some acme_capitals_details
  ∧ is_json (VObj acme_capitals) = true
  ∧ saveBill2 saved_bills02 sample_date sample_now sample_date acme_capitals acme_store
    = (Throw (Error duplicate_message), acme_store)
  ∧ ∃ newBill ls',
      saveBill2 saved_bills02 sample_date sample_now sample_date acme_second_invoice
        acme_store = (Ok (VObj newBill), ls')
      ∧ stored saved_bills02 ls' [VObj acme_bill; VObj newBill].
Proof.
  assert (stored saved_bills02 acme_store [VObj acme_bill]) as Hst
    by (vm_compute; reflexivity).
  assert (Forall (λ bill, is_Some (details_of bill)) [VObj acme_bill]) as Htyped.
  { repeat constructor. exists acme_details. vm_compute. reflexivity. }
  assert (details_of (VObj acme_capitals) = Some acme_capitals_details) as Hd
    by (vm_compute; reflexivity).
  assert (is_json (VObj acme_capitals) = true) as Hjson by (vm_compute; reflexivity).
  assert (details_of (VObj acme_second_invoice) = Some acme_second_invoice_details) as Hd'
    by (vm_compute; reflexivity).
  assert (is_json (VObj acme_second_invoice) = true) as Hjson'
    by (vm_compute; reflexivity).
  assert (∃ bill e, bill ∈ [VObj acme_bill] ∧ details_of bill = Some e
                    ∧ same_bill e acme_capitals_details) as Hdup.
  { exists (VObj acme_bill), acme_details. split; [apply list_elem_of_here |].
    split; [vm_compute; reflexivity | exact acme_same]. }
  assert (∀ bill e, bill ∈ [VObj acme_bill] → details_of bill = Some e →
                    differs e acme_second_invoice_details) as Hdiff.
  { intros bill e Hin He. apply list_elem_of_singleton in Hin. subst bill.
    vm_compute in He. injection He as <-. exact acme_differs. }
  destruct (saveBill2_duplicate_check saved_bills02 sample_date sample_now sample_date
              acme_capitals acme_capitals_details acme_store [VObj acme_bill]
              Hst Htyped Hd Hjson)
    as (Hiff & Hsame & _).
  destruct (saveBill2_duplicate_check saved_bills02 sample_date sample_now sample_date
              acme_second_invoice acme_second_invoice_details acme_store [VObj acme_bill]
              Hst Htyped Hd' Hjson')
    as (_ & _ & Hsave).
  split; [exact Hst |]. split; [exact Htyped |]. split; [exact Hd |].
  split; [exact Hjson |]. split; [| exact (Hsave Hdiff)].
  rewrite (surjective_pairing (saveBill2 _ _ _ _ _ _)).
  rewrite (proj2 Hiff Hdup), (Hsame (proj2 Hiff Hdup)). reflexivity.
Defined.

(** C2. [update] on the identifier of a stored record (the first record
    with it) returns a record and stores one in the place of the existing
    record; in both, [id],
    [invoiceNumber] and [createdAt] are those of the existing record
    whatever the payload says, [updatedAt] is the time of the call, and
    every other field is the payload's or else the existing record's.
    The payload is JSON data. *)
Theorem update_keeps_identity key updated id billData ls before existing after :
  stored key ls (before ++ VObj existing :: after) →
  Forall (other_bill id) before →
  bill_has_id id (VObj existing) = true →
  is_json (VObj billData) = true →
  ∃ returned persisted ls',
    updateBill key updated id billData ls = (Ok (VObj returned), ls')
    ∧ stored key ls' (before ++ VObj persisted :: after)
    ∧ updated_from existing billData updated returned
    ∧ updated_from existing billData updated persisted.
Proof.
  intros Hst Hbefore Hid Hd.
  destruct (updateBill_present key updated id billData ls before existing after
              Hst Hbefore Hid) as (ls' & Hrun & Hst').
  apply stored_is_json, is_json_middle in Hst as (_ & He & _).
  destruct (updated_from_persisted existing billData updated _ He Hd eq_refl)
    as (persisted & Hp & Hfields).
  rewrite Hp in Hst'.
  eexists _, persisted, ls'. split_and!; [exact Hrun | exact Hst' | | exact Hfields].
  apply updated_from_returned.
Qed.

Lemma update_keeps_identity_witness :
  stored saved_bills02 acme_store ([] ++ VObj acme_bill :: [])
  ∧ is_json (VObj hostile_update) = true
  ∧ ∃ returned persisted ls',
      updateBill2 sample_date "1714557600000" hostile_update acme_store
        = (Ok (VObj returned), ls')
      ∧ stored saved_bills02 ls' [VObj persisted]
      ∧ updated_from acme_bill hostile_update sample_date returned
      ∧ updated_from acme_bill hostile_update sample_date persisted.
Proof.
  assert (stored saved_bills02 acme_store ([] ++ VObj acme_bill :: [])) as Hst
    by (vm_compute; reflexivity).
  assert (is_json (VObj hostile_update) = true) as Hd by (vm_compute; reflexivity).
  split; [exact Hst |]. split; [exact Hd |].
  exact (update_keeps_identity saved_bills02 sample_date "1714557600000" hostile_update
           acme_store [] acme_bill [] Hst (Forall_nil_2 _) eq_refl Hd).
Defined.

(** C3. [update] with an identifier that no stored record has throws the
    error "Bill not found" ([updateBill] and [updateBill2] are the instances
    of the function at the two keys), and the storage after the failed call
    is the storage before it: nothing was written, and [getSavedBills]
    returns what it returned before. *)
Theorem update_missing_id key updated id billData ls bills :
  stored key ls bills →
  Forall (other_bill id) bills →
  updateBill key updated id billData ls = (Throw (Error "Bill not found"), ls)
  ∧ getSavedBills key (updateBill key updated id billData ls).2 = getSavedBills key ls.
Proof.
  intros Hst Hid. pose proof (updateBill_missing key updated id billData ls bills Hst Hid) as H.
  split; [done |]. by rewrite H.
Qed.

Lemma update_missing_id_witness :
  stored saved_bills02 acme_store [VObj acme_bill]
  ∧ Forall (other_bill "42") [VObj acme_bill]
  ∧ updateBill2 sample_date "42" acme acme_store = (Throw (Error "Bill not found"), acme_store).
Proof.
  assert (stored saved_bills02 acme_store [VObj acme_bill]) as Hst
    by (vm_compute; reflexivity).
  assert (Forall (other_bill "42") [VObj acme_bill]) as Hid
    by (repeat constructor).
  split; [exact Hst |]. split; [exact Hid |].
  exact (proj1 (update_missing_id saved_bills02 sample_date "42" acme acme_store _ Hst Hid)).
Defined.

(** C4, as amended.  With the clock in a four-digit year, the invoice
    number that [saveBill] generates, and [saveBill2] when its duplicate
    check finds nothing, reads [INV-<year>-<sequence>] with the sequence one
    more than the number of stored records; it has the form
    [INV-dddd-ddd] while the store holds fewer than 999 records, and the
    sequence is [001] for an empty store. *)
Theorem invoice_number_format key today now created billData ls bills :
  stored key ls bills →
  (1000 ≤ getFullYear today ≤ 9999)%Z →
  (∃ newBill ls',
     saveBill key today now created billData ls = (Ok newBill, ls')
     ∧ numbered today (length bills) newBill)
  ∧ (some (same_details billData) bills = Ok false →
     ∃ newBill ls',
       saveBill2 key today now created billData ls = (Ok newBill, ls')
       ∧ numbered today (length bills) newBill).
Proof.
  intros Hst Hy. split; [| intros Hdup].
  - destruct (saveBill_run key today now created billData ls bills Hst) as (ls' & Hrun & _).
    eexists _, ls'. split; [exact Hrun |]. by apply numbered_new.
  - destruct (saveBill2_run key today now created billData ls bills Hst Hdup)
      as (ls' & Hrun & _).
    eexists _, ls'. split; [exact Hrun |]. by apply numbered_new.
Qed.

Lemma invoice_number_format_witness :
  stored saved_bills empty_storage []
  ∧ (1000 ≤ getFullYear sample_date ≤ 9999)%Z
  ∧ ∃ newBill ls',
      saveBill saved_bills sample_date sample_now sample_date acme empty_storage
        = (Ok newBill, ls')
      ∧ numbered sample_date 0 newBill.
Proof.
  assert (stored saved_bills empty_storage []) as Hst by (vm_compute; reflexivity).
  assert (1000 ≤ getFullYear sample_date ≤ 9999)%Z as Hy by (cbn; lia).
  split; [exact Hst |]. split; [exact Hy |].
  exact (proj1 (invoice_number_format saved_bills sample_date sample_now sample_date acme
                  empty_storage [] Hst Hy)).
Defined.

(** C4, the claim as stated fails: the save into a store of 999 records
    generates a four-digit sequence. *)
Lemma invoice_number_beyond_999 :
  stored saved_bills crowded_storage (replicate 999 (VObj acme_bill))
  ∧ ∃ newBill ls',
      saveBill saved_bills sample_date sample_now sample_date globex crowded_storage
        = (Ok (VObj newBill), ls')
      ∧ newBill !! "invoiceNumber" = Some (VStr "INV-2024-1000")
      ∧ invoice_pattern "INV-2024-1000" = false.
Proof.
  assert (stored saved_bills crowded_storage (replicate 999 (VObj acme_bill))) as Hst.
  { apply stored_setItem_json. vm_compute. reflexivity. }
  split; [exact Hst |].
  destruct (saveBill_run saved_bills sample_date sample_now sample_date globex
              crowded_storage _ Hst) as (ls' & Hrun & _).
  eexists _, ls'. split; [exact Hrun |]. split; [| reflexivity].
  rewrite lookup_insert_ne, lookup_insert_ne, lookup_insert_eq by discriminate.
  vm_compute. reflexivity.
Qed.

(** C5, as amended.  [getSavedBills] never writes.  It returns the empty
    array when the slot is absent or holds the empty string, and the stored
    array when the slot holds the text [JSON.stringify] wrote for it; for
    any other text it returns or throws what [JSON.parse] returns or throws
    for that text. *)
Theorem getSavedBills_reads key ls :
  (getSavedBills key ls).2 = ls
  ∧ (slots ls !! key = None ∨ slots ls !! key = Some EmptyString →
     getSavedBills key ls = (Ok (VArr []), ls))
  ∧ (∀ bills, slots ls !! key = Some (stringified (VArr bills)) →
              is_json (VArr bills) = true →
              getSavedBills key ls = (Ok (VArr bills), ls))
  ∧ (∀ text, slots ls !! key = Some text → text ≠ EmptyString →
             getSavedBills key ls = (JSON_parse text, ls)).
Proof.
  split_and!.
  - apply getSavedBills_state.
  - apply getSavedBills_absent.
  - intros bills Hslot Hjson. destruct (stringified_arr_text bills) as [r Hr].
    rewrite (getSavedBills_text key ls _ Hslot) by (by rewrite Hr).
    by rewrite (JSON_parse_stringify (VArr bills)), jsonify_is_json.
  - apply getSavedBills_text.
Qed.

(** C5, the claim as stated fails: a slot that holds text that is not JSON
    makes [getSavedBills] throw, and a slot that holds the JSON text of an
    object makes it return that object, not an array. *)
Lemma getSavedBills_malformed :
  getSavedBills saved_bills garbled_storage = (Throw SyntaxError, garbled_storage)
  ∧ getSavedBills saved_bills object_storage = (Ok (VObj ∅), object_storage).
Proof. split; vm_compute; reflexivity. Qed.

(** C6. [delete] with an identifier that no stored record has returns
    [false] and leaves the storage as it was; with the identifier of a
    stored record it returns [true], and the stored array afterwards is the
    array before without that record (the first one with the identifier),
    the others unchanged and in their order. *)
Theorem delete_by_id key id ls bills :
  stored key ls bills →
  (Forall (other_bill id) bills → deleteBill key id ls = (Ok false, ls))
  ∧ (∀ before bill after,
       bills = before ++ bill :: after →
       Forall (other_bill id) before → bill_has_id id bill = true →
       ∃ ls', deleteBill key id ls = (Ok true, ls') ∧ stored key ls' (before ++ after)).
Proof.
  intros Hst. split.
  - by apply deleteBill_missing.
  - intros before bill after -> Hbefore Hid.
    by apply (deleteBill_present key id ls before bill after).
Qed.

Lemma delete_by_id_witness :
  stored saved_bills02 acme_store [VObj acme_bill]
  ∧ deleteBill2 "42" acme_store = (Ok false, acme_store)
  ∧ ∃ ls', deleteBill2 "1714557600000" acme_store = (Ok true, ls')
           ∧ stored saved_bills02 ls' [].
Proof.
  assert (stored saved_bills02 acme_store [VObj acme_bill]) as Hst
    by (vm_compute; reflexivity).
  destruct (delete_by_id saved_bills02 "42" acme_store _ Hst) as [Hmissing _].
  destruct (delete_by_id saved_bills02 "1714557600000" acme_store _ Hst) as [_ Hpresent].
  split; [exact Hst |]. split.
  - apply Hmissing. repeat constructor.
  - apply (Hpresent [] (VObj acme_bill) []); [reflexivity | constructor | reflexivity].
Defined.

(** C7. [updateStatus] with an identifier that no stored record has returns
    without a value and without an exception, and leaves the storage as it
    was: no slot changes and no write is made. *)
Theorem updateStatus_missing_id key updated id status ls bills :
  stored key ls bills →
  Forall (other_bill id) bills →
  updateBillStatus key updated id status ls = (Ok (), ls).
Proof. apply updateBillStatus_missing. Qed.

Lemma updateStatus_missing_id_witness :
  stored saved_bills02 acme_store [VObj acme_bill]
  ∧ Forall (other_bill "42") [VObj acme_bill]
  ∧ updateBillStatus2 sample_date "42" (VStr "Paid") acme_store = (Ok (), acme_store).
Proof.
  assert (stored saved_bills02 acme_store [VObj acme_bill]) as Hst
    by (vm_compute; reflexivity).
  assert (Forall (other_bill "42") [VObj acme_bill]) as Hid
    by (repeat constructor).
  split; [exact Hst |]. split; [exact Hid |].
  exact (updateStatus_missing_id saved_bills02 sample_date "42" (VStr "Paid") acme_store _ Hst Hid).
Defined.

(** C8, the failing run.  Two saves in the same millisecond give both bills
    the same identifier; [getBillById] with the identifier that the second
    save returned finds the first bill, not the one the save returned.
    With an identifier that no stored record has, [save_then_getById_fresh]
    above, the saved bill is found. *)
Theorem save_then_getById_same_millisecond :
  stored saved_bills acme_saved [VObj acme_bill]
  ∧ ∃ newBill ls',
      saveBill saved_bills sample_date sample_now sample_date globex acme_saved
        = (Ok (VObj newBill), ls')
      ∧ newBill !! "id" = Some (VStr "1714557600000")
      ∧ newBill !! "customer" = Some (VStr "Globex")
      ∧ getBillById saved_bills "1714557600000" ls' = (Ok (VObj acme_bill), ls')
      ∧ acme_bill !! "customer" = Some (VStr "Acme Corp").
Proof.
  assert (stored saved_bills acme_saved [VObj acme_bill]) as Hst
    by (vm_compute; reflexivity).
  split; [exact Hst |].
  destruct (saveBill_run saved_bills sample_date sample_now sample_date globex
              acme_saved _ Hst) as (ls' & Hrun & Hst').
  eexists _, ls'. split; [exact Hrun |].
  split; [vm_compute; reflexivity |]. split; [vm_compute; reflexivity |].
  split; [| vm_compute; reflexivity].
  eapply (getBillById_present saved_bills "1714557600000" ls' [] (VObj acme_bill));
    [exact Hst' | constructor | vm_compute; reflexivity].
Qed.

(** C9. [save] builds a record from the caller's fields and the four
    generated ones (identifier, invoice number, status "Pending", creation
    time), returns it, and the stored array afterwards is the array before
    with that record appended; [saveBill2] does the same when its duplicate
    check finds nothing.  The caller's fields are JSON data. *)
Theorem save_appends key today now created billData ls bills :
  stored key ls bills →
  is_json (VObj billData) = true →
  (∃ newBill ls',
     saveBill key today now created billData ls = (Ok (VObj newBill), ls')
     ∧ created_from billData today now created (length bills) newBill
     ∧ stored key ls' (bills ++ [VObj newBill]))
  ∧ (some (same_details billData) bills = Ok false →
     ∃ newBill ls',
       saveBill2 key today now created billData ls = (Ok (VObj newBill), ls')
       ∧ created_from billData today now created (length bills) newBill
       ∧ stored key ls' (bills ++ [VObj newBill])).
Proof.
  intros Hst Hd.
  pose proof (is_json_new billData today now created (length bills) Hd) as Hnew.
  split; [| intros Hdup].
  - destruct (saveBill_run key today now created billData ls bills Hst) as (ls' & Hrun & Hst').
    eexists _, ls'. split_and!; [exact Hrun | apply created_from_new |].
    by rewrite jsonify_is_json in Hst'.
  - destruct (saveBill2_run key today now created billData ls bills Hst Hdup)
      as (ls' & Hrun & Hst').
    eexists _, ls'. split_and!; [exact Hrun | apply created_from_new |].
    by rewrite jsonify_is_json in Hst'.
Qed.

Lemma save_appends_witness :
  stored saved_bills empty_storage []
  ∧ is_json (VObj acme) = true
  ∧ ∃ newBill ls',
      saveBill saved_bills sample_date sample_now sample_date acme empty_storage
        = (Ok (VObj newBill), ls')
      ∧ created_from acme sample_date sample_now sample_date 0 newBill
      ∧ stored saved_bills ls' [VObj newBill].
Proof.
  assert (stored saved_bills empty_storage []) as Hst by (vm_compute; reflexivity).
  assert (is_json (VObj acme) = true) as Hd by (vm_compute; reflexivity).
  split; [exact Hst |]. split; [exact Hd |].
  exact (proj1 (save_appends saved_bills sample_date sample_now sample_date acme
                  empty_storage [] Hst Hd)).
Defined.

(** C10. [updateStatus] does not check its status argument: for every
    string [s] and the identifier of a stored record, the stored record
    afterwards has [s] as its status, whatever [s] is. *)
Theorem updateStatus_any_string key updated id s ls before existing after :
  stored key ls (before ++ VObj existing :: after) →
  Forall (other_bill id) before →
  bill_has_id id (VObj existing) = true →
  ∃ ls' persisted,
    updateBillStatus key updated id (VStr s) ls = (Ok (), ls')
    ∧ stored key ls' (before ++ VObj persisted :: after)
    ∧ persisted = <["updatedAt" := VStr (toISOString updated)]> (<["status" := VStr s]> existing)
    ∧ persisted !! "status" = Some (VStr s).
Proof.
  intros Hst Hbefore Hid.
  destruct (updateBillStatus_present key updated id (VStr s) ls before existing after
              Hst Hbefore Hid eq_refl) as (ls' & Hrun & Hst').
  exists ls'. eexists. split_and!; [exact Hrun | exact Hst' | reflexivity |].
  by simplify_map_eq.
Qed.

Lemma updateStatus_any_string_witness :
  stored saved_bills02 acme_store ([] ++ VObj acme_bill :: [])
  ∧ ∃ ls' persisted,
      updateBillStatus2 sample_date "1714557600000" (VStr "Shipped") acme_store = (Ok (), ls')
      ∧ stored saved_bills02 ls' [VObj persisted]
      ∧ persisted !! "status" = Some (VStr "Shipped").
Proof.
  assert (stored saved_bills02 acme_store ([] ++ VObj acme_bill :: [])) as Hst
    by (vm_compute; reflexivity).
  split; [exact Hst |].
  destruct (updateStatus_any_string saved_bills02 sample_date "1714557600000" "Shipped"
              acme_store [] acme_bill [] Hst (Forall_nil_2 _) eq_refl)
    as (ls' & persisted & Hrun & Hst' & _ & Hstatus).
  exists ls', persisted. split_and!; [exact Hrun | exact Hst' | exact Hstatus].
Defined.

(** * Further properties

    What the functions do on the paths the claims leave out: a slot that
    does not hold an array, calls made one after the other, and what no
    call changes.  As above, a theorem is stated for every storage key and
    so speaks of both modules. *)

(** ** Every path of a call *)

Lemma getSavedBills_cases key ls :
  (∃ e, getSavedBills key ls = (Throw e, ls))
  ∨ (∃ v, getSavedBills key ls = (Ok v, ls) ∧ as_array v = Throw TypeError)
  ∨ (∃ bills, stored key ls bills).
Proof.
  pose proof (getSavedBills_state key ls) as Hst.
  destruct (getSavedBills key ls) as [[v|e] ls0] eqn:E; simpl in Hst; subst ls0.
  - destruct v; eauto 6.
  - eauto.
Qed.

Lemma js_bind_throw {A B} (m : js A) (f : A → js B) ls e ls' :
  m ls = (Throw e, ls') → (m ≫= f) ls = (Throw e, ls').
Proof. intros H. unfold mbind, js_bind. by rewrite H. Qed.

Lemma js_bind_lift_throw {A B} (r : result A) (f : A → js B) ls e :
  r = Throw e → (lift r ≫= f) ls = (Throw e, ls).
Proof. intros ->. reflexivity. Qed.

Lemma saveBill_at key today now created billData ls bills :
  stored key ls bills →
  saveBill key today now created billData ls
  = (Ok (new_record today now created (length bills) billData),
     written key (stringified (VArr (bills ++ [new_record today now created (length bills) billData]))) ls).
Proof.
  intros Hst. unfold saveBill.
  erewrite js_bind_ok by exact Hst.
  erewrite js_bind_lift_ok by reflexivity. reflexivity.
Qed.

Lemma saveBill2_at key today now created billData ls bills :
  stored key ls bills → some (same_details billData) bills = Ok false →
  saveBill2 key today now created billData ls
  = (Ok (new_record today now created (length bills) billData),
     written key (stringified (VArr (bills ++ [new_record today now created (length bills) billData]))) ls).
Proof.
  intros Hst Hsome. unfold saveBill2.
  erewrite js_bind_ok by exact Hst.
  erewrite js_bind_lift_ok by reflexivity.
  erewrite js_bind_lift_ok by exact Hsome. reflexivity.
Qed.

Lemma updateBill_at key updated id billData ls bills i existing :
  stored key ls bills →
  findIndex (has_id id) bills = Ok i → i ≠ (-1)%Z →
  bills !! Z.to_nat i = Some (VObj existing) →
  updateBill key updated id billData ls
  = (Ok (updated_record updated billData existing),
     written key (stringified (VArr (<[Z.to_nat i := updated_record updated billData existing]> bills))) ls).
Proof.
  intros Hst Hfind Hi Hex. unfold updateBill.
  erewrite js_bind_ok by exact Hst.
  erewrite js_bind_lift_ok by reflexivity.
  erewrite js_bind_lift_ok by exact Hfind.
  rewrite bool_decide_eq_false_2 by done.
  rewrite (list_lookup_total_correct _ _ _ Hex).
  do 3 (erewrite js_bind_lift_ok by reflexivity). reflexivity.
Qed.

Lemma updateBillStatus_at key updated id status ls bills i existing :
  stored key ls bills →
  findIndex (has_id id) bills = Ok i → i ≠ (-1)%Z →
  bills !! Z.to_nat i = Some (VObj existing) →
  updateBillStatus key updated id status ls
  = (Ok (),
     written key
       (stringified (VArr (<[Z.to_nat i :=
          VObj (<["updatedAt" := VStr (toISOString updated)]> (<["status" := status]> existing))]>
          bills))) ls).
Proof.
  intros Hst Hfind Hi Hex. unfold updateBillStatus.
  erewrite js_bind_ok by exact Hst.
  erewrite js_bind_lift_ok by reflexivity.
  erewrite js_bind_lift_ok by exact Hfind.
  rewrite bool_decide_eq_false_2 by done. cbn [negb].
  rewrite (list_lookup_total_correct _ _ _ Hex).
  do 2 (erewrite js_bind_lift_ok by reflexivity). reflexivity.
Qed.

Lemma deleteBill_at key id ls bills i :
  stored key ls bills →
  findIndex (has_id id) bills = Ok i → i ≠ (-1)%Z →
  deleteBill key id ls
  = (Ok true, written key (stringified (VArr (delete (Z.to_nat i) bills))) ls).
Proof.
  intros Hst Hfind Hi. unfold deleteBill.
  erewrite js_bind_ok by exact Hst.
  erewrite js_bind_lift_ok by reflexivity.
  erewrite js_bind_lift_ok by exact Hfind.
  rewrite bool_decide_eq_false_2 by done. reflexivity.
Qed.

Lemma updateBill_absent key updated id billData ls bills :
  stored key ls bills → findIndex (has_id id) bills = Ok (-1)%Z →
  updateBill key updated id billData ls = (Throw (Error "Bill not found"), ls).
Proof.
  intros Hst Hfind. unfold updateBill.
  erewrite js_bind_ok by exact Hst.
  erewrite js_bind_lift_ok by reflexivity.
  erewrite js_bind_lift_ok by exact Hfind. reflexivity.
Qed.

Lemma updateBillStatus_absent key updated id status ls bills :
  stored key ls bills → findIndex (has_id id) bills = Ok (-1)%Z →
  updateBillStatus key updated id status ls = (Ok (), ls).
Proof.
  intros Hst Hfind. unfold updateBillStatus.
  erewrite js_bind_ok by exact Hst.
  erewrite js_bind_lift_ok by reflexivity.
  erewrite js_bind_lift_ok by exact Hfind. reflexivity.
Qed.

Lemma deleteBill_absent key id ls bills :
  stored key ls bills → findIndex (has_id id) bills = Ok (-1)%Z →
  deleteBill key id ls = (Ok false, ls).
Proof.
  intros Hst Hfind. unfold deleteBill.
  erewrite js_bind_ok by exact Hst.
  erewrite js_bind_lift_ok by reflexivity.
  erewrite js_bind_lift_ok by exact Hfind. reflexivity.
Qed.


Section read_first.
Context {A : Type} (key : string) (k : list value → js A) (ls : storage).

Lemma read_first_corrupt e :
  getSavedBills key ls = (Throw e, ls) →
  (bills ← getSavedBills key; bills ← lift (as_array bills); k bills) ls = (Throw e, ls).
Proof. intros H. by erewrite js_bind_throw by exact H. Qed.

Lemma read_first_other v e :
  getSavedBills key ls = (Ok v, ls) → as_array v = Throw e →
  (bills ← getSavedBills key; bills ← lift (as_array bills); k bills) ls = (Throw e, ls).
Proof.
  intros H Ha. erewrite js_bind_ok by exact H.
  by erewrite js_bind_lift_throw by exact Ha.
Qed.

Lemma read_first_stored bills :
  stored key ls bills →
  (bills ← getSavedBills key; bills ← lift (as_array bills); k bills) ls = k bills ls.
Proof.
  intros H. erewrite js_bind_ok by exact H.
  by erewrite js_bind_lift_ok by reflexivity.
Qed.

Lemma read_first_orderly :
  (∀ bills, stored key ls bills → orderly key ls (k bills ls)) →
  orderly key ls ((bills ← getSavedBills key; bills ← lift (as_array bills); k bills) ls).
Proof.
  intros Hk. destruct (getSavedBills_cases key ls) as [[e He]|[(v & Hv & Ha)|[bills Hst]]].
  - by rewrite (read_first_corrupt e He).
  - by rewrite (read_first_other v _ Hv Ha).
  - rewrite (read_first_stored bills Hst). by apply Hk.
Qed.
End read_first.

Lemma orderly_write {A} key ls bills l (a : A) :
  stored key ls bills → orderly key ls (Ok a, written key (stringified (VArr l)) ls).
Proof. intros Hst. split; [by eexists|right; by eexists]. Qed.

Lemma orderly_quiet {A} key ls bills (r : result A) :
  stored key ls bills → orderly key ls (r, ls).
Proof. intros Hst. unfold orderly. destruct r; cbn; [|done]. split; [by eexists|by left]. Qed.

Lemma saveBill_orderly key today now created billData ls :
  orderly key ls (saveBill key today now created billData ls).
Proof.
  apply read_first_orderly. intros bills Hst.
  cbv [mbind js_bind setItem mret js_ret]. eapply orderly_write, Hst.
Qed.

Lemma saveBill2_orderly key today now created billData ls :
  orderly key ls (saveBill2 key today now created billData ls).
Proof.
  apply read_first_orderly. intros bills Hst.
  destruct (some (same_details billData) bills) as [[]|e] eqn:Hsome.
  - erewrite js_bind_lift_ok by reflexivity. eapply (orderly_quiet _ _ _ (Throw _)), Hst.
  - erewrite js_bind_lift_ok by reflexivity.
    cbv [mbind js_bind setItem mret js_ret]. eapply orderly_write, Hst.
  - erewrite js_bind_lift_throw by reflexivity. eapply (orderly_quiet _ _ _ (Throw _)), Hst.
Qed.

Lemma updateBill_orderly key updated id billData ls :
  orderly key ls (updateBill key updated id billData ls).
Proof.
  destruct (getSavedBills_cases key ls) as [[e He]|[(v & Hv & Ha)|[bills Hst]]].
  - unfold updateBill. by rewrite (read_first_corrupt _ _ _ e He).
  - unfold updateBill. by rewrite (read_first_other _ _ _ v _ Hv Ha).
  - destruct (findIndex (has_id id) bills) as [i|e] eqn:Hfind.
    + destruct (decide (i = (-1)%Z)) as [->|Hi].
      * rewrite (updateBill_absent _ _ _ _ _ _ Hst Hfind). done.
      * destruct (findIndex_finds_object _ _ _ Hfind Hi) as (m & Hm & _).
        rewrite (updateBill_at _ _ _ _ _ _ _ _ Hst Hfind Hi Hm).
        eapply orderly_write, Hst.
    + unfold updateBill. rewrite (read_first_stored _ _ _ _ Hst).
      by erewrite js_bind_lift_throw by exact Hfind.
Qed.

Lemma updateBillStatus_orderly key updated id status ls :
  orderly key ls (updateBillStatus key updated id status ls).
Proof.
  destruct (getSavedBills_cases key ls) as [[e He]|[(v & Hv & Ha)|[bills Hst]]].
  - unfold updateBillStatus. by rewrite (read_first_corrupt _ _ _ e He).
  - unfold updateBillStatus. by rewrite (read_first_other _ _ _ v _ Hv Ha).
  - destruct (findIndex (has_id id) bills) as [i|e] eqn:Hfind.
    + destruct (decide (i = (-1)%Z)) as [->|Hi].
      * rewrite (updateBillStatus_absent _ _ _ _ _ _ Hst Hfind).
        eapply orderly_quiet, Hst.
      * destruct (findIndex_finds_object _ _ _ Hfind Hi) as (m & Hm & _).
        rewrite (updateBillStatus_at _ _ _ _ _ _ _ _ Hst Hfind Hi Hm).
        eapply orderly_write, Hst.
    + unfold updateBillStatus. rewrite (read_first_stored _ _ _ _ Hst).
      by erewrite js_bind_lift_throw by exact Hfind.
Qed.

Lemma deleteBill_orderly key id ls :
  orderly key ls (deleteBill key id ls).
Proof.
  destruct (getSavedBills_cases key ls) as [[e He]|[(v & Hv & Ha)|[bills Hst]]].
  - unfold deleteBill. by rewrite (read_first_corrupt _ _ _ e He).
  - unfold deleteBill. by rewrite (read_first_other _ _ _ v _ Hv Ha).
  - destruct (findIndex (has_id id) bills) as [i|e] eqn:Hfind.
    + destruct (decide (i = (-1)%Z)) as [->|Hi].
      * rewrite (deleteBill_absent _ _ _ _ Hst Hfind).
        eapply orderly_quiet, Hst.
      * rewrite (deleteBill_at _ _ _ _ _ Hst Hfind Hi).
        eapply orderly_write, Hst.
    + unfold deleteBill. rewrite (read_first_stored _ _ _ _ Hst).
      by erewrite js_bind_lift_throw by exact Hfind.
Qed.

Lemma getBillById_state key id ls : (getBillById key id ls).2 = ls.
Proof.
  destruct (getSavedBills_cases key ls) as [[e He]|[(v & Hv & Ha)|[bills Hst]]].
  - unfold getBillById. by rewrite (read_first_corrupt _ _ _ e He).
  - unfold getBillById. by rewrite (read_first_other _ _ _ v _ Hv Ha).
  - unfold getBillById. rewrite (read_first_stored _ _ _ _ Hst).
    unfold mbind at 1, js_bind, lift. by destruct (find (has_id id) bills).
Qed.

Lemma orderly_frame {A} key key' ls (out : result A * storage) bills :
  key ≠ key' → orderly key ls out → stored key' ls bills → stored key' out.2 bills.
Proof.
  intros Hne Hout Hst. unfold orderly in Hout.
  destruct (out.1); [|by rewrite Hout].
  destruct Hout as [_ [-> | [l ->]]]; [done|].
  unfold stored. by rewrite stored_setItem_ne, Hst.
Qed.

Lemma orderly_array {A} key ls (out : result A * storage) bills :
  stored key ls bills → orderly key ls out → ∃ bills', stored key out.2 bills'.
Proof.
  intros Hst Hout. unfold orderly in Hout.
  destruct (out.1); [|rewrite Hout; by eexists].
  destruct Hout as [_ [-> | [l ->]]]; [by eexists|].
  eexists. unfold stored. rewrite stored_setItem. reflexivity.
Qed.

(** X1. Whatever the storage holds, each of the five writing functions
    either throws, and then has written nothing, or returns after reading
    an array from its slot, and then has written at most once: the text of
    an array, to that slot. *)
Theorem mutators_orderly key today now created updated id billData status ls :
  orderly key ls (saveBill key today now created billData ls)
  ∧ orderly key ls (saveBill2 key today now created billData ls)
  ∧ orderly key ls (updateBill key updated id billData ls)
  ∧ orderly key ls (updateBillStatus key updated id status ls)
  ∧ orderly key ls (deleteBill key id ls).
Proof.
  split_and!.
  - apply saveBill_orderly.
  - apply saveBill2_orderly.
  - apply updateBill_orderly.
  - apply updateBillStatus_orderly.
  - apply deleteBill_orderly.
Qed.

(** X2. The two stores do not interfere: a call on the slot of [key],
    whatever it does, leaves the array read from any other slot as it
    was. *)
Theorem other_slot_untouched key key' today now created updated id billData status
    ls bills :
  key ≠ key' → stored key' ls bills →
  stored key' (saveBill key today now created billData ls).2 bills
  ∧ stored key' (saveBill2 key today now created billData ls).2 bills
  ∧ stored key' (updateBill key updated id billData ls).2 bills
  ∧ stored key' (updateBillStatus key updated id status ls).2 bills
  ∧ stored key' (deleteBill key id ls).2 bills.
Proof.
  intros Hne Hst. split_and!.
  - exact (orderly_frame key key' ls _ bills Hne (saveBill_orderly _ _ _ _ _ _) Hst).
  - exact (orderly_frame key key' ls _ bills Hne (saveBill2_orderly _ _ _ _ _ _) Hst).
  - exact (orderly_frame key key' ls _ bills Hne (updateBill_orderly _ _ _ _ _) Hst).
  - exact (orderly_frame key key' ls _ bills Hne (updateBillStatus_orderly _ _ _ _ _) Hst).
  - exact (orderly_frame key key' ls _ bills Hne (deleteBill_orderly _ _ _) Hst).
Qed.

Lemma other_slot_untouched_witness :
  saved_bills02 ≠ saved_bills
  ∧ stored saved_bills acme_saved [VObj acme_bill]
  ∧ stored saved_bills
      (saveBill2 saved_bills02 sample_date sample_now sample_date acme acme_saved).2
      [VObj acme_bill]
  ∧ stored saved_bills (deleteBill2 "1714557600000" acme_saved).2 [VObj acme_bill].
Proof.
  assert (saved_bills02 ≠ saved_bills) as Hne by discriminate.
  assert (stored saved_bills acme_saved [VObj acme_bill]) as Hst
    by (vm_compute; reflexivity).
  destruct (other_slot_untouched saved_bills02 saved_bills sample_date sample_now
              sample_date sample_date "1714557600000" acme (VStr "Paid") acme_saved
              [VObj acme_bill] Hne Hst) as (_ & Hsave & _ & _ & Hdelete).
  split; [exact Hne|]. split; [exact Hst|]. split; [exact Hsave|exact Hdelete].
Defined.

(** X3. A slot that reads as an array still reads as an array after any
    of the five writing functions, whether the call returned or threw. *)
Theorem slot_stays_array key today now created updated id billData status ls bills :
  stored key ls bills →
  (∃ bills', stored key (saveBill key today now created billData ls).2 bills')
  ∧ (∃ bills', stored key (saveBill2 key today now created billData ls).2 bills')
  ∧ (∃ bills', stored key (updateBill key updated id billData ls).2 bills')
  ∧ (∃ bills', stored key (updateBillStatus key updated id status ls).2 bills')
  ∧ (∃ bills', stored key (deleteBill key id ls).2 bills').
Proof.
  intros Hst. split_and!.
  - exact (orderly_array key ls _ bills Hst (saveBill_orderly _ _ _ _ _ _)).
  - exact (orderly_array key ls _ bills Hst (saveBill2_orderly _ _ _ _ _ _)).
  - exact (orderly_array key ls _ bills Hst (updateBill_orderly _ _ _ _ _)).
  - exact (orderly_array key ls _ bills Hst (updateBillStatus_orderly _ _ _ _ _)).
  - exact (orderly_array key ls _ bills Hst (deleteBill_orderly _ _ _)).
Qed.

Lemma slot_stays_array_witness :
  stored saved_bills02 acme_store [VObj acme_bill]
  ∧ (∃ bills', stored saved_bills02
                 (saveBill2 saved_bills02 sample_date sample_now sample_date acme_capitals
                    acme_store).2 bills')
  ∧ (∃ bills', stored saved_bills02
                 (updateBillStatus2 sample_date "1714557600000" VUndefined acme_store).2
                 bills').
Proof.
  assert (stored saved_bills02 acme_store [VObj acme_bill]) as Hst
    by (vm_compute; reflexivity).
  destruct (slot_stays_array saved_bills02 sample_date sample_now sample_date sample_date
              "1714557600000" acme_capitals VUndefined acme_store [VObj acme_bill] Hst)
    as (_ & Hsave & _ & Hstatus & _).
  split; [exact Hst|]. split; [exact Hsave|exact Hstatus].
Defined.

(** X4. When the slot holds text that [JSON.parse] rejects, every function
    that reads the bills throws what [JSON.parse] threw: none of them
    catches it, none writes. *)
Theorem corrupt_slot_propagates key today now created updated id billData status ls e :
  getSavedBills key ls = (Throw e, ls) →
  saveBill key today now created billData ls = (Throw e, ls)
  ∧ saveBill2 key today now created billData ls = (Throw e, ls)
  ∧ updateBill key updated id billData ls = (Throw e, ls)
  ∧ updateBillStatus key updated id status ls = (Throw e, ls)
  ∧ deleteBill key id ls = (Throw e, ls)
  ∧ getBillById key id ls = (Throw e, ls).
Proof.
  intros Hread. split_and!; by apply read_first_corrupt.
Qed.

Lemma corrupt_slot_propagates_witness :
  getSavedBills saved_bills garbled_storage = (Throw SyntaxError, garbled_storage)
  ∧ saveBill saved_bills sample_date sample_now sample_date acme garbled_storage
    = (Throw SyntaxError, garbled_storage)
  ∧ deleteBill saved_bills "1714557600000" garbled_storage
    = (Throw SyntaxError, garbled_storage)
  ∧ getBillById saved_bills "1714557600000" garbled_storage
    = (Throw SyntaxError, garbled_storage).
Proof.
  assert (getSavedBills saved_bills garbled_storage
          = (Throw SyntaxError, garbled_storage)) as Hread by (vm_compute; reflexivity).
  destruct (corrupt_slot_propagates saved_bills sample_date sample_now sample_date
              sample_date "1714557600000" acme (VStr "Paid") garbled_storage SyntaxError
              Hread) as (Hsave & _ & _ & _ & Hdelete & Hget).
  split; [exact Hread|]. split; [exact Hsave|]. split; [exact Hdelete|exact Hget].
Defined.

(** X5. When the slot holds the JSON text of anything but an array, every
    function that uses the bills throws a [TypeError] at its first array
    method, before any write. *)
Theorem non_array_slot_TypeError key today now created updated id billData status ls v :
  getSavedBills key ls = (Ok v, ls) →
  (∀ bills, v ≠ VArr bills) →
  saveBill key today now created billData ls = (Throw TypeError, ls)
  ∧ saveBill2 key today now created billData ls = (Throw TypeError, ls)
  ∧ updateBill key updated id billData ls = (Throw TypeError, ls)
  ∧ updateBillStatus key updated id status ls = (Throw TypeError, ls)
  ∧ deleteBill key id ls = (Throw TypeError, ls)
  ∧ getBillById key id ls = (Throw TypeError, ls).
Proof.
  intros Hread Hv.
  assert (as_array v = Throw TypeError) as Harr.
  { destruct v; try done. by destruct (Hv l). }
  split_and!; by apply (read_first_other _ _ _ v).
Qed.

Lemma non_array_slot_TypeError_witness :
  getSavedBills saved_bills object_storage = (Ok (VObj ∅), object_storage)
  ∧ saveBill saved_bills sample_date sample_now sample_date acme object_storage
    = (Throw TypeError, object_storage)
  ∧ getBillById saved_bills "1714557600000" object_storage
    = (Throw TypeError, object_storage).
Proof.
  assert (getSavedBills saved_bills object_storage = (Ok (VObj ∅), object_storage))
    as Hread by (vm_compute; reflexivity).
  assert (∀ bills, VObj ∅ ≠ VArr bills) as Hv by (intros bills; discriminate).
  destruct (non_array_slot_TypeError saved_bills sample_date sample_now sample_date
              sample_date "1714557600000" acme (VStr "Paid") object_storage (VObj ∅)
              Hread Hv) as (Hsave & _ & _ & _ & _ & Hget).
  split; [exact Hread|]. split; [exact Hsave|exact Hget].
Defined.

(** ** Looking a record up *)

Lemma has_id_defined id bill :
  bill ≠ VNull → bill ≠ VUndefined → has_id id bill = Ok (bill_has_id id bill).
Proof.
  intros Hn Hu. destruct bill as [| | | | | |m]; try done.
  cbn. destruct (m !! "id") as [[]|]; done.
Qed.

Lemma elem_of_stored key ls bills bill :
  stored key ls bills → bill ∈ bills → is_json bill = true.
Proof.
  intros Hst Hin. apply stored_is_json, is_json_arr in Hst.
  by apply (proj1 (Forall_forall _ _) Hst).
Qed.

Lemma find_has_id id bills :
  Forall (λ bill, bill ≠ VNull ∧ bill ≠ VUndefined) bills →
  find (has_id id) bills = Ok (default VUndefined (List.find (bill_has_id id) bills)).
Proof.
  induction 1 as [|bill bills [Hn Hu] _ IH]; [done|].
  cbn [find List.find]. rewrite has_id_defined by done. cbn.
  by destruct (bill_has_id id bill).
Qed.

Lemma find_bill_has_id id bills bill :
  List.find (bill_has_id id) bills = Some bill → bill_has_id id bill = true ∧ bill ∈ bills.
Proof.
  intros H. apply List.find_some in H as [Hin Hid]. split; [done|].
  by apply list_elem_of_In.
Qed.

Lemma getBillById_search key id ls bills :
  stored key ls bills → Forall (λ bill, bill ≠ VNull) bills →
  getBillById key id ls = (Ok (default VNull (List.find (bill_has_id id) bills)), ls).
Proof.
  intros Hst Hnn. unfold getBillById.
  rewrite (read_first_stored _ _ _ _ Hst).
  erewrite js_bind_lift_ok; last first.
  { apply find_has_id. apply Forall_forall. intros bill Hin. split.
    - by apply (proj1 (Forall_forall _ _) Hnn).
    - intros ->. by apply (elem_of_stored _ _ _ _ Hst) in Hin. }
  destruct (List.find (bill_has_id id) bills) as [bill|] eqn:Hfind; [|done].
  apply find_bill_has_id in Hfind as [Hid _].
  apply bill_has_id_lookup in Hid as (m & -> & _). done.
Qed.

Lemma other_bill_not_null id bills :
  Forall (other_bill id) bills → Forall (λ bill, bill ≠ VNull) bills.
Proof. intros H. eapply Forall_impl; [exact H|]. by intros [] [? ?]. Qed.

Lemma find_other id bills rest :
  Forall (other_bill id) bills →
  List.find (bill_has_id id) (bills ++ rest) = List.find (bill_has_id id) rest.
Proof.
  induction 1 as [|bill bills [_ Hid] _ IH]; [done|]. cbn. by rewrite Hid.
Qed.

(** X6. [getBillById] never writes; and on an array without [null]
    elements it returns the first record whose [id] is the identifier
    asked for, or [null] when no record has it. *)
Theorem getBillById_first_match key id ls :
  (getBillById key id ls).2 = ls
  ∧ ∀ bills, stored key ls bills → Forall (λ bill, bill ≠ VNull) bills →
      getBillById key id ls
      = (Ok (default VNull (List.find (bill_has_id id) bills)), ls).
Proof.
  split; [apply getBillById_state|]. intros bills. apply getBillById_search.
Qed.

Lemma getBillById_first_match_witness :
  stored saved_bills acme_saved [VObj acme_bill]
  ∧ Forall (λ bill, bill ≠ VNull) [VObj acme_bill]
  ∧ getBillById saved_bills "1714557600000" acme_saved = (Ok (VObj acme_bill), acme_saved)
  ∧ getBillById saved_bills "42" acme_saved = (Ok VNull, acme_saved).
Proof.
  assert (stored saved_bills acme_saved [VObj acme_bill]) as Hst
    by (vm_compute; reflexivity).
  assert (Forall (λ bill, bill ≠ VNull) [VObj acme_bill]) as Hnn
    by (repeat constructor; discriminate).
  split; [exact Hst|]. split; [exact Hnn|]. split.
  - exact (proj2 (getBillById_first_match saved_bills "1714557600000" acme_saved)
             [VObj acme_bill] Hst Hnn).
  - exact (proj2 (getBillById_first_match saved_bills "42" acme_saved)
             [VObj acme_bill] Hst Hnn).
Defined.

(** ** Sequences of calls *)

Lemma bill_has_id_jsonify id m :
  bill_has_id id (VObj m) = true → bill_has_id id (jsonify (VObj m)) = true.
Proof.
  intros (? & [= <-] & Hid)%bill_has_id_lookup.
  destruct (lookup_jsonify_obj m "id") as (m' & -> & Hm'). rewrite Hid in Hm'.
  apply bill_has_id_lookup. by eexists.
Qed.

Lemma new_record_has_id today now created count billData :
  bill_has_id (Number_toString now) (new_record today now created count billData) = true.
Proof.
  apply bill_has_id_lookup. eexists. split; [reflexivity|]. by simplify_map_eq.
Qed.

Lemma saveBill2_as_saveBill key today now created billData ls bills :
  stored key ls bills → some (same_details billData) bills = Ok false →
  saveBill2 key today now created billData ls = saveBill key today now created billData ls.
Proof.
  intros Hst Hsome. by rewrite (saveBill2_at _ _ _ _ _ _ _ Hst Hsome), (saveBill_at _ _ _ _ _ _ _ Hst).
Qed.

Lemma stored_after_save key today now created billData ls bills :
  stored key ls bills →
  stored key (saveBill key today now created billData ls).2
    (bills ++ [jsonify (new_record today now created (length bills) billData)]).
Proof.
  intros Hst. rewrite (saveBill_at _ _ _ _ _ _ _ Hst). cbn [snd].
  unfold stored. rewrite stored_setItem, jsonify_arr_snoc; [done| |done].
  by eapply stored_is_json.
Qed.

(** X7. When its duplicate check finds nothing, [saveBill2] does exactly
    what [saveBill] does on the same slot: the same record is returned and
    the same text is written. *)
Theorem saveBill2_agrees_with_saveBill key today now created billData ls bills :
  stored key ls bills → some (same_details billData) bills = Ok false →
  saveBill2 key today now created billData ls
  = saveBill key today now created billData ls.
Proof. apply saveBill2_as_saveBill. Qed.

Lemma saveBill2_agrees_with_saveBill_witness :
  stored saved_bills02 acme_store [VObj acme_bill]
  ∧ some (same_details acme_second_invoice) [VObj acme_bill] = Ok false
  ∧ saveBill2 saved_bills02 sample_date later_now sample_date acme_second_invoice acme_store
    = saveBill saved_bills02 sample_date later_now sample_date acme_second_invoice
        acme_store.
Proof.
  assert (stored saved_bills02 acme_store [VObj acme_bill]) as Hst
    by (vm_compute; reflexivity).
  assert (some (same_details acme_second_invoice) [VObj acme_bill] = Ok false) as Hsome
    by (vm_compute; reflexivity).
  split; [exact Hst|]. split; [exact Hsome|].
  exact (saveBill2_agrees_with_saveBill saved_bills02 sample_date later_now sample_date
           acme_second_invoice acme_store [VObj acme_bill] Hst Hsome).
Defined.

(** X8. Saving a bill under an identifier that no stored record has, and
    then deleting that identifier, gives back the array that was stored
    before the save. *)
Theorem save_then_delete_restores key today now created billData ls bills :
  stored key ls bills →
  Forall (other_bill (Number_toString now)) bills →
  ∃ newBill ls1 ls2,
    saveBill key today now created billData ls = (Ok newBill, ls1)
    ∧ deleteBill key (Number_toString now) ls1 = (Ok true, ls2)
    ∧ stored key ls2 bills.
Proof.
  intros Hst Hfresh.
  pose proof (stored_after_save key today now created billData ls bills Hst) as Hst1.
  rewrite (saveBill_at _ _ _ _ _ _ _ Hst) in Hst1 |- *. cbn [snd] in Hst1.
  destruct (deleteBill_present key (Number_toString now) _ bills _ [] Hst1 Hfresh)
    as (ls2 & Hdel & Hst2).
  { apply bill_has_id_jsonify, new_record_has_id. }
  rewrite app_nil_r in Hst2. by eexists _, _, ls2.
Qed.

Lemma save_then_delete_restores_witness :
  stored saved_bills acme_saved [VObj acme_bill]
  ∧ Forall (other_bill (Number_toString later_now)) [VObj acme_bill]
  ∧ ∃ newBill ls1 ls2,
      saveBill saved_bills sample_date later_now sample_date globex acme_saved
      = (Ok newBill, ls1)
      ∧ deleteBill saved_bills (Number_toString later_now) ls1 = (Ok true, ls2)
      ∧ stored saved_bills ls2 [VObj acme_bill].
Proof.
  assert (stored saved_bills acme_saved [VObj acme_bill]) as Hst
    by (vm_compute; reflexivity).
  assert (Forall (other_bill (Number_toString later_now)) [VObj acme_bill]) as Hfresh.
  { repeat constructor. }
  split; [exact Hst|]. split; [exact Hfresh|].
  exact (save_then_delete_restores saved_bills sample_date later_now sample_date globex
           acme_saved [VObj acme_bill] Hst Hfresh).
Defined.

Lemma find_all_other id bills :
  Forall (other_bill id) bills → List.find (bill_has_id id) bills = None.
Proof. intros H. by rewrite <-(app_nil_r bills), find_other. Qed.

(** X9. [deleteBill] removes the first record with the identifier and no
    other: a lookup of the identifier afterwards returns the next record
    that has it, if there is one.  When no later record has it, the lookup
    returns [null] and a second deletion returns [false]. *)
Theorem delete_then_lookup key id ls before bill after :
  stored key ls (before ++ bill :: after) →
  Forall (other_bill id) before → bill_has_id id bill = true →
  Forall (λ bill, bill ≠ VNull) after →
  ∃ ls', deleteBill key id ls = (Ok true, ls')
    ∧ getBillById key id ls'
      = (Ok (default VNull (List.find (bill_has_id id) after)), ls')
    ∧ (Forall (other_bill id) after →
       getBillById key id ls' = (Ok VNull, ls')
       ∧ deleteBill key id ls' = (Ok false, ls')).
Proof.
  intros Hst Hbefore Hid Hafter.
  destruct (deleteBill_present key id ls before bill after Hst Hbefore Hid)
    as (ls' & Hdel & Hst').
  exists ls'. split; [exact Hdel|]. split.
  - rewrite (getBillById_search key id ls' _ Hst'), find_other; [done..|].
    apply Forall_app. split; [by eapply other_bill_not_null|done].
  - intros Hothers. split.
    + apply (getBillById_missing key id ls' _ Hst'). by apply Forall_app.
    + apply (deleteBill_missing key id ls' _ Hst'). by apply Forall_app.
Qed.

Lemma delete_then_lookup_witness :
  stored saved_bills02 acme_store ([] ++ VObj acme_bill :: [])
  ∧ ∃ ls', deleteBill saved_bills02 "1714557600000" acme_store = (Ok true, ls')
      ∧ getBillById saved_bills02 "1714557600000" ls' = (Ok VNull, ls')
      ∧ deleteBill saved_bills02 "1714557600000" ls' = (Ok false, ls').
Proof.
  assert (stored saved_bills02 acme_store ([] ++ VObj acme_bill :: [])) as Hst
    by (vm_compute; reflexivity).
  split; [exact Hst|].
  destruct (delete_then_lookup saved_bills02 "1714557600000" acme_store [] (VObj acme_bill)
              [] Hst (Forall_nil_2 _) eq_refl (Forall_nil_2 _))
    as (ls' & Hdel & _ & Hgone).
  exists ls'. split; [exact Hdel|]. exact (Hgone (Forall_nil_2 _)).
Defined.

Lemma jsonify_obj_eq m m' :
  (∀ k, m' !! k = match m !! k with
                  | Some VUndefined | None => None
                  | Some x => Some (jsonify x)
                  end) →
  jsonify (VObj m) = VObj m'.
Proof.
  intros H. cbn. f_equal. apply map_eq. intros k. rewrite H, lookup_omap.
  destruct (m !! k) as [x|]; [|done]. by destruct x.
Qed.

(** X10. A lookup after a successful [updateBill] returns the stored copy
    of the record the update returned, with the new time stamp. *)
Theorem update_then_lookup key updated id billData ls before existing after :
  stored key ls (before ++ VObj existing :: after) →
  Forall (other_bill id) before → bill_has_id id (VObj existing) = true →
  ∃ returned ls',
    updateBill key updated id billData ls = (Ok returned, ls')
    ∧ getBillById key id ls' = (Ok (jsonify returned), ls')
    ∧ prop (jsonify returned) "updatedAt" = Ok (VStr (toISOString updated)).
Proof.
  intros Hst Hbefore Hid.
  destruct (updateBill_present key updated id billData ls before existing after
              Hst Hbefore Hid) as (ls' & Hrun & Hst').
  eexists _, ls'. split; [exact Hrun|]. split.
  - apply (getBillById_present key id ls' before _ after Hst' Hbefore).
    apply bill_has_id_jsonify, bill_has_id_lookup. eexists. split; [reflexivity|].
    apply bill_has_id_lookup in Hid as (? & [= <-] & Hid).
    rewrite Hid. by simplify_map_eq.
  - apply prop_jsonify_obj; [cbn; by simplify_map_eq|by left].
Qed.

Lemma update_then_lookup_witness :
  stored saved_bills02 acme_store ([] ++ VObj acme_bill :: [])
  ∧ ∃ returned ls',
      updateBill saved_bills02 sample_date "1714557600000" hostile_update acme_store
      = (Ok returned, ls')
      ∧ getBillById saved_bills02 "1714557600000" ls' = (Ok (jsonify returned), ls')
      ∧ prop (jsonify returned) "updatedAt" = Ok (VStr (toISOString sample_date)).
Proof.
  assert (stored saved_bills02 acme_store ([] ++ VObj acme_bill :: [])) as Hst
    by (vm_compute; reflexivity).
  split; [exact Hst|].
  exact (update_then_lookup saved_bills02 sample_date "1714557600000" hostile_update
           acme_store [] acme_bill [] Hst (Forall_nil_2 _) eq_refl).
Defined.

Lemma updateBillStatus_present_any key updated id status ls before existing after :
  stored key ls (before ++ VObj existing :: after) →
  Forall (other_bill id) before → bill_has_id id (VObj existing) = true →
  ∃ ls', updateBillStatus key updated id status ls = (Ok (), ls')
    ∧ stored key ls'
        (before
         ++ jsonify (VObj (<["updatedAt" := VStr (toISOString updated)]>
                          (<["status" := status]> existing)))
         :: after).
Proof.
  intros Hst Hbefore Hid. eexists. split.
  - apply (updateBillStatus_at key updated id status ls _ (Z.of_nat (length before)) existing Hst).
    + by apply findIndex_present.
    + lia.
    + rewrite Nat2Z.id. by apply list_lookup_middle.
  - rewrite Nat2Z.id, insert_app_r_alt, Nat.sub_diag by done.
    cbn [insert list_insert]. unfold stored. rewrite stored_setItem.
    apply stored_is_json, is_json_middle in Hst as (Hb & Hm & Ha).
    by rewrite jsonify_arr_middle.
Qed.

(** X11. A lookup after [updateBillStatus] on a stored identifier returns
    the stored copy of the record with the new status and time stamp, for
    any status value. *)
Theorem updateStatus_then_lookup key updated id status ls before existing after :
  stored key ls (before ++ VObj existing :: after) →
  Forall (other_bill id) before → bill_has_id id (VObj existing) = true →
  ∃ ls',
    updateBillStatus key updated id status ls = (Ok (), ls')
    ∧ getBillById key id ls'
      = (Ok (jsonify (VObj (<["updatedAt" := VStr (toISOString updated)]>
                           (<["status" := status]> existing)))), ls').
Proof.
  intros Hst Hbefore Hid.
  destruct (updateBillStatus_present_any key updated id status ls before existing after
              Hst Hbefore Hid) as (ls' & Hrun & Hst').
  exists ls'. split; [exact Hrun|].
  apply (getBillById_present key id ls' before _ after Hst' Hbefore).
  apply bill_has_id_jsonify, bill_has_id_lookup. eexists. split; [reflexivity|].
  apply bill_has_id_lookup in Hid as (? & [= <-] & Hid). by simplify_map_eq.
Qed.

Lemma updateStatus_then_lookup_witness :
  stored saved_bills02 acme_store ([] ++ VObj acme_bill :: [])
  ∧ ∃ ls',
      updateBillStatus saved_bills02 sample_date "1714557600000" (VStr "Paid") acme_store
      = (Ok (), ls')
      ∧ getBillById saved_bills02 "1714557600000" ls'
        = (Ok (jsonify (VObj (<["updatedAt" := VStr (toISOString sample_date)]>
                             (<["status" := VStr "Paid"]> acme_bill)))), ls').
Proof.
  assert (stored saved_bills02 acme_store ([] ++ VObj acme_bill :: [])) as Hst
    by (vm_compute; reflexivity).
  split; [exact Hst|].
  exact (updateStatus_then_lookup saved_bills02 sample_date "1714557600000" (VStr "Paid")
           acme_store [] acme_bill [] Hst (Forall_nil_2 _) eq_refl).
Defined.

(** X12. [updateBillStatus] with [undefined] for the status does not store
    an undefined status: [JSON.stringify] omits the property, so the stored
    record loses its [status] field and gains the time stamp. *)
Theorem updateStatus_undefined_drops_status key updated id ls before existing after :
  stored key ls (before ++ VObj existing :: after) →
  Forall (other_bill id) before → bill_has_id id (VObj existing) = true →
  ∃ ls',
    updateBillStatus key updated id VUndefined ls = (Ok (), ls')
    ∧ stored key ls'
        (before
         ++ VObj (<["updatedAt" := VStr (toISOString updated)]> (delete "status" existing))
         :: after).
Proof.
  intros Hst Hbefore Hid.
  destruct (updateBillStatus_present_any key updated id VUndefined ls before existing after
              Hst Hbefore Hid) as (ls' & Hrun & Hst').
  exists ls'. split; [exact Hrun|].
  erewrite jsonify_obj_eq in Hst'; [exact Hst'|].
  apply stored_is_json, is_json_middle in Hst as (_ & Hm & _).
  intros k. destruct (decide (k = "updatedAt")) as [->|Hu]; [by simplify_map_eq|].
  destruct (decide (k = "status")) as [->|Hs]; [by simplify_map_eq|].
  rewrite !lookup_insert_ne, lookup_delete_ne by done.
  destruct (existing !! k) as [x|] eqn:Hk; [|done].
  pose proof (is_json_lookup _ _ _ Hm Hk) as Hx.
  rewrite (jsonify_is_json x Hx). by destruct x.
Qed.

Lemma updateStatus_undefined_drops_status_witness :
  stored saved_bills02 acme_store ([] ++ VObj acme_bill :: [])
  ∧ ∃ ls',
      updateBillStatus saved_bills02 sample_date "1714557600000" VUndefined acme_store
      = (Ok (), ls')
      ∧ stored saved_bills02 ls'
          ([] ++ VObj (<["updatedAt" := VStr (toISOString sample_date)]>
                         (delete "status" acme_bill)) :: []).
Proof.
  assert (stored saved_bills02 acme_store ([] ++ VObj acme_bill :: [])) as Hst
    by (vm_compute; reflexivity).
  split; [exact Hst|].
  exact (updateStatus_undefined_drops_status saved_bills02 sample_date "1714557600000"
           acme_store [] acme_bill [] Hst (Forall_nil_2 _) eq_refl).
Defined.

Lemma is_json_new_record today now created count billData :
  is_json (VObj billData) = true →
  is_json (new_record today now created count billData) = true.
Proof. intros H. by apply (is_json_new billData today now created count). Qed.

(** X13. When the clock gives an identifier that no stored record has, a
    lookup of the identifier of the record just saved returns its stored
    copy, which is the returned record itself for a JSON payload; so for
    [saveBill], and for [saveBill2] when its duplicate check passes. *)
Theorem save_then_lookup_fresh key today now created billData ls bills :
  stored key ls bills →
  Forall (other_bill (Number_toString now)) bills →
  (∃ newBill ls',
     saveBill key today now created billData ls = (Ok newBill, ls')
     ∧ getBillById key (Number_toString now) ls' = (Ok (jsonify newBill), ls')
     ∧ (is_json (VObj billData) = true → jsonify newBill = newBill))
  ∧ (some (same_details billData) bills = Ok false →
     ∃ newBill ls',
       saveBill2 key today now created billData ls = (Ok newBill, ls')
       ∧ getBillById key (Number_toString now) ls' = (Ok (jsonify newBill), ls')
       ∧ (is_json (VObj billData) = true → jsonify newBill = newBill)).
Proof.
  intros Hst Hfresh.
  pose proof (stored_after_save key today now created billData ls bills Hst) as Hst'.
  assert (∃ newBill ls',
     saveBill key today now created billData ls = (Ok newBill, ls')
     ∧ getBillById key (Number_toString now) ls' = (Ok (jsonify newBill), ls')
     ∧ (is_json (VObj billData) = true → jsonify newBill = newBill)) as Hsave.
  { rewrite (saveBill_at _ _ _ _ _ _ _ Hst) in Hst' |- *. cbn [snd] in Hst'.
    eexists _, _. split; [reflexivity|]. split.
    - apply (getBillById_present key _ _ bills _ [] Hst' Hfresh).
      apply bill_has_id_jsonify, new_record_has_id.
    - intros Hjson. by apply jsonify_is_json, is_json_new_record. }
  split; [exact Hsave|]. intros Hsome.
  by rewrite (saveBill2_as_saveBill _ _ _ _ _ _ _ Hst Hsome).
Qed.

Lemma save_then_lookup_fresh_witness :
  stored saved_bills acme_saved [VObj acme_bill]
  ∧ Forall (other_bill (Number_toString later_now)) [VObj acme_bill]
  ∧ ∃ newBill ls',
      saveBill saved_bills sample_date later_now sample_date globex acme_saved
      = (Ok newBill, ls')
      ∧ getBillById saved_bills (Number_toString later_now) ls'
        = (Ok (jsonify newBill), ls')
      ∧ (is_json (VObj globex) = true → jsonify newBill = newBill).
Proof.
  assert (stored saved_bills acme_saved [VObj acme_bill]) as Hst
    by (vm_compute; reflexivity).
  assert (Forall (other_bill (Number_toString later_now)) [VObj acme_bill]) as Hfresh.
  { repeat constructor. }
  split; [exact Hst|]. split; [exact Hfresh|].
  exact (proj1 (save_then_lookup_fresh saved_bills sample_date later_now sample_date globex
                  acme_saved [VObj acme_bill] Hst Hfresh)).
Defined.

Lemma invoice_number_of_new today now created count billData :
  prop (new_record today now created count billData) "invoiceNumber"
  = Ok (VStr (invoice_number today count)).
Proof. cbn. by simplify_map_eq. Qed.

(** X14. Invoice numbers are not unique: the sequence is the length of the
    array plus one, so a bill saved after a deletion gets the invoice
    number of the bill saved just before that deletion, and both records
    are stored. *)
Theorem delete_then_save_reuses_number key today now1 created1 data1 now2 created2 data2 id ls
    before bill after :
  stored key ls (before ++ bill :: after) →
  Forall (other_bill id) before → bill_has_id id bill = true →
  ∃ first ls1 ls2 second ls3,
    saveBill key today now1 created1 data1 ls = (Ok first, ls1)
    ∧ deleteBill key id ls1 = (Ok true, ls2)
    ∧ saveBill key today now2 created2 data2 ls2 = (Ok second, ls3)
    ∧ stored key ls3 (before ++ after ++ [jsonify first; jsonify second])
    ∧ prop first "invoiceNumber" = prop second "invoiceNumber".
Proof.
  intros Hst Hbefore Hid.
  pose proof (stored_after_save key today now1 created1 data1 ls _ Hst) as Hst1.
  rewrite (saveBill_at _ _ _ _ _ _ _ Hst) in Hst1 |- *. cbn [snd] in Hst1.
  set (ls1 := written key _ ls) in *.
  rewrite <-app_assoc in Hst1. cbn [app] in Hst1.
  destruct (deleteBill_present key id _ before bill _ Hst1 Hbefore Hid)
    as (ls2 & Hdel & Hst2).
  pose proof (stored_after_save key today now2 created2 data2 ls2 _ Hst2) as Hst3.
  rewrite (saveBill_at _ _ _ _ _ _ _ Hst2) in Hst3. cbn [snd] in Hst3.
  set (ls3 := written key _ ls2) in *.
  eexists _, ls1, ls2, _, ls3. split; [reflexivity|]. split; [exact Hdel|].
  split; [exact (saveBill_at _ _ _ _ _ _ _ Hst2)|]. split.
  - rewrite <-!app_assoc in Hst3. exact Hst3.
  - assert (∀ x : value, length (before ++ after ++ [x]) = length (before ++ bill :: after))
      as Hlen by (intros x; repeat (rewrite length_app || cbn [length]); lia).
    by rewrite !invoice_number_of_new, Hlen.
Qed.

Lemma delete_then_save_reuses_number_witness :
  stored saved_bills acme_saved ([] ++ VObj acme_bill :: [])
  ∧ ∃ first ls1 ls2 second ls3,
      saveBill saved_bills sample_date later_now sample_date globex acme_saved
      = (Ok first, ls1)
      ∧ deleteBill saved_bills "1714557600000" ls1 = (Ok true, ls2)
      ∧ saveBill saved_bills sample_date sample_now sample_date acme ls2 = (Ok second, ls3)
      ∧ stored saved_bills ls3 ([] ++ [] ++ [jsonify first; jsonify second])
      ∧ prop first "invoiceNumber" = prop second "invoiceNumber".
Proof.
  assert (stored saved_bills acme_saved ([] ++ VObj acme_bill :: [])) as Hst
    by (vm_compute; reflexivity).
  split; [exact Hst|].
  exact (delete_then_save_reuses_number saved_bills sample_date later_now sample_date
           globex sample_now sample_date acme "1714557600000" acme_saved [] (VObj acme_bill)
           [] Hst (Forall_nil_2 _) eq_refl).
Defined.

(** X15. [saveBill] has no duplicate check: the same payload saved twice
    is stored twice, in the order of the calls, under consecutive invoice
    sequences. *)
Theorem saveBill_same_payload_twice key today now1 created1 now2 created2 billData ls bills :
  stored key ls bills →
  ∃ first ls1 second ls2,
    saveBill key today now1 created1 billData ls = (Ok first, ls1)
    ∧ saveBill key today now2 created2 billData ls1 = (Ok second, ls2)
    ∧ stored key ls2 (bills ++ [jsonify first; jsonify second])
    ∧ prop first "invoiceNumber" = Ok (VStr (invoice_number today (length bills)))
    ∧ prop second "invoiceNumber" = Ok (VStr (invoice_number today (S (length bills)))).
Proof.
  intros Hst.
  pose proof (stored_after_save key today now1 created1 billData ls _ Hst) as Hst1.
  rewrite (saveBill_at _ _ _ _ _ _ _ Hst) in Hst1 |- *. cbn [snd] in Hst1.
  set (ls1 := written key _ ls) in *.
  pose proof (stored_after_save key today now2 created2 billData _ _ Hst1) as Hst2.
  rewrite (saveBill_at _ _ _ _ _ _ _ Hst1) in Hst2. cbn [snd] in Hst2.
  set (ls2 := written key _ ls1) in *.
  eexists _, ls1, _, ls2. split; [reflexivity|].
  split; [exact (saveBill_at _ _ _ _ _ _ _ Hst1)|].
  split; [by rewrite <-app_assoc in Hst2|].
  rewrite !invoice_number_of_new. split; [done|].
  rewrite length_app. cbn [length]. by rewrite Nat.add_1_r.
Qed.

Lemma saveBill_same_payload_twice_witness :
  stored saved_bills empty_storage []
  ∧ ∃ first ls1 second ls2,
      saveBill saved_bills sample_date sample_now sample_date acme empty_storage
      = (Ok first, ls1)
      ∧ saveBill saved_bills sample_date later_now sample_date acme ls1 = (Ok second, ls2)
      ∧ stored saved_bills ls2 ([] ++ [jsonify first; jsonify second])
      ∧ prop first "invoiceNumber" = Ok (VStr (invoice_number sample_date 0))
      ∧ prop second "invoiceNumber" = Ok (VStr (invoice_number sample_date 1)).
Proof.
  assert (stored saved_bills empty_storage []) as Hst by (vm_compute; reflexivity).
  split; [exact Hst|].
  exact (saveBill_same_payload_twice saved_bills sample_date sample_now sample_date
           later_now sample_date acme empty_storage [] Hst).
Defined.

Lemma some_app_false p l1 l2 :
  some p l1 = Ok false → some p (l1 ++ l2) = some p l2.
Proof.
  induction l1 as [|x l1 IH]; [done|]. cbn.
  destruct (p x) as [[]|]; cbn; [done|exact IH|done].
Qed.

Lemma str_field_stored today now created count billData k s :
  str_field billData k = Some s →
  k ∉ ["id"; "invoiceNumber"; "status"; "createdAt"] →
  str_field (spread (jsonify (new_record today now created count billData))) k = Some s.
Proof.
  intros Hs Hk. unfold str_field in *. cbn [new_record jsonify spread].
  rewrite !not_elem_of_cons in Hk. destruct Hk as (? & ? & ? & ? & _).
  rewrite lookup_omap, !lookup_insert_ne by done.
  by destruct (billData !! k) as [[]|].
Qed.

Lemma details_of_stored today now created count billData d :
  details_of (VObj billData) = Some d →
  details_of (jsonify (new_record today now created count billData)) = Some d.
Proof.
  intros Hd. cbn [details_of] in Hd.
  destruct (str_field billData "customer") as [c |] eqn:Hc; [| done].
  destruct (str_field billData "address") as [a |] eqn:Ha; [| done].
  destruct (str_field billData "city") as [t |] eqn:Ht; [| done].
  destruct (str_field billData "invoice") as [i |] eqn:Hi; [| done].
  apply (str_field_stored today now created count) in Hc, Ha, Ht, Hi;
    try (rewrite !not_elem_of_cons; split_and!; try done; apply not_elem_of_nil).
  cbn [new_record jsonify spread details_of] in *.
  by rewrite Hc, Ha, Ht, Hi.
Qed.

Lemma same_bill_refl d : same_bill d d.
Proof. by repeat split. Qed.

(** X16. What [saveBill2] has saved it refuses to save again: after a
    successful save of a payload that carries the four compared fields as
    strings, a second [saveBill2] of the same payload throws the duplicate
    error and writes nothing, whatever the clock. *)
Theorem saveBill2_rejects_resave key today now created today' now' created' billData d ls bills :
  stored key ls bills →
  details_of (VObj billData) = Some d →
  some (same_details billData) bills = Ok false →
  ∃ newBill ls',
    saveBill2 key today now created billData ls = (Ok newBill, ls')
    ∧ saveBill2 key today' now' created' billData ls'
      = (Throw (Error duplicate_message), ls').
Proof.
  intros Hst Hd Hsome.
  pose proof (stored_after_save key today now created billData ls _ Hst) as Hst'.
  rewrite (saveBill2_as_saveBill _ _ _ _ _ _ _ Hst Hsome).
  rewrite (saveBill_at _ _ _ _ _ _ _ Hst) in Hst' |- *. cbn [snd] in Hst'.
  eexists _, _. split; [reflexivity|].
  apply (saveBill2_duplicate _ _ _ _ _ _ _ Hst').
  rewrite (some_app_false _ _ _ Hsome). cbn [some].
  rewrite (same_details_typed billData _ d d Hd)
    by (by apply details_of_stored).
  by rewrite bool_decide_eq_true_2 by apply same_bill_refl.
Qed.

Lemma saveBill2_rejects_resave_witness :
  stored saved_bills02 empty_storage []
  ∧ details_of (VObj acme) = Some acme_details
  ∧ ∃ newBill ls',
      saveBill2 saved_bills02 sample_date sample_now sample_date acme empty_storage
      = (Ok newBill, ls')
      ∧ saveBill2 saved_bills02 sample_date later_now sample_date acme ls'
        = (Throw (Error duplicate_message), ls').
Proof.
  assert (stored saved_bills02 empty_storage []) as Hst by (vm_compute; reflexivity).
  assert (details_of (VObj acme) = Some acme_details) as Hd by (vm_compute; reflexivity).
  split; [exact Hst|]. split; [exact Hd|].
  exact (saveBill2_rejects_resave saved_bills02 sample_date sample_now sample_date
           sample_date later_now sample_date acme acme_details empty_storage [] Hst Hd
           eq_refl).
Defined.

(** X17. [updateBill] with an empty payload changes nothing in the stored
    record but the time stamp [updatedAt]. *)
Theorem update_empty_payload key updated id ls before existing after :
  stored key ls (before ++ VObj existing :: after) →
  Forall (other_bill id) before → bill_has_id id (VObj existing) = true →
  ∃ returned ls',
    updateBill key updated id ∅ ls = (Ok returned, ls')
    ∧ stored key ls'
        (before ++ VObj (<["updatedAt" := VStr (toISOString updated)]> existing) :: after).
Proof.
  intros Hst Hbefore Hid.
  destruct (updateBill_present key updated id ∅ ls before existing after
              Hst Hbefore Hid) as (ls' & Hrun & Hst').
  eexists _, ls'. split; [exact Hrun|].
  erewrite jsonify_obj_eq in Hst'; [exact Hst'|].
  apply stored_is_json, is_json_middle in Hst as (_ & Hm & _).
  pose (stored_field := λ x, match x with
                              | VUndefined => None
                              | _ => Some (jsonify x)
                              end).
  assert (∀ k, stored_field (default VUndefined (existing !! k)) = existing !! k) as Hkeep.
  { intros k. destruct (existing !! k) as [x|] eqn:Hk; [|done].
    pose proof (jsonify_is_json x (is_json_lookup _ _ _ Hm Hk)) as Hj.
    pose proof (is_json_lookup _ _ _ Hm Hk) as Hx.
    change (default VUndefined (Some x)) with x. unfold stored_field.
    destruct x; try done; by rewrite Hj. }
  intros k. rewrite (left_id_L ∅ (∪)).
  destruct (decide (k = "updatedAt")) as [->|Hu]; [by simplify_map_eq|].
  destruct (decide (k = "createdAt")) as [->|Hc].
  { rewrite lookup_insert_ne, (lookup_insert_ne _ "updatedAt"), lookup_insert_eq by done.
    symmetry. exact (Hkeep "createdAt"). }
  destruct (decide (k = "invoiceNumber")) as [->|Hn].
  { rewrite lookup_insert_ne, !(lookup_insert_ne _ _ "invoiceNumber"), lookup_insert_eq by done.
    symmetry. exact (Hkeep "invoiceNumber"). }
  destruct (decide (k = "id")) as [->|Hi].
  { rewrite lookup_insert_ne, !(lookup_insert_ne _ _ "id"), lookup_insert_eq by done.
    symmetry. exact (Hkeep "id"). }
  rewrite !lookup_insert_ne by done. rewrite <-(Hkeep k) at 1.
  unfold stored_field. by destruct (existing !! k) as [[]|].
Qed.

Lemma update_empty_payload_witness :
  stored saved_bills02 acme_store ([] ++ VObj acme_bill :: [])
  ∧ ∃ returned ls',
      updateBill saved_bills02 sample_date "1714557600000" ∅ acme_store = (Ok returned, ls')
      ∧ stored saved_bills02 ls'
          ([] ++ VObj (<["updatedAt" := VStr (toISOString sample_date)]> acme_bill) :: []).
Proof.
  assert (stored saved_bills02 acme_store ([] ++ VObj acme_bill :: [])) as Hst
    by (vm_compute; reflexivity).
  split; [exact Hst|].
  exact (update_empty_payload saved_bills02 sample_date "1714557600000" acme_store []
           acme_bill [] Hst (Forall_nil_2 _) eq_refl).
Defined.

Lemma same_details_untyped billData bill :
  (∀ s, prop bill "customer" ≠ Ok (VStr s)) →
  same_details billData bill = Throw TypeError.
Proof.
  intros Hc. unfold same_details.
  destruct bill as [| | | | | |m]; try done.
  cbn in Hc |- *. destruct (default VUndefined (m !! "customer")); try done.
  by destruct (Hc s).
Qed.

Lemma saveBill2_untyped_first key today now created billData ls bill rest :
  stored key ls (bill :: rest) →
  (∀ s, prop bill "customer" ≠ Ok (VStr s)) →
  saveBill2 key today now created billData ls = (Throw TypeError, ls).
Proof.
  intros Hst Hc. unfold saveBill2. rewrite (read_first_stored _ _ _ _ Hst).
  erewrite js_bind_lift_throw; [done|].
  cbn [some]. by rewrite same_details_untyped.
Qed.

(** X18. The duplicate check does not run on an empty store, so
    [saveBill2] accepts a first payload without a string [customer]; from
    then on the check calls [toLowerCase] on that record's missing
    customer, and every [saveBill2] throws a [TypeError] without
    writing. *)
Theorem saveBill2_first_record_without_customer key today now created billData ls :
  stored key ls [] →
  (∀ s, billData !! "customer" ≠ Some (VStr s)) →
  ∃ newBill ls',
    saveBill2 key today now created billData ls = (Ok newBill, ls')
    ∧ ∀ today' now' created' billData',
        saveBill2 key today' now' created' billData' ls' = (Throw TypeError, ls').
Proof.
  intros Hst Hc.
  pose proof (stored_after_save key today now created billData ls _ Hst) as Hst'.
  rewrite (saveBill2_as_saveBill _ _ _ _ _ _ _ Hst eq_refl).
  rewrite (saveBill_at _ _ _ _ _ _ _ Hst) in Hst' |- *. cbn [snd app] in Hst'.
  eexists _, _. split; [reflexivity|]. intros today' now' created' billData'.
  apply (saveBill2_untyped_first _ _ _ _ _ _ _ _ Hst').
  intros s. cbn [new_record jsonify prop]. rewrite lookup_omap.
  rewrite !lookup_insert_ne by done.
  destruct (billData !! "customer") as [x|] eqn:Hx; [|done].
  destruct x; try done. cbn. intros [= ->]. by destruct (Hc s).
Qed.

Lemma saveBill2_first_record_without_customer_witness :
  stored saved_bills02 empty_storage []
  ∧ ∃ newBill ls',
      saveBill2 saved_bills02 sample_date sample_now sample_date ∅ empty_storage
      = (Ok newBill, ls')
      ∧ saveBill2 saved_bills02 sample_date later_now sample_date acme ls'
        = (Throw TypeError, ls').
Proof.
  assert (stored saved_bills02 empty_storage []) as Hst by (vm_compute; reflexivity).
  assert (∀ s, (∅ : gmap string value) !! "customer" ≠ Some (VStr s)) as Hc.
  { intros s. rewrite lookup_empty. discriminate. }
  split; [exact Hst|].
  destruct (saveBill2_first_record_without_customer saved_bills02 sample_date sample_now
              sample_date ∅ empty_storage Hst Hc) as (newBill & ls' & Hsave & Hlater).
  exists newBill, ls'. split; [exact Hsave|].
  exact (Hlater sample_date later_now sample_date acme).
Defined.

(** ** What an update never touches *)

Lemma jsonify_arr_insert bills n x :
  is_json (VArr bills) = true → x ≠ VUndefined →
  jsonify (VArr (<[n := x]> bills)) = VArr (<[n := jsonify x]> bills).
Proof.
  intros Hjson Hx. destruct (decide (n < length bills)) as [Hn|Hn].
  - rewrite !insert_take_drop by done.
    rewrite <-(take_drop_middle bills n (bills !!! n)) in Hjson
      by (by apply list_lookup_lookup_total_lt).
    apply is_json_middle in Hjson as (Ht & _ & Hd).
    by apply jsonify_arr_middle.
  - rewrite !list_insert_ge by lia. by apply jsonify_is_json.
Qed.

Lemma column_insert k bills n x y :
  bills !! n = Some y → prop x k = prop y k →
  column k (<[n := x]> bills) = column k bills.
Proof.
  intros Hn Hk. unfold column. rewrite list_fmap_insert.
  apply list_insert_id. by rewrite list_lookup_fmap, Hn, Hk.
Qed.

Lemma stored_insert key ls bills n x :
  stored key ls bills → x ≠ VUndefined →
  stored key (written key (stringified (VArr (<[n := x]> bills))) ls)
    (<[n := jsonify x]> bills).
Proof.
  intros Hst Hx. unfold stored. rewrite stored_setItem.
  rewrite jsonify_arr_insert; [done| |done]. by eapply stored_is_json.
Qed.

Lemma prop_updated_record updated billData existing k :
  is_json (VObj existing) = true →
  k ∈ ["id"; "invoiceNumber"; "createdAt"] →
  prop (jsonify (updated_record updated billData existing)) k = prop (VObj existing) k.
Proof.
  intros Hjson Hk.
  destruct (prop_is_json_or_undefined existing k Hjson) as (x & Hx & Hor).
  rewrite Hx. apply prop_jsonify_obj; [|done].
  cbn in Hx |- *. injection Hx as <-.
  rewrite !elem_of_cons in Hk. destruct Hk as [->|[->|[->|Hk]]].
  - by simplify_map_eq.
  - by simplify_map_eq.
  - by simplify_map_eq.
  - by apply elem_of_nil in Hk.
Qed.

Lemma prop_status_record updated status existing k :
  is_json (VObj existing) = true →
  k ∈ ["id"; "invoiceNumber"; "createdAt"] →
  prop (jsonify (VObj (<["updatedAt" := VStr (toISOString updated)]>
                      (<["status" := status]> existing)))) k
  = prop (VObj existing) k.
Proof.
  intros Hjson Hk.
  destruct (prop_is_json_or_undefined existing k Hjson) as (x & Hx & Hor).
  rewrite Hx. apply prop_jsonify_obj; [|done].
  cbn in Hx |- *. injection Hx as <-.
  rewrite !elem_of_cons in Hk. destruct Hk as [->|[->|[->|Hk]]].
  - by simplify_map_eq.
  - by simplify_map_eq.
  - by simplify_map_eq.
  - by apply elem_of_nil in Hk.
Qed.

Lemma generated_fields_kept key updated id billData status ls bills k :
  stored key ls bills →
  k ∈ ["id"; "invoiceNumber"; "createdAt"] →
  (∃ bills', stored key (updateBill key updated id billData ls).2 bills'
             ∧ column k bills' = column k bills)
  ∧ (∃ bills', stored key (updateBillStatus key updated id status ls).2 bills'
               ∧ column k bills' = column k bills).
Proof.
  intros Hst Hk.
  destruct (findIndex (has_id id) bills) as [i|e] eqn:Hfind.
  - destruct (decide (i = (-1)%Z)) as [->|Hi].
    + rewrite (updateBill_absent _ _ _ _ _ _ Hst Hfind).
      rewrite (updateBillStatus_absent _ _ _ _ _ _ Hst Hfind). by split; exists bills.
    + destruct (findIndex_finds_object _ _ _ Hfind Hi) as (m & Hm & _).
      assert (is_json (VObj m) = true) as Hjson.
      { eapply elem_of_stored; [exact Hst|]. by eapply list_elem_of_lookup_2. }
      rewrite (updateBill_at _ _ _ _ _ _ _ _ Hst Hfind Hi Hm).
      rewrite (updateBillStatus_at _ _ _ _ _ _ _ _ Hst Hfind Hi Hm). cbn [snd].
      split; eexists; (split; [by apply stored_insert|]).
      * apply (column_insert _ _ _ _ _ Hm). by apply prop_updated_record.
      * apply (column_insert _ _ _ _ _ Hm). by apply prop_status_record.
  - unfold updateBill, updateBillStatus. rewrite !(read_first_stored _ _ _ _ Hst).
    erewrite !js_bind_lift_throw by exact Hfind. by split; exists bills.
Qed.

(** X19. The generated fields are immutable: whatever the identifier, the
    payload and the status, and whether the call returns or throws,
    [updateBill] and [updateBillStatus] leave the number and order of the
    stored records and the [id], [invoiceNumber] and [createdAt] of every
    record as they were. *)
Theorem generated_fields_immutable key updated id billData status ls bills k :
  stored key ls bills →
  k ∈ ["id"; "invoiceNumber"; "createdAt"] →
  (∃ bills', stored key (updateBill key updated id billData ls).2 bills'
             ∧ column k bills' = column k bills)
  ∧ (∃ bills', stored key (updateBillStatus key updated id status ls).2 bills'
               ∧ column k bills' = column k bills).
Proof. apply generated_fields_kept. Qed.

Lemma generated_fields_immutable_witness :
  stored saved_bills02 acme_store [VObj acme_bill]
  ∧ "invoiceNumber" ∈ ["id"; "invoiceNumber"; "createdAt"]
  ∧ (∃ bills',
       stored saved_bills02
         (updateBill saved_bills02 sample_date "1714557600000" hostile_update acme_store).2
         bills'
       ∧ column "invoiceNumber" bills' = column "invoiceNumber" [VObj acme_bill])
  ∧ (∃ bills',
       stored saved_bills02
         (updateBillStatus saved_bills02 sample_date "1714557600000" (VStr "Paid")
            acme_store).2 bills'
       ∧ column "invoiceNumber" bills' = column "invoiceNumber" [VObj acme_bill]).
Proof.
  assert (stored saved_bills02 acme_store [VObj acme_bill]) as Hst
    by (vm_compute; reflexivity).
  assert ("invoiceNumber" ∈ ["id"; "invoiceNumber"; "createdAt"]) as Hk
    by (apply list_elem_of_further, list_elem_of_here).
  split; [exact Hst|]. split; [exact Hk|].
  exact (generated_fields_immutable saved_bills02 sample_date "1714557600000" hostile_update
           (VStr "Paid") acme_store [VObj acme_bill] "invoiceNumber" Hst Hk).
Defined.

(** X20. Identifiers that are unique stay unique under [deleteBill],
    [updateBill] and [updateBillStatus], whatever their arguments and
    outcome. *)
Theorem unique_ids_preserved key updated id billData status ls bills :
  stored key ls bills → unique_ids bills →
  (∃ bills', stored key (deleteBill key id ls).2 bills' ∧ unique_ids bills')
  ∧ (∃ bills', stored key (updateBill key updated id billData ls).2 bills'
               ∧ unique_ids bills')
  ∧ (∃ bills', stored key (updateBillStatus key updated id status ls).2 bills'
               ∧ unique_ids bills').
Proof.
  intros Hst Huniq. split.
  - destruct (findIndex (has_id id) bills) as [i|e] eqn:Hfind.
    + destruct (decide (i = (-1)%Z)) as [->|Hi].
      * rewrite (deleteBill_absent _ _ _ _ Hst Hfind). by exists bills.
      * rewrite (deleteBill_at _ _ _ _ _ Hst Hfind Hi). cbn [snd].
        exists (delete (Z.to_nat i) bills). split.
        -- apply stored_setItem_json, is_json_arr, Forall_delete, is_json_arr.
           by eapply stored_is_json.
        -- unfold unique_ids, column. rewrite list_fmap_delete.
           eapply sublist_NoDup; [exact Huniq|apply sublist_delete].
    + unfold deleteBill. rewrite (read_first_stored _ _ _ _ Hst).
      erewrite js_bind_lift_throw by exact Hfind. by exists bills.
  - destruct (generated_fields_kept key updated id billData status ls bills "id" Hst)
      as [(bills1 & Hst1 & Hids1) (bills2 & Hst2 & Hids2)].
    { apply list_elem_of_here. }
    unfold unique_ids in *.
    split; [exists bills1; by rewrite Hids1|exists bills2; by rewrite Hids2].
Qed.

Lemma unique_ids_preserved_witness :
  stored saved_bills02 acme_store [VObj acme_bill]
  ∧ unique_ids [VObj acme_bill]
  ∧ (∃ bills', stored saved_bills02 (deleteBill saved_bills02 "42" acme_store).2 bills'
               ∧ unique_ids bills')
  ∧ (∃ bills',
       stored saved_bills02
         (updateBill saved_bills02 sample_date "1714557600000" hostile_update acme_store).2
         bills'
       ∧ unique_ids bills').
Proof.
  assert (stored saved_bills02 acme_store [VObj acme_bill]) as Hst
    by (vm_compute; reflexivity).
  assert (unique_ids [VObj acme_bill]) as Huniq by apply NoDup_singleton.
  destruct (unique_ids_preserved saved_bills02 sample_date "42" hostile_update (VStr "Paid")
              acme_store [VObj acme_bill] Hst Huniq) as (Hdelete & _ & _).
  destruct (unique_ids_preserved saved_bills02 sample_date "1714557600000" hostile_update
              (VStr "Paid") acme_store [VObj acme_bill] Hst Huniq) as (_ & Hupdate & _).
  split; [exact Hst|]. split; [exact Huniq|]. split; [exact Hdelete|exact Hupdate].
Defined.

(** X21. [saveBill] keeps the identifiers unique exactly when the clock
    reading is the identifier of no stored record; nothing in the code
    makes it so. *)
Theorem save_unique_iff_fresh key today now created billData ls bills :
  stored key ls bills → unique_ids bills →
  ∃ bills', stored key (saveBill key today now created billData ls).2 bills'
    ∧ (unique_ids bills' ↔ Ok (VStr (Number_toString now)) ∉ column "id" bills).
Proof.
  intros Hst Huniq. eexists. split; [by apply stored_after_save|].
  unfold unique_ids, column. rewrite fmap_app. cbn [fmap list_fmap].
  assert (prop (jsonify (new_record today now created (length bills) billData)) "id"
          = Ok (VStr (Number_toString now))) as ->.
  { apply prop_jsonify_obj; [cbn; by simplify_map_eq|by left]. }
  rewrite NoDup_app. split.
  - intros (_ & Hnot & _) Hin. apply (Hnot _ Hin), list_elem_of_here.
  - intros Hfresh. split; [exact Huniq|]. split; [|apply NoDup_singleton].
    intros x Hx ->%list_elem_of_singleton. by apply Hfresh.
Qed.

Lemma save_unique_iff_fresh_witness :
  stored saved_bills acme_saved [VObj acme_bill]
  ∧ unique_ids [VObj acme_bill]
  ∧ ∃ bills',
      stored saved_bills
        (saveBill saved_bills sample_date sample_now sample_date globex acme_saved).2 bills'
      ∧ ¬ unique_ids bills'.
Proof.
  assert (stored saved_bills acme_saved [VObj acme_bill]) as Hst
    by (vm_compute; reflexivity).
  assert (unique_ids [VObj acme_bill]) as Huniq by apply NoDup_singleton.
  split; [exact Hst|]. split; [exact Huniq|].
  destruct (save_unique_iff_fresh saved_bills sample_date sample_now sample_date globex
              acme_saved [VObj acme_bill] Hst Huniq) as (bills' & Hst' & Hiff).
  exists bills'. split; [exact Hst'|].
  intros Hu. apply (proj1 Hiff Hu). apply list_elem_of_here.
Defined.
